(** * Execution core of go-ethereum: interpreter, state transition, block processor

    A shallow embedding of
    - the interpreter, [Interpreter.enforceRestrictions] and [Interpreter.Run]
      (src/core/vm/interpreter.go),
    - the state transition, [IntrinsicGas], [StateTransition] and
      [ApplyMessage] (package core, in the second part of
      src/core/vm/interpreter.go),
    - the block processor, [StateProcessor.Process] and [ApplyTransaction]
      (package core, in the second part of src/core/tx_list.go),
    - the transaction lists of the pool, [txSortedMap] and [txList]
      (package core, in the first part of src/core/tx_list.go),
    and the properties of the execution pipeline and of the lists proved on
    it.

    Conventions.  A Go [uint64] is a [Z] kept in [0, 2^64) by [uint64];
    a [big.Int] is a [Z]; a byte slice is a [list byte] with [nil] as the
    empty list; a Go pointer that is mutated is threaded through as a value
    that is returned.  A Go function that may panic or may not return has
    result type [outcome]. *)

From Stdlib Require Import ZArith List Bool Lia.
From Stdlib.Strings Require Import Byte.
From stdpp Require Import base option list gmap sorting.
Import ListNotations.
Local Open Scope Z_scope.

(** ** Machine integers and big integers *)

Abbreviation bytes := (list byte) (only parsing).
Abbreviation address := Z (only parsing).
Abbreviation hash := Z (only parsing).

Definition MaxUint64 : Z := 2 ^ 64 - 1.

(** Conversion to [uint64]: the low 64 bits. *)
Definition uint64 (z : Z) : Z := z mod 2 ^ 64.

(** The Go type [int] on the 64-bit platforms the node runs on. *)
Definition int (z : Z) : Z := (z + 2 ^ 63) mod 2 ^ 64 - 2 ^ 63.

Module big.
(** [big.Int.BitLen]: the length of the absolute value in bits. *)
Definition BitLen (x : Z) : Z :=
  if Z.abs x =? 0 then 0 else Z.log2 (Z.abs x) + 1.

(** [big.Int.Uint64]: the low 64 bits of the absolute value. *)
Definition Uint64 (x : Z) : Z := uint64 (Z.abs x).

(** [big.Int.Div] with a positive divisor (Euclidean division). *)
Definition Div (x y : Z) : Z := x / y.
End big.

Module math.
(** Modelled from the spec: [math.BigMin] (common/math) is not under src/;
    the spec's refund is "capped at half of the gas actually used", the
    smaller of the two values. *)
Definition BigMin (x y : Z) : Z := if y <? x then y else x.

(** Modelled from the spec: [math.SafeMul] (common/math) is not under src/;
    "overflow in this computation is fatal": the product as a [uint64] and
    whether it overflowed. *)
Definition SafeMul (x y : Z) : Z * bool := (uint64 (x * y), MaxUint64 <? x * y).
End math.

(** ** Errors *)

Inductive error : Type :=
| ErrOutOfGas
| ErrInsufficientBalance
| ErrDepth
| errWriteProtection
| errExecutionReverted
| errGasUintOverflow
| ErrInvalidOpcode (op : byte)      (* fmt.Errorf("invalid opcode 0x%x", int(op)) *)
| ErrNonceTooHigh
| ErrNonceTooLow
| errInsufficientBalanceForGas
| ErrGasLimitReached
| ErrOther (code : Z).              (* an error value of a collaborator *)

Definition error_eqb (a b : error) : bool :=
  match a, b with
  | ErrOutOfGas, ErrOutOfGas
  | ErrInsufficientBalance, ErrInsufficientBalance
  | ErrDepth, ErrDepth
  | errWriteProtection, errWriteProtection
  | errExecutionReverted, errExecutionReverted
  | errGasUintOverflow, errGasUintOverflow
  | ErrNonceTooHigh, ErrNonceTooHigh
  | ErrNonceTooLow, ErrNonceTooLow
  | errInsufficientBalanceForGas, errInsufficientBalanceForGas
  | ErrGasLimitReached, ErrGasLimitReached => true
  | ErrInvalidOpcode x, ErrInvalidOpcode y => Byte.eqb x y
  | ErrOther x, ErrOther y => x =? y
  | _, _ => false
  end.

(** ** Results of Go calls that may panic or not return *)

Inductive outcome (A : Type) : Type :=
| Done (a : A)      (* the call returned *)
| Panicked          (* a run-time panic unwound the call *)
| OutOfFuel.        (* the model's step budget was exhausted *)
Arguments Done {A} a.
Arguments Panicked {A}.
Arguments OutOfFuel {A}.

Definition bind {A B : Type} (m : outcome A) (k : A -> outcome B) : outcome B :=
  match m with
  | Done a => k a
  | Panicked => Panicked
  | OutOfFuel => OutOfFuel
  end.

Notation "'let*' x ':=' m 'in' k" := (bind m (fun x => k))
  (at level 10, x name, m at level 100, k at level 200).

(** ** Chain configuration *)

Module params.
(** Modelled from the spec: the protocol constants of package [params] are
    not under src/; they are the "base cost" of a message and the "per-byte
    rates" of its payload, and the maximum call depth. *)
Record Constants : Type := {
  TxGas : Z;
  TxGasContractCreation : Z;
  TxDataZeroGas : Z;
  TxDataNonZeroGas : Z;
  CallCreateDepth : Z
}.

(** Modelled from the spec: [params.GasTable] is not under src/; "a
    height-indexed gas-cost table", read only by the opcode gas functions. *)
Definition GasTable : Type := list Z.

(** [params.Rules]: the rule set in effect at one height. *)
Module Rules.
Record t : Type := {
  IsHomestead : bool;
  IsEIP158 : bool;
  IsByzantium : bool
}.
End Rules.

(** Modelled from the spec: [params.ChainConfig] is not under src/;
    "height-indexed predicates (is this height past a given fork), a
    height-indexed gas-cost table". *)
Module ChainConfig.
Record t : Type := {
  IsHomestead : Z -> bool;
  IsEIP158 : Z -> bool;
  IsByzantium : Z -> bool;
  GasTable : Z -> params.GasTable;
  DAOForkSupport : bool;
  DAOForkBlock : option Z
}.
End ChainConfig.
End params.

(** ** World state *)

(** Modelled from the spec: [state.StateDB] (core/state) is not under src/.
    "Mapping from address to account (balance, nonce, code, storage)", with
    "account existence/creation, balance get/add/sub, nonce get/set, code
    get/set, storage slot get/set, log emission keyed by transaction hash,
    snapshot/revert, refund-counter get/add".  A snapshot is the value itself. *)
Module StateDB.
Record Log : Type := {
  LogAddress : address;
  Topics : list Z;
  LogData : bytes
}.

Record Account : Type := {
  Balance : Z;
  Nonce : Z;
  Code : bytes;
  Storage : gmap Z Z
}.

Definition newAccount : Account :=
  {| Balance := 0; Nonce := 0; Code := []; Storage := ∅ |}.

Record t : Type := {
  accounts : gmap Z Account;
  refund : Z;
  logs : gmap Z (list Log);
  thash : hash;
  bhash : hash;
  txIndex : Z
}.

Definition set_accounts (s : t) (m : gmap Z Account) : t :=
  {| accounts := m; refund := refund s; logs := logs s;
     thash := thash s; bhash := bhash s; txIndex := txIndex s |}.

Definition set_refund (s : t) (r : Z) : t :=
  {| accounts := accounts s; refund := r; logs := logs s;
     thash := thash s; bhash := bhash s; txIndex := txIndex s |}.

Definition Exist (s : t) (a : address) : bool :=
  match accounts s !! a with Some _ => true | None => false end.

Definition CreateAccount (s : t) (a : address) : t :=
  set_accounts s (<[a := newAccount]> (accounts s)).

(** The account at [a], a new one when there is none. *)
Definition getOrNew (s : t) (a : address) : Account :=
  default newAccount (accounts s !! a).

Definition GetBalance (s : t) (a : address) : Z := Balance (getOrNew s a).
Definition GetNonce (s : t) (a : address) : Z := Nonce (getOrNew s a).
Definition GetCode (s : t) (a : address) : bytes := Code (getOrNew s a).
Definition GetState (s : t) (a : address) (k : Z) : Z :=
  default 0 (Storage (getOrNew s a) !! k).
Definition GetRefund (s : t) : Z := refund s.
Definition GetLogs (s : t) (h : hash) : list Log := default [] (logs s !! h).

Definition update (s : t) (a : address) (f : Account -> Account) : t :=
  set_accounts s (<[a := f (getOrNew s a)]> (accounts s)).

Definition AddBalance (s : t) (a : address) (v : Z) : t :=
  update s a (fun o => {| Balance := Balance o + v; Nonce := Nonce o;
                          Code := Code o; Storage := Storage o |}).
Definition SubBalance (s : t) (a : address) (v : Z) : t :=
  update s a (fun o => {| Balance := Balance o - v; Nonce := Nonce o;
                          Code := Code o; Storage := Storage o |}).
Definition SetNonce (s : t) (a : address) (n : Z) : t :=
  update s a (fun o => {| Balance := Balance o; Nonce := n;
                          Code := Code o; Storage := Storage o |}).
Definition SetCode (s : t) (a : address) (c : bytes) : t :=
  update s a (fun o => {| Balance := Balance o; Nonce := Nonce o;
                          Code := c; Storage := Storage o |}).
Definition SetState (s : t) (a : address) (k v : Z) : t :=
  update s a (fun o => {| Balance := Balance o; Nonce := Nonce o;
                          Code := Code o; Storage := <[k := v]> (Storage o) |}).
Definition AddRefund (s : t) (g : Z) : t := set_refund s (refund s + g).

(** [Prepare] sets the transaction the following logs belong to. *)
Definition Prepare (s : t) (th bh : hash) (ti : Z) : t :=
  {| accounts := accounts s; refund := refund s; logs := logs s;
     thash := th; bhash := bh; txIndex := ti |}.
End StateDB.

(** ** The virtual machine: stack, memory, contract *)

(** Modelled from the spec: [vm.Stack] (core/vm/stack.go) is not under src/;
    a "value stack of fixed-width unsigned integers", the top at the end of
    [data].  [Back n] is the item [n] places below the top; Go panics on an
    index out of range. *)
Module Stack.
Record t : Type := { data : list Z }.

Definition newstack : t := {| data := [] |}.
Definition len (st : t) : Z := Z.of_nat (length (data st)).
Definition push (st : t) (d : Z) : t := {| data := data st ++ [d] |}.

Definition Back (st : t) (n : Z) : outcome Z :=
  if (0 <=? len st - n - 1) && (0 <=? n) then
    match data st !! Z.to_nat (len st - n - 1) with
    | Some v => Done v
    | None => Panicked
    end
  else Panicked.
End Stack.

(** Modelled from the spec: [vm.Memory] (core/vm/memory.go) is not under
    src/; "a zero-initialized byte buffer that only grows (never shrinks)". *)
Module Memory.
Definition t : Type := list byte.

Definition NewMemory : t := [].
Definition Len (m : t) : Z := Z.of_nat (length m).
Definition Resize (m : t) (size : Z) : t :=
  if Len m <? size then m ++ repeat x00 (Z.to_nat (size - Len m)) else m.
End Memory.

(** Modelled from the spec: [vm.Contract] (core/vm/contract.go) is not under
    src/.  [GetOp]: "if counter is beyond code length, treat as an implicit
    STOP (zero opcode)"; [UseGas]: "deduct it; insufficient remaining gas"
    is reported and nothing is deducted. *)
Module Contract.
Record t : Type := {
  CallerAddress : address;
  self : address;
  Code : bytes;
  CodeHash : hash;
  Input : bytes;
  Gas : Z;
  value : Z
}.

Definition set_Gas (c : t) (g : Z) : t :=
  {| CallerAddress := CallerAddress c; self := self c; Code := Code c;
     CodeHash := CodeHash c; Input := Input c; Gas := g; value := value c |}.

Definition set_Input (c : t) (i : bytes) : t :=
  {| CallerAddress := CallerAddress c; self := self c; Code := Code c;
     CodeHash := CodeHash c; Input := i; Gas := Gas c; value := value c |}.

Definition GetOp (c : t) (n : Z) : byte :=
  if n <? Z.of_nat (length (Code c)) then default x00 (Code c !! Z.to_nat n)
  else x00.

Definition UseGas (c : t) (gas : Z) : bool * t :=
  if Gas c <? gas then (false, c) else (true, set_Gas c (Gas c - gas)).
End Contract.

(** Modelled from the spec: the opcode constants (core/vm/opcodes.go) are not
    under src/; [STOP] is "the zero opcode", [CALL] "a value-transferring
    CALL", byte 0xf1 of the protocol. *)
Definition STOP : byte := x00.
Definition CALL : byte := xf1.

(** Modelled from the spec: [bigUint64] and [toWordSize] (core/vm/common.go)
    are not under src/; the required memory size as a [uint64] with
    "overflow in this computation", and memory "rounded up to 32-byte
    words". *)
Definition bigUint64 (v : Z) : Z * bool := (big.Uint64 v, 64 <? big.BitLen v).

Definition toWordSize (size : Z) : Z :=
  if MaxUint64 - 31 <? size then MaxUint64 / 32 + 1 else (size + 31) / 32.

(** ** The execution environment *)

(** Modelled from the spec: [vm.EVM] (core/vm/evm.go) is not under src/; the
    "per-call read/write view into world state plus chain parameters (block
    number, origin, coinbase)", with the fields the source reads: the depth
    counter, the rules in effect and the "cooperative abort flag".  The world
    state is held by value. *)
Module EVM.
Record t : Type := {
  Origin : address;
  Coinbase : address;
  BlockNumber : Z;
  StateDB : StateDB.t;
  depth : Z;
  chainConfig : params.ChainConfig.t;
  chainRules : params.Rules.t;
  abort : Z
}.

Definition set_StateDB (e : t) (s : StateDB.t) : t :=
  {| Origin := Origin e; Coinbase := Coinbase e; BlockNumber := BlockNumber e;
     StateDB := s; depth := depth e; chainConfig := chainConfig e;
     chainRules := chainRules e; abort := abort e |}.

Definition set_depth (e : t) (d : Z) : t :=
  {| Origin := Origin e; Coinbase := Coinbase e; BlockNumber := BlockNumber e;
     StateDB := StateDB e; depth := d; chainConfig := chainConfig e;
     chainRules := chainRules e; abort := abort e |}.

Definition ChainConfig (e : t) : params.ChainConfig.t := chainConfig e.
End EVM.

(** ** Opcode table entries *)

(** What an executor leaves behind: its result and error, and the program
    counter, environment, contract, memory and stack it was handed by
    pointer. *)
Record ExecResult : Type := {
  exec_res : bytes;
  exec_err : option error;
  exec_pc : Z;
  exec_evm : EVM.t;
  exec_contract : Contract.t;
  exec_mem : Memory.t;
  exec_stack : Stack.t
}.

Definition executionFunc : Type :=
  Z -> EVM.t -> Contract.t -> Memory.t -> Stack.t -> outcome ExecResult.

(** A gas function returns the cost and an error; "stack is mutated by
    63/64 gas rule" (interpreter.go), so it returns the stack as well. *)
Definition gasFunc : Type :=
  params.GasTable -> EVM.t -> Contract.t -> Stack.t -> Memory.t -> Z ->
  Z * option error * Stack.t.

Definition stackValidationFunc : Type := Stack.t -> option error.
Definition memorySizeFunc : Type := Stack.t -> Z.

(** Modelled from the spec: [operation] (core/vm/jump_table.go) is not under
    src/; "a stack-arity validator, a gas-cost function, an optional
    dynamic-memory-size function, an executor function, and boolean flags",
    under the names the interpreter reads them by. *)
Record operation : Type := {
  execute : executionFunc;
  gasCost : gasFunc;
  validateStack : stackValidationFunc;
  memorySize : option memorySizeFunc;
  halts : bool;
  jumps : bool;
  writes : bool;
  valid : bool;
  reverts : bool;
  returns : bool
}.

(** Modelled from the spec: the [Tracer] interface (core/vm/logger.go) is not
    under src/; the observer "receives (program counter, opcode, gas before,
    cost, memory, stack snapshot, frame depth, error)" and "must not affect
    execution outcome".  One captured state: *)
Record Capture : Type := {
  cap_pc : Z;
  cap_op : byte;
  cap_gas : Z;
  cap_cost : Z;
  cap_memory : Memory.t;
  cap_stack : Stack.t;
  cap_depth : Z;
  cap_err : option error
}.

(** [vm.Config].  The tracer is the list of the states it has captured, the
    latest first; the jump table is indexed by the opcode byte. *)
Module Config.
Record t : Type := {
  Debug : bool;
  EnableJit : bool;
  ForceJit : bool;
  Tracer : list Capture;
  NoRecursion : bool;
  DisableGasMetering : bool;
  EnablePreimageRecording : bool;
  JumpTable : byte -> operation
}.

Definition set_Tracer (c : t) (tr : list Capture) : t :=
  {| Debug := Debug c; EnableJit := EnableJit c; ForceJit := ForceJit c;
     Tracer := tr; NoRecursion := NoRecursion c;
     DisableGasMetering := DisableGasMetering c;
     EnablePreimageRecording := EnablePreimageRecording c;
     JumpTable := JumpTable c |}.

Definition set_JumpTable (c : t) (jt : byte -> operation) : t :=
  {| Debug := Debug c; EnableJit := EnableJit c; ForceJit := ForceJit c;
     Tracer := Tracer c; NoRecursion := NoRecursion c;
     DisableGasMetering := DisableGasMetering c;
     EnablePreimageRecording := EnablePreimageRecording c;
     JumpTable := jt |}.
End Config.

(** ** The interpreter (src/core/vm/interpreter.go, package vm) *)

(** The local variables of [Interpreter.Run]. *)
Module Frame.
Record t : Type := {
  op : byte;
  mem : Memory.t;
  stack : Stack.t;
  pc : Z;
  cost : Z;
  stackCopy : Stack.t;
  pcCopy : Z;
  gasCopy : Z;
  logged : bool
}.

(** The [var (...)] block of [Run]. *)
Definition init : t :=
  {| op := x00; mem := Memory.NewMemory; stack := Stack.newstack; pc := 0;
     cost := 0; stackCopy := Stack.newstack; pcCopy := 0; gasCopy := 0;
     logged := false |}.

Definition set_op (f : t) (o : byte) : t :=
  {| op := o; mem := mem f; stack := stack f; pc := pc f; cost := cost f;
     stackCopy := stackCopy f; pcCopy := pcCopy f; gasCopy := gasCopy f;
     logged := logged f |}.

Definition set_mem (f : t) (m : Memory.t) : t :=
  {| op := op f; mem := m; stack := stack f; pc := pc f; cost := cost f;
     stackCopy := stackCopy f; pcCopy := pcCopy f; gasCopy := gasCopy f;
     logged := logged f |}.

Definition set_stack (f : t) (s : Stack.t) : t :=
  {| op := op f; mem := mem f; stack := s; pc := pc f; cost := cost f;
     stackCopy := stackCopy f; pcCopy := pcCopy f; gasCopy := gasCopy f;
     logged := logged f |}.

Definition set_pc (f : t) (p : Z) : t :=
  {| op := op f; mem := mem f; stack := stack f; pc := p; cost := cost f;
     stackCopy := stackCopy f; pcCopy := pcCopy f; gasCopy := gasCopy f;
     logged := logged f |}.

Definition set_cost (f : t) (c : Z) : t :=
  {| op := op f; mem := mem f; stack := stack f; pc := pc f; cost := c;
     stackCopy := stackCopy f; pcCopy := pcCopy f; gasCopy := gasCopy f;
     logged := logged f |}.

Definition set_logged (f : t) (b : bool) : t :=
  {| op := op f; mem := mem f; stack := stack f; pc := pc f; cost := cost f;
     stackCopy := stackCopy f; pcCopy := pcCopy f; gasCopy := gasCopy f;
     logged := b |}.

(** The copies taken for the tracer at the head of a step. *)
Definition snapshot (f : t) (gas : Z) : t :=
  {| op := op f; mem := mem f; stack := stack f; pc := pc f; cost := cost f;
     stackCopy := fold_left Stack.push (Stack.data (stack f)) Stack.newstack;
     pcCopy := pc f; gasCopy := gas; logged := false |}.
End Frame.

Module Interpreter.
(** [Interpreter]; the integer pool is an allocation cache and is left
    out. *)
Record t : Type := {
  evm : EVM.t;
  cfg : Config.t;
  gasTable : params.GasTable;
  readOnly : bool;
  returnData : bytes
}.

Definition set_evm (i : t) (e : EVM.t) : t :=
  {| evm := e; cfg := cfg i; gasTable := gasTable i; readOnly := readOnly i;
     returnData := returnData i |}.

Definition set_cfg (i : t) (c : Config.t) : t :=
  {| evm := evm i; cfg := c; gasTable := gasTable i; readOnly := readOnly i;
     returnData := returnData i |}.

Definition set_returnData (i : t) (d : bytes) : t :=
  {| evm := evm i; cfg := cfg i; gasTable := gasTable i;
     readOnly := readOnly i; returnData := d |}.

Definition set_readOnly (i : t) (b : bool) : t :=
  {| evm := evm i; cfg := cfg i; gasTable := gasTable i;
     readOnly := b; returnData := returnData i |}.

(** [cfg.Tracer.CaptureState(...)]. *)
Definition CaptureState (i : t) (c : Capture) : t :=
  set_cfg i (Config.set_Tracer (cfg i) (c :: Config.Tracer (cfg i))).

Section InstructionSets.
(** The three instruction sets of core/vm/jump_table.go. *)
Variables byzantiumInstructionSet homesteadInstructionSet
          frontierInstructionSet : byte -> operation.

Definition NewInterpreter (evm : EVM.t) (cfg : Config.t) : t :=
  let cfg :=
    if negb (valid (Config.JumpTable cfg STOP)) then
      if params.ChainConfig.IsByzantium (EVM.ChainConfig evm) (EVM.BlockNumber evm)
      then Config.set_JumpTable cfg byzantiumInstructionSet
      else if params.ChainConfig.IsHomestead (EVM.ChainConfig evm) (EVM.BlockNumber evm)
      then Config.set_JumpTable cfg homesteadInstructionSet
      else Config.set_JumpTable cfg frontierInstructionSet
    else cfg in
  {| evm := evm; cfg := cfg;
     gasTable := params.ChainConfig.GasTable (EVM.ChainConfig evm) (EVM.BlockNumber evm);
     readOnly := false; returnData := [] |}.
End InstructionSets.

Definition enforceRestrictions (in_ : t) (op : byte) (operation : operation)
    (stack : Stack.t) : outcome (option error) :=
  if params.Rules.IsByzantium (EVM.chainRules (evm in_)) then
    if readOnly in_ then
      if writes operation then Done (Some errWriteProtection)
      else if Byte.eqb op CALL then
        let* v := Stack.Back stack 2 in
        if 0 <? big.BitLen v then Done (Some errWriteProtection)
        else Done None
      else Done None
    else Done None
  else Done None.

(** How one pass through the loop body of [Run] ends: at the bottom of the
    body, or at a [return]. *)
Inductive control : Type :=
| Next (in_ : t) (contract : Contract.t) (fr : Frame.t)
| Return (ret : bytes) (err : option error) (in_ : t)
         (contract : Contract.t) (fr : Frame.t).

(** "calculate the new memory size": [None] is [errGasUintOverflow]. *)
Definition requiredMemory (operation : operation) (stack : Stack.t) : option Z :=
  match memorySize operation with
  | None => Some 0
  | Some f =>
      let '(memSize, overflow) := bigUint64 (f stack) in
      if overflow then None
      else
        let '(memorySize, overflow) := math.SafeMul (toWordSize memSize) 32 in
        if overflow then None else Some memorySize
  end.

(** "consume the gas": whether the gas was paid, the contract and the
    locals ([cost] is assigned, and the gas function has had the stack). *)
Definition consumeGas (in_ : t) (operation : operation) (contract : Contract.t)
    (fr : Frame.t) (memorySize : Z) : bool * Contract.t * Frame.t :=
  if negb (Config.DisableGasMetering (cfg in_)) then
    let '(cost, err, stack) :=
      gasCost operation (gasTable in_) (evm in_) contract
              (Frame.stack fr) (Frame.mem fr) memorySize in
    let fr := Frame.set_stack (Frame.set_cost fr cost) stack in
    match err with
    | Some _ => (false, contract, fr)
    | None =>
        let '(ok, contract) := Contract.UseGas contract cost in
        (ok, contract, fr)
    end
  else (true, contract, fr).

(** "execute the operation" and the [switch] that follows it. *)
Definition dispatch (in_ : t) (operation : operation) (contract : Contract.t)
    (fr : Frame.t) : outcome control :=
  let* r := execute operation (Frame.pc fr) (evm in_) contract
                    (Frame.mem fr) (Frame.stack fr) in
  let in_ := set_evm in_ (exec_evm r) in
  let contract := exec_contract r in
  let fr := Frame.set_pc (Frame.set_stack (Frame.set_mem fr (exec_mem r))
                                          (exec_stack r)) (exec_pc r) in
  let res := exec_res r in
  let in_ := if returns operation then set_returnData in_ res else in_ in
  match exec_err r with
  | Some err => Done (Return [] (Some err) in_ contract fr)
  | None =>
      if reverts operation then
        Done (Return res (Some errExecutionReverted) in_ contract fr)
      else if halts operation then Done (Return res None in_ contract fr)
      else if negb (jumps operation) then
        Done (Next in_ contract (Frame.set_pc fr (uint64 (Frame.pc fr + 1))))
      else Done (Next in_ contract fr)
  end.

(** The body of the main loop of [Run]. *)
Definition step (in_ : t) (contract : Contract.t) (fr : Frame.t)
    : outcome control :=
  let op := Contract.GetOp contract (Frame.pc fr) in
  let fr := Frame.set_op fr op in
  let fr := if Config.Debug (cfg in_)
            then Frame.snapshot fr (Contract.Gas contract) else fr in
  let operation := Config.JumpTable (cfg in_) op in
  if negb (valid operation) then
    Done (Return [] (Some (ErrInvalidOpcode op)) in_ contract fr)
  else
    match validateStack operation (Frame.stack fr) with
    | Some err => Done (Return [] (Some err) in_ contract fr)
    | None =>
        let* restricted := enforceRestrictions in_ op operation (Frame.stack fr) in
        match restricted with
        | Some err => Done (Return [] (Some err) in_ contract fr)
        | None =>
            match requiredMemory operation (Frame.stack fr) with
            | None => Done (Return [] (Some errGasUintOverflow) in_ contract fr)
            | Some memorySize =>
                let '(paid, contract, fr) :=
                  consumeGas in_ operation contract fr memorySize in
                if negb paid then
                  Done (Return [] (Some ErrOutOfGas) in_ contract fr)
                else
                  let fr := if 0 <? memorySize
                            then Frame.set_mem fr (Memory.Resize (Frame.mem fr) memorySize)
                            else fr in
                  let '(in_, fr) :=
                    if Config.Debug (cfg in_) then
                      (CaptureState in_
                         {| cap_pc := Frame.pc fr; cap_op := op;
                            cap_gas := Frame.gasCopy fr; cap_cost := Frame.cost fr;
                            cap_memory := Frame.mem fr;
                            cap_stack := Frame.stackCopy fr;
                            cap_depth := EVM.depth (evm in_);
                            cap_err := None |},
                       Frame.set_logged fr true)
                    else (in_, fr) in
                  dispatch in_ operation contract fr
            end
        end
    end.

(** The loop of [Run]: it runs while the abort flag is clear; [fuel] bounds
    the number of passes through its body. *)
Fixpoint loop (fuel : nat) (in_ : t) (contract : Contract.t) (fr : Frame.t)
    : outcome control :=
  if EVM.abort (evm in_) =? 0 then
    match fuel with
    | O => OutOfFuel
    | S fuel =>
        let* c := step in_ contract fr in
        match c with
        | Next in_ contract fr => loop fuel in_ contract fr
        | Return _ _ _ _ _ => Done c
        end
    end
  else Done (Return [] None in_ contract fr).

(** What [Run] returns, with the interpreter and the contract it was handed
    by pointer. *)
Record Result : Type := {
  ret : bytes;
  err : option error;
  interpreter : t;
  contract : Contract.t
}.

(** The deferred [in.evm.depth--]. *)
Definition leave (in_ : t) : t :=
  set_evm in_ (EVM.set_depth (evm in_) (int (EVM.depth (evm in_) - 1))).

(** The deferred call of the tracer, run before [leave]. *)
Definition traceError (in_ : t) (err : option error) (fr : Frame.t) : t :=
  match err with
  | Some _ =>
      if negb (Frame.logged fr) && Config.Debug (cfg in_) then
        CaptureState in_
          {| cap_pc := Frame.pcCopy fr; cap_op := Frame.op fr;
             cap_gas := Frame.gasCopy fr; cap_cost := Frame.cost fr;
             cap_memory := Frame.mem fr; cap_stack := Frame.stackCopy fr;
             cap_depth := EVM.depth (evm in_); cap_err := err |}
      else in_
  | None => in_
  end.

Definition Run (fuel : nat) (in_ : t) (snapshot : Z) (contract : Contract.t)
    (input : bytes) : outcome Result :=
  let in_ := set_evm in_ (EVM.set_depth (evm in_) (int (EVM.depth (evm in_) + 1))) in
  let in_ := set_returnData in_ [] in
  if Z.of_nat (length (Contract.Code contract)) =? 0 then
    Done {| ret := []; err := None; interpreter := leave in_; contract := contract |}
  else
    let contract := Contract.set_Input contract input in
    let* c := loop fuel in_ contract Frame.init in
    match c with
    | Next _ _ _ => Panicked  (* [loop] ends at a [return] only *)
    | Return ret err in_ contract fr =>
        Done {| ret := ret; err := err;
                interpreter := leave (traceError in_ err fr);
                contract := contract |}
    end.
End Interpreter.

(** ** The state transition (src/core/vm/interpreter.go, package core) *)

(** Modelled from the spec: [core.GasPool] (core/gaspool.go) is not under
    src/; "single mutable counter, block-scoped; reserve(n) fails if it would
    go negative; release(n) is unconditional". *)
Module GasPool.
Definition t : Type := Z.

Definition AddGas (gp : t) (amount : Z) : t := gp + amount.

Definition SubGas (gp : t) (amount : Z) : option error * t :=
  if gp <? amount then (Some ErrGasLimitReached, gp) else (None, gp - amount).
End GasPool.

(** [Message]: the values its methods return; [To] is [None] for a contract
    creation. *)
Module Message.
Record t : Type := {
  From : address;
  To : option address;
  GasPrice : Z;
  Gas : Z;
  Value : Z;
  Nonce : Z;
  CheckNonce : bool;
  Data : bytes
}.
End Message.

(** What [EVM.Call] and [EVM.Create] (core/vm/evm.go) return, with the
    environment they were called on. *)
Record CallResult : Type := {
  call_ret : bytes;
  call_gas : Z;
  call_err : option error;
  call_evm : EVM.t
}.

Record CreateResult : Type := {
  create_ret : bytes;
  create_addr : address;
  create_gas : Z;
  create_err : option error;
  create_evm : EVM.t
}.

Definition CallFunc : Type :=
  EVM.t -> address -> address -> bytes -> Z -> Z -> outcome CallResult.
Definition CreateFunc : Type :=
  EVM.t -> address -> bytes -> Z -> Z -> outcome CreateResult.

Section IntrinsicGas.
Variable P : params.Constants.

(** The number of non-zero bytes of the payload ([nz]). *)
Definition nonZeroBytes (data : bytes) : Z :=
  fold_left (fun nz byt => if Byte.eqb byt x00 then nz else nz + 1) data 0.

Definition IntrinsicGas (data : bytes) (contractCreation homestead : bool) : Z :=
  let igas := if contractCreation && homestead
              then params.TxGasContractCreation P else params.TxGas P in
  if 0 <? Z.of_nat (length data) then
    let nz := nonZeroBytes data in
    let igas := igas + nz * params.TxDataNonZeroGas P in
    igas + (Z.of_nat (length data) - nz) * params.TxDataZeroGas P
  else igas.
End IntrinsicGas.

Module StateTransition.
(** [StateTransition].  The field [state] is the same object as
    [evm.StateDB], so it is read through [evm]; [gp] is the block's pool. *)
Record t : Type := {
  gp : GasPool.t;
  msg : Message.t;
  gas : Z;
  gasPrice : Z;
  initialGas : Z;
  value : Z;
  data : bytes;
  evm : EVM.t
}.

Definition state (st : t) : StateDB.t := EVM.StateDB (evm st).

Definition set_evm (st : t) (e : EVM.t) : t :=
  {| gp := gp st; msg := msg st; gas := gas st; gasPrice := gasPrice st;
     initialGas := initialGas st; value := value st; data := data st;
     evm := e |}.

Definition set_state (st : t) (s : StateDB.t) : t :=
  set_evm st (EVM.set_StateDB (evm st) s).

Definition set_gas (st : t) (g : Z) : t :=
  {| gp := gp st; msg := msg st; gas := g; gasPrice := gasPrice st;
     initialGas := initialGas st; value := value st; data := data st;
     evm := evm st |}.

Definition set_gp (st : t) (p : GasPool.t) : t :=
  {| gp := p; msg := msg st; gas := gas st; gasPrice := gasPrice st;
     initialGas := initialGas st; value := value st; data := data st;
     evm := evm st |}.

Definition set_initialGas (st : t) (g : Z) : t :=
  {| gp := gp st; msg := msg st; gas := gas st; gasPrice := gasPrice st;
     initialGas := g; value := value st; data := data st; evm := evm st |}.

Definition NewStateTransition (evm : EVM.t) (msg : Message.t) (gp : GasPool.t) : t :=
  {| gp := gp; msg := msg; gas := 0; gasPrice := Message.GasPrice msg;
     initialGas := 0; value := Message.Value msg; data := Message.Data msg;
     evm := evm |}.

Definition from (st : t) : address * t :=
  let f := Message.From (msg st) in
  let st := if negb (StateDB.Exist (state st) f)
            then set_state st (StateDB.CreateAccount (state st) f) else st in
  (f, st).

(** [to]; the zero [AccountRef] is the zero address.  A message is never
    [nil] here: [from] has read it before [to] is called. *)
Definition to (st : t) : address * t :=
  match Message.To (msg st) with
  | None => (0, st)
  | Some to =>
      let st := if negb (StateDB.Exist (state st) to)
                then set_state st (StateDB.CreateAccount (state st) to) else st in
      (to, st)
  end.

Definition useGas (st : t) (amount : Z) : option error * t :=
  if gas st <? amount then (Some ErrOutOfGas, st)
  else (None, set_gas st (gas st - amount)).

Definition gasUsed (st : t) : Z := initialGas st - gas st.

Definition buyGas (st : t) : option error * t :=
  let mgas := Message.Gas (msg st) in
  if 64 <? big.BitLen mgas then (Some ErrOutOfGas, st)
  else
    let mgval := mgas * gasPrice st in
    let '(sender, st) := from st in
    if StateDB.GetBalance (state st) sender <? mgval
    then (Some errInsufficientBalanceForGas, st)
    else
      match GasPool.SubGas (gp st) mgas with
      | (Some err, _) => (Some err, st)
      | (None, gp') =>
          let st := set_gp st gp' in
          let st := set_gas st (uint64 (gas st + big.Uint64 mgas)) in
          let st := set_initialGas st mgas in
          (None, set_state st (StateDB.SubBalance (state st) sender mgval))
      end.

Definition preCheck (st : t) : option error * t :=
  let msg := msg st in
  let '(sender, st) := from st in
  let nonce := StateDB.GetNonce (state st) sender in
  if Message.CheckNonce msg && (nonce <? Message.Nonce msg)
  then (Some ErrNonceTooHigh, st)
  else if Message.CheckNonce msg && (Message.Nonce msg <? nonce)
  then (Some ErrNonceTooLow, st)
  else buyGas st.

(** [refundGas]; [GetRefund] is taken to hand out a value of its own, so
    that scaling the refund by the gas price leaves the counter alone. *)
Definition refundGas (st : t) : t :=
  let '(sender, st) := from st in
  let remaining := gas st * gasPrice st in
  let st := set_state st (StateDB.AddBalance (state st) sender remaining) in
  let uhalf := big.Div (gasUsed st) 2 in
  let refund := math.BigMin uhalf (StateDB.GetRefund (state st)) in
  let st := set_gas st (uint64 (gas st + big.Uint64 refund)) in
  let st := set_state st
              (StateDB.AddBalance (state st) sender (refund * gasPrice st)) in
  set_gp st (GasPool.AddGas (gp st) (gas st)).

(** The five results of [TransitionDb]; a [nil] big integer is [None]. *)
Record Result : Type := {
  ret : bytes;
  requiredGas : option Z;
  usedGas : option Z;
  failed : bool;
  err : option error
}.

Definition failure (e : error) : Result :=
  {| ret := []; requiredGas := None; usedGas := None; failed := false;
     err := Some e |}.

Section TransitionDb.
Variable P : params.Constants.
Variable Call : CallFunc.
Variable Create : CreateFunc.

(** The call-or-create step: the result bytes, the error of the virtual
    machine, and the transition with the gas that is left. *)
Definition callOrCreate (st : t) (sender : address) (contractCreation : bool)
    : outcome (bytes * option error * t) :=
  if contractCreation then
    let* r := Create (evm st) sender (data st) (gas st) (value st) in
    Done (create_ret r, create_err r,
          set_gas (set_evm st (create_evm r)) (create_gas r))
  else
    let st := set_state st
                (StateDB.SetNonce (state st) sender
                   (uint64 (StateDB.GetNonce (state st) sender + 1))) in
    let '(toAddr, st) := to st in
    let* r := Call (evm st) sender toAddr (data st) (gas st) (value st) in
    Done (call_ret r, call_err r,
          set_gas (set_evm st (call_evm r)) (call_gas r)).

Definition TransitionDb (st : t) : outcome (Result * t) :=
  match preCheck st with
  | (Some err, st) => Done (failure err, st)
  | (None, st) =>
      let msg := msg st in
      let '(sender, st) := from st in
      let homestead :=
        params.ChainConfig.IsHomestead (EVM.ChainConfig (evm st))
                                       (EVM.BlockNumber (evm st)) in
      let contractCreation :=
        match Message.To msg with None => true | Some _ => false end in
      let intrinsicGas := IntrinsicGas P (data st) contractCreation homestead in
      if 64 <? big.BitLen intrinsicGas then Done (failure ErrOutOfGas, st)
      else
        match useGas st (big.Uint64 intrinsicGas) with
        | (Some err, st) => Done (failure err, st)
        | (None, st) =>
            let* r := callOrCreate st sender contractCreation in
            let '(ret, vmerr, st) := r in
            if match vmerr with
               | Some e => error_eqb e ErrInsufficientBalance
               | None => false
               end
            then Done ({| ret := []; requiredGas := None; usedGas := None;
                          failed := false; err := vmerr |}, st)
            else
              let requiredGas := gasUsed st in
              let st := refundGas st in
              let st := set_state st
                          (StateDB.AddBalance (state st) (EVM.Coinbase (evm st))
                                              (gasUsed st * gasPrice st)) in
              Done ({| ret := ret; requiredGas := Some requiredGas;
                       usedGas := Some (gasUsed st);
                       failed := match vmerr with Some _ => true | None => false end;
                       err := None |}, st)
        end
  end.

(** [ApplyMessage]: the result bytes, the gas used, the failure flag and
    the error, with the transition as [TransitionDb] left it. *)
Definition ApplyMessage (evm : EVM.t) (msg : Message.t) (gp : GasPool.t)
    : outcome (bytes * option Z * bool * option error * t) :=
  let st := NewStateTransition evm msg gp in
  let* r := TransitionDb st in
  let '(r, st) := r in
  Done (ret r, usedGas r, failed r, err r, st).
End TransitionDb.
End StateTransition.

(** ** The block processor (src/core/tx_list.go, second part) *)

(** Modelled from the spec: package [types] (core/types) is not under src/;
    headers, transactions, blocks, and the receipt with its "cumulative gas
    used, success/failure flag, logs emitted, a post-state-root marker, and,
    for contract creation, the resulting contract address", under the names
    the processor reads and writes them by. *)
Module types.
Module Header.
Record t : Type := { Number : Z; GasLimit : Z; Coinbase : address }.
End Header.

(** A transaction: its hash, its nonce, and the signed data that
    [AsMessage] turns into a message. *)
Module Transaction.
Record t : Type := { Hash : hash; Nonce : Z; content : Message.t; signature : Z }.
End Transaction.

Module Receipt.
Record t : Type := {
  PostState : bytes;
  Failed : bool;
  CumulativeGasUsed : Z;
  Bloom : Z;
  Logs : list StateDB.Log;
  TxHash : hash;
  ContractAddress : address;
  GasUsed : Z
}.
End Receipt.

Module Block.
Record t : Type := {
  Header : Header.t;
  Transactions : list Transaction.t;
  Uncles : list Header.t;
  Hash : hash
}.
Definition Number (b : t) : Z := Header.Number (Header b).
Definition GasLimit (b : t) : Z := Header.GasLimit (Header b).
End Block.

(** [NewReceipt]: the other fields are zero until they are assigned. *)
Definition NewReceipt (root : bytes) (failed : bool) (cumulativeGasUsed : Z)
    : Receipt.t :=
  {| Receipt.PostState := root; Receipt.Failed := failed;
     Receipt.CumulativeGasUsed := cumulativeGasUsed; Receipt.Bloom := 0;
     Receipt.Logs := []; Receipt.TxHash := 0; Receipt.ContractAddress := 0;
     Receipt.GasUsed := 0 |}.
End types.

(** The collaborators of the block processor that are not under src/: the
    signer and the construction of the environment, the hard-fork patch, the
    commitment of the world state, the bloom filter and the address of a new
    contract, the consensus engine, and the virtual machine behind
    [ApplyMessage]. *)
Record Collaborators : Type := {
  Signer : Type;
  BlockChain : Type;
  MakeSigner : params.ChainConfig.t -> Z -> Signer;
  AsMessage : types.Transaction.t -> Signer -> error + Message.t;
  NewEVM : Message.t -> types.Header.t -> BlockChain -> option address ->
           StateDB.t -> params.ChainConfig.t -> Config.t -> EVM.t;
  ApplyDAOHardFork : StateDB.t -> StateDB.t;
  Finalise : StateDB.t -> bool -> StateDB.t;
  IntermediateRoot : StateDB.t -> bool -> bytes * StateDB.t;
  CreateBloom : list types.Receipt.t -> Z;
  CreateAddress : address -> Z -> address;
  Finalize : BlockChain -> types.Header.t -> StateDB.t ->
             list types.Transaction.t -> list types.Header.t ->
             list types.Receipt.t -> StateDB.t;
  constants : params.Constants;
  Call : CallFunc;
  Create : CreateFunc
}.

Section StateProcessor.
Variable K : Collaborators.

(** [ApplyTransaction]: the receipt, the gas and the error, with the gas
    pool, the world state and the running total [usedGas] it updates
    through its pointers. *)
Definition ApplyTransaction (config : params.ChainConfig.t) (bc : BlockChain K)
    (author : option address) (gp : GasPool.t) (statedb : StateDB.t)
    (header : types.Header.t) (tx : types.Transaction.t) (usedGas : Z)
    (cfg : Config.t)
    : outcome (option types.Receipt.t * option Z * option error *
               (GasPool.t * StateDB.t * Z)) :=
  match AsMessage K tx (MakeSigner K config (types.Header.Number header)) with
  | inl err => Done (None, None, Some err, (gp, statedb, usedGas))
  | inr msg =>
      let vmenv := NewEVM K msg header bc author statedb config cfg in
      let* r := StateTransition.ApplyMessage (constants K) (Call K) (Create K)
                  vmenv msg gp in
      let '(_, gas, failed, err, st) := r in
      let gp := StateTransition.gp st in
      let statedb := StateTransition.state st in
      match err with
      | Some e => Done (None, None, Some e, (gp, statedb, usedGas))
      | None =>
          let '(root, statedb) :=
            if params.ChainConfig.IsByzantium config (types.Header.Number header)
            then ([], Finalise K statedb true)
            else IntermediateRoot K statedb
                   (params.ChainConfig.IsEIP158 config (types.Header.Number header)) in
          match gas with
          | None => Panicked  (* a nil big integer is dereferenced *)
          | Some gas =>
              let usedGas := usedGas + gas in
              let receipt := types.NewReceipt root failed usedGas in
              let contractAddress :=
                match Message.To msg with
                | None => CreateAddress K (EVM.Origin (StateTransition.evm st))
                                        (types.Transaction.Nonce tx)
                | Some _ => types.Receipt.ContractAddress receipt
                end in
              let logs := StateDB.GetLogs statedb (types.Transaction.Hash tx) in
              let receipt :=
                {| types.Receipt.PostState := types.Receipt.PostState receipt;
                   types.Receipt.Failed := types.Receipt.Failed receipt;
                   types.Receipt.CumulativeGasUsed :=
                     types.Receipt.CumulativeGasUsed receipt;
                   types.Receipt.Bloom := types.Receipt.Bloom receipt;
                   types.Receipt.Logs := logs;
                   types.Receipt.TxHash := types.Transaction.Hash tx;
                   types.Receipt.ContractAddress := contractAddress;
                   types.Receipt.GasUsed := gas |} in
              let receipt :=
                {| types.Receipt.PostState := types.Receipt.PostState receipt;
                   types.Receipt.Failed := types.Receipt.Failed receipt;
                   types.Receipt.CumulativeGasUsed :=
                     types.Receipt.CumulativeGasUsed receipt;
                   types.Receipt.Bloom := CreateBloom K [receipt];
                   types.Receipt.Logs := types.Receipt.Logs receipt;
                   types.Receipt.TxHash := types.Receipt.TxHash receipt;
                   types.Receipt.ContractAddress :=
                     types.Receipt.ContractAddress receipt;
                   types.Receipt.GasUsed := types.Receipt.GasUsed receipt |} in
              Done (Some receipt, Some gas, None, (gp, statedb, usedGas))
          end
      end
  end.

(** [StateProcessor]; the engine is the collaborator [Finalize]. *)
Record StateProcessor : Type := {
  config : params.ChainConfig.t;
  bc : BlockChain K
}.

(** What [Process] returns; [nil] for the total is [None]. *)
Record ProcessResult : Type := {
  receipts : list types.Receipt.t;
  allLogs : list StateDB.Log;
  totalUsedGas : option Z;
  perr : option error
}.

(** The variables the [for] loop of [Process] updates. *)
Record ProcessState : Type := {
  ps_gp : GasPool.t;
  ps_statedb : StateDB.t;
  ps_totalUsedGas : Z;
  ps_receipts : list types.Receipt.t;
  ps_allLogs : list StateDB.Log
}.

(** The loop over [block.Transactions()], from index [i] on: the error
    that ended it, if any, and the variables as it left them.  The index
    of a slice does not overflow. *)
Fixpoint processTransactions (p : StateProcessor) (block : types.Block.t)
    (cfg : Config.t) (i : Z) (txs : list types.Transaction.t) (s : ProcessState)
    : outcome (option error * ProcessState) :=
  match txs with
  | [] => Done (None, s)
  | tx :: txs =>
      let statedb := StateDB.Prepare (ps_statedb s) (types.Transaction.Hash tx)
                                     (types.Block.Hash block) i in
      let* r := ApplyTransaction (config p) (bc p) None (ps_gp s) statedb
                  (types.Block.Header block) tx (ps_totalUsedGas s) cfg in
      let '(receipt, _, err, (gp, statedb, totalUsedGas)) := r in
      match err with
      | Some e =>
          Done (Some e,
                {| ps_gp := gp; ps_statedb := statedb;
                   ps_totalUsedGas := totalUsedGas;
                   ps_receipts := ps_receipts s; ps_allLogs := ps_allLogs s |})
      | None =>
          match receipt with
          | None => Panicked  (* a nil receipt is dereferenced *)
          | Some receipt =>
              processTransactions p block cfg (i + 1) txs
                {| ps_gp := gp; ps_statedb := statedb;
                   ps_totalUsedGas := totalUsedGas;
                   ps_receipts := ps_receipts s ++ [receipt];
                   ps_allLogs := ps_allLogs s ++ types.Receipt.Logs receipt |}
          end
      end
  end.

Definition Process (p : StateProcessor) (block : types.Block.t)
    (statedb : StateDB.t) (cfg : Config.t)
    : outcome (ProcessResult * StateDB.t) :=
  let header := types.Block.Header block in
  let gp := GasPool.AddGas 0 (types.Block.GasLimit block) in
  let statedb :=
    if params.ChainConfig.DAOForkSupport (config p) &&
       match params.ChainConfig.DAOForkBlock (config p) with
       | Some n => n =? types.Block.Number block
       | None => false
       end
    then ApplyDAOHardFork K statedb else statedb in
  let* r := processTransactions p block cfg 0 (types.Block.Transactions block)
              {| ps_gp := gp; ps_statedb := statedb; ps_totalUsedGas := 0;
                 ps_receipts := []; ps_allLogs := [] |} in
  let '(err, s) := r in
  match err with
  | Some e =>
      Done ({| receipts := []; allLogs := []; totalUsedGas := None;
               perr := Some e |}, ps_statedb s)
  | None =>
      let statedb := Finalize K (bc p) header (ps_statedb s)
                       (types.Block.Transactions block) (types.Block.Uncles block)
                       (ps_receipts s) in
      Done ({| receipts := ps_receipts s; allLogs := ps_allLogs s;
               totalUsedGas := Some (ps_totalUsedGas s); perr := None |},
            statedb)
  end.
End StateProcessor.

(** ** The call path of the virtual machine *)

Module EVMModel.
Section Call.
Variable P : params.Constants.
Variable cfg : Config.t.
Variables byzantiumInstructionSet homesteadInstructionSet
          frontierInstructionSet : byte -> operation.
Variable fuel : nat.

(** The interpreter of the environment, run on one contract. *)
Definition run (evm : EVM.t) (contract : Contract.t) (input : bytes)
    : outcome Interpreter.Result :=
  let in_ := Interpreter.NewInterpreter byzantiumInstructionSet
               homesteadInstructionSet frontierInstructionSet evm cfg in
  Interpreter.Run fuel in_ 0 contract input.

(** Modelled from the spec: [EVM.Call] (core/vm/evm.go) is not under
    src/.  "Exceeding the protocol's maximum call depth must fail before
    any execution of the nested frame"; "insufficient balance for the
    mandatory first value transfer" is an error of its own; the call path
    "invokes the Interpreter over the recipient's code"; "state mutations
    performed by the failing call are discarded via snapshot/revert"; and
    "any error returned by this component, other than an explicit revert,
    is defined as consuming all remaining gas in the frame", a revert
    "returns any gas not yet spent". *)
Definition Call (evm : EVM.t) (caller addr : address) (input : bytes)
    (gas value : Z) : outcome CallResult :=
  if params.CallCreateDepth P <? EVM.depth evm then
    Done {| call_ret := []; call_gas := gas; call_err := Some ErrDepth;
            call_evm := evm |}
  else if StateDB.GetBalance (EVM.StateDB evm) caller <? value then
    Done {| call_ret := []; call_gas := gas;
            call_err := Some ErrInsufficientBalance; call_evm := evm |}
  else
    let snapshot := EVM.StateDB evm in
    let statedb := if negb (StateDB.Exist snapshot addr)
                   then StateDB.CreateAccount snapshot addr else snapshot in
    let statedb := StateDB.AddBalance (StateDB.SubBalance statedb caller value)
                                      addr value in
    let contract :=
      {| Contract.CallerAddress := caller; Contract.self := addr;
         Contract.Code := StateDB.GetCode statedb addr;
         Contract.CodeHash := 0; Contract.Input := []; Contract.Gas := gas;
         Contract.value := value |} in
    let* r := run (EVM.set_StateDB evm statedb) contract input in
    let evm := Interpreter.evm (Interpreter.interpreter r) in
    let contract := Interpreter.contract r in
    match Interpreter.err r with
    | None =>
        Done {| call_ret := Interpreter.ret r; call_gas := Contract.Gas contract;
                call_err := None; call_evm := evm |}
    | Some e =>
        let evm := EVM.set_StateDB evm snapshot in
        let contract :=
          if negb (error_eqb e errExecutionReverted)
          then snd (Contract.UseGas contract (Contract.Gas contract))
          else contract in
        Done {| call_ret := Interpreter.ret r; call_gas := Contract.Gas contract;
                call_err := Some e; call_evm := evm |}
    end.
End Call.
End EVMModel.

(** ** A small instruction set and chain, for running the model *)

Module Example.
(** The protocol's constants. *)
Definition constants : params.Constants :=
  {| params.TxGas := 21000; params.TxGasContractCreation := 53000;
     params.TxDataZeroGas := 4; params.TxDataNonZeroGas := 68;
     params.CallCreateDepth := 1024 |}.

(** The stack validator of an operation that pops [pop] items and pushes
    [push], on a stack of at most 1024 items. *)
Definition makeStackFunc (pop push : Z) : stackValidationFunc :=
  fun stack =>
    if Stack.len stack <? pop then Some (ErrOther 1)
    else if 1024 <? Stack.len stack + push - pop then Some (ErrOther 2)
    else None.

Definition constGasFunc (gas : Z) : gasFunc :=
  fun _ _ _ stack _ _ => (gas, None, stack).

Definition returned (res : bytes) (pc : Z) (evm : EVM.t) (contract : Contract.t)
    (mem : Memory.t) (stack : Stack.t) : outcome ExecResult :=
  Done {| exec_res := res; exec_err := None; exec_pc := pc; exec_evm := evm;
          exec_contract := contract; exec_mem := mem; exec_stack := stack |}.

Definition invalid : operation :=
  {| execute := fun _ _ _ _ _ => Panicked; gasCost := constGasFunc 0;
     validateStack := makeStackFunc 0 0; memorySize := None;
     halts := false; jumps := false; writes := false; valid := false;
     reverts := false; returns := false |}.

(** STOP halts the execution. *)
Definition opStop : operation :=
  {| execute := returned []; gasCost := constGasFunc 0;
     validateStack := makeStackFunc 0 0; memorySize := None;
     halts := true; jumps := false; writes := false; valid := true;
     reverts := false; returns := false |}.

(** PUSH1 pushes the byte that follows it in the code. *)
Definition opPush1 : operation :=
  {| execute := fun pc evm contract mem stack =>
       let b := Contract.GetOp contract (uint64 (pc + 1)) in
       returned [] (uint64 (pc + 1)) evm contract mem
                (Stack.push stack (Z.of_N (Byte.to_N b)));
     gasCost := constGasFunc 3;
     validateStack := makeStackFunc 0 1; memorySize := None;
     halts := false; jumps := false; writes := false; valid := true;
     reverts := false; returns := false |}.

(** SSTORE pops a slot and a value and writes the storage of the contract;
    clearing a slot that was set adds 15000 to the refund counter. *)
Definition opSstore : operation :=
  {| execute := fun pc evm contract mem stack =>
       match rev (Stack.data stack) with
       | loc :: val :: rest =>
           let db := EVM.StateDB evm in
           let a := Contract.self contract in
           let db := if negb (StateDB.GetState db a loc =? 0) && (val =? 0)
                     then StateDB.AddRefund db 15000 else db in
           returned [] pc (EVM.set_StateDB evm (StateDB.SetState db a loc val))
                    contract mem {| Stack.data := rev rest |}
       | _ => Panicked
       end;
     gasCost := constGasFunc 5000;
     validateStack := makeStackFunc 2 0; memorySize := None;
     halts := false; jumps := false; writes := true; valid := true;
     reverts := false; returns := false |}.

(** CALL with its seven operands; the example pops them and pushes 1. *)
Definition opCall : operation :=
  {| execute := fun pc evm contract mem stack =>
       returned [] pc evm contract mem
         {| Stack.data := firstn (length (Stack.data stack) - 7) (Stack.data stack) ++ [1] |};
     gasCost := constGasFunc 700;
     validateStack := makeStackFunc 7 1; memorySize := None;
     halts := false; jumps := false; writes := false; valid := true;
     reverts := false; returns := true |}.

Definition instructionSet : byte -> operation :=
  fun op =>
    match op with
    | x00 => opStop
    | x55 => opSstore
    | x60 => opPush1
    | xf1 => opCall
    | _ => invalid
    end.

Definition chainConfig (byzantium : bool) : params.ChainConfig.t :=
  {| params.ChainConfig.IsHomestead := fun _ => true;
     params.ChainConfig.IsEIP158 := fun _ => byzantium;
     params.ChainConfig.IsByzantium := fun _ => byzantium;
     params.ChainConfig.GasTable := fun _ => [];
     params.ChainConfig.DAOForkSupport := false;
     params.ChainConfig.DAOForkBlock := None |}.

Definition rules (byzantium : bool) : params.Rules.t :=
  {| params.Rules.IsHomestead := true; params.Rules.IsEIP158 := byzantium;
     params.Rules.IsByzantium := byzantium |}.

Definition vmConfig : Config.t :=
  {| Config.Debug := false; Config.EnableJit := false; Config.ForceJit := false;
     Config.Tracer := []; Config.NoRecursion := false;
     Config.DisableGasMetering := false;
     Config.EnablePreimageRecording := false;
     Config.JumpTable := instructionSet |}.

Definition emptyState : StateDB.t :=
  {| StateDB.accounts := ∅; StateDB.refund := 0; StateDB.logs := ∅;
     StateDB.thash := 0; StateDB.bhash := 0; StateDB.txIndex := 0 |}.

Definition account (balance nonce : Z) (code : bytes) (storage : gmap Z Z)
    : StateDB.Account :=
  {| StateDB.Balance := balance; StateDB.Nonce := nonce; StateDB.Code := code;
     StateDB.Storage := storage |}.

Definition env (byzantium : bool) (db : StateDB.t) : EVM.t :=
  {| EVM.Origin := 1; EVM.Coinbase := 9; EVM.BlockNumber := 100;
     EVM.StateDB := db; EVM.depth := 0;
     EVM.chainConfig := chainConfig byzantium;
     EVM.chainRules := rules byzantium; EVM.abort := 0 |}.

Definition interpreter (byzantium readOnly : bool) (db : StateDB.t)
    : Interpreter.t :=
  {| Interpreter.evm := env byzantium db; Interpreter.cfg := vmConfig;
     Interpreter.gasTable := []; Interpreter.readOnly := readOnly;
     Interpreter.returnData := [] |}.

(** The contract at address 2, called by address 1. *)
Definition contract (code : bytes) (gas : Z) : Contract.t :=
  {| Contract.CallerAddress := 1; Contract.self := 2; Contract.Code := code;
     Contract.CodeHash := 0; Contract.Input := []; Contract.Gas := gas;
     Contract.value := 0 |}.

(** The locals of [Run] at the first instruction, on a given stack. *)
Definition frame (stack : list Z) : Frame.t :=
  Frame.set_stack Frame.init {| Stack.data := stack |}.

(** A world with a funded sender at address 1 and a contract at address 2
    whose storage slot 0 holds 1. *)
Definition world (code : bytes) : StateDB.t :=
  StateDB.set_accounts emptyState
    (<[1 := account 1000000 0 [] ∅]>
       (<[2 := account 0 0 code {[0 := 1]}]> ∅)).

(** A call from address 1 to address 2 with a gas limit, at gas price 1. *)
Definition message (nonce gasLimit : Z) : Message.t :=
  {| Message.From := 1; Message.To := Some 2; Message.GasPrice := 1;
     Message.Gas := gasLimit; Message.Value := 0; Message.Nonce := nonce;
     Message.CheckNonce := true; Message.Data := [] |}.

(** A transition for [message] on [world], before its pre-check. *)
Definition transition (code : bytes) (nonce gasLimit : Z) : StateTransition.t :=
  StateTransition.NewStateTransition (env true (world code))
    (message nonce gasLimit) 1000000.

(** A transition at its refund step: 30000 gas bought, [gas] of it left,
    and a refund counter. *)
Definition refunding (gas refund : Z) : StateTransition.t :=
  {| StateTransition.gp := 970000; StateTransition.msg := message 0 30000;
     StateTransition.gas := gas; StateTransition.gasPrice := 1;
     StateTransition.initialGas := 30000; StateTransition.value := 0;
     StateTransition.data := [];
     StateTransition.evm := env true (StateDB.set_refund (world []) refund) |}.

(** The virtual machine behind the examples: calls run the interpreter on
    [instructionSet]; contract creation is not exercised. *)
Definition Call : CallFunc :=
  EVMModel.Call constants vmConfig instructionSet instructionSet instructionSet 100.
Definition Create : CreateFunc := fun _ _ _ _ _ => Panicked.

(** Collaborators of the block processor: a signer that accepts every
    signature but 0, an environment built from the message and the header,
    a commitment that clears the refund counter, and an engine that pays
    the coinbase a reward of 5. *)
Definition collaborators : Collaborators :=
  Build_Collaborators
    (* Signer, BlockChain, MakeSigner *)
    unit unit (fun _ _ => tt)
    (* AsMessage *)
    (fun tx _ =>
       if types.Transaction.signature tx =? 0 then inl (ErrOther 3)
       else inr (types.Transaction.content tx))
    (* NewEVM *)
    (fun msg header _ _ statedb config _ =>
       {| EVM.Origin := Message.From msg;
          EVM.Coinbase := types.Header.Coinbase header;
          EVM.BlockNumber := types.Header.Number header;
          EVM.StateDB := statedb; EVM.depth := 0; EVM.chainConfig := config;
          EVM.chainRules := rules true; EVM.abort := 0 |})
    (* ApplyDAOHardFork, Finalise, IntermediateRoot *)
    (fun statedb => statedb)
    (fun statedb _ => StateDB.set_refund statedb 0)
    (fun statedb _ => ([], StateDB.set_refund statedb 0))
    (* CreateBloom, CreateAddress *)
    (fun _ => 0)
    (fun origin nonce => origin + nonce + 1)
    (* Finalize *)
    (fun _ header statedb _ _ _ =>
       StateDB.AddBalance statedb (types.Header.Coinbase header) 5)
    constants Call Create.

Definition processor : StateProcessor collaborators :=
  Build_StateProcessor collaborators (chainConfig true) tt.

Definition transaction (h nonce : Z) : types.Transaction.t :=
  {| types.Transaction.Hash := h; types.Transaction.Nonce := nonce;
     types.Transaction.content := message nonce 30000;
     types.Transaction.signature := 1 |}.

(** A block of the given transactions, with a gas limit of 1000000. *)
Definition block (txs : list types.Transaction.t) : types.Block.t :=
  {| types.Block.Header :=
       {| types.Header.Number := 100; types.Header.GasLimit := 1000000;
          types.Header.Coinbase := 9 |};
     types.Block.Transactions := txs; types.Block.Uncles := [];
     types.Block.Hash := 77 |}.
End Example.

(** ** The transaction lists of the pool (src/core/tx_list.go, first part) *)

(** Conversion to [int64]: two's complement on 64 bits. *)
Definition int64 (z : Z) : Z := (z + 2 ^ 63) mod 2 ^ 64 - 2 ^ 63.

(** [nonceHeap]: a slice of nonces that Go's [container/heap] keeps as a
    binary min-heap through the methods [Len], [Less], [Swap], [Push] and
    [Pop] of the type.  The standard library is not part of the repository;
    a heap is held by its contents in ascending order, so that the element
    at index 0 is the least one, as in the heap.  The code below reads other
    positions only after [sort.Sort], or to look for an element. *)
Module nonceHeap.
Definition t : Type := list Z.
Definition Len (h : t) : Z := Z.of_nat (length h).
End nonceHeap.

Module heap.
(** [heap.Push]: the element joins the heap. *)
Fixpoint Push (h : nonceHeap.t) (x : Z) : nonceHeap.t :=
  match h with
  | [] => [x]
  | y :: r => if x <=? y then x :: y :: r else y :: Push r x
  end.

(** [heap.Pop]: the least element leaves the heap; on an empty heap the
    index is out of range. *)
Definition Pop (h : nonceHeap.t) : outcome (Z * nonceHeap.t) :=
  match h with
  | [] => Panicked
  | x :: r => Done (x, r)
  end.

(** [heap.Init]: a heap of the elements of a slice. *)
Definition Init (h : nonceHeap.t) : nonceHeap.t := fold_left Push h [].

(** [heap.Remove]: the element at index [i] leaves the heap. *)
Definition Remove (h : nonceHeap.t) (i : nat) : nonceHeap.t := delete i h.
End heap.

Module sort.
(** [sort.Sort] on a [nonceHeap]: ascending order. *)
Definition Sort (h : nonceHeap.t) : nonceHeap.t := fold_left heap.Push h [].

(** [sort.Sort] on [types.TxByNonce]: ascending order of the nonces. *)
Fixpoint insertByNonce (tx : types.Transaction.t) (l : list types.Transaction.t)
    : list types.Transaction.t :=
  match l with
  | [] => [tx]
  | y :: r =>
      if types.Transaction.Nonce tx <=? types.Transaction.Nonce y
      then tx :: y :: r else y :: insertByNonce tx r
  end.

Definition TxByNonce (l : list types.Transaction.t) : list types.Transaction.t :=
  fold_right insertByNonce [] l.
End sort.

(** [txSortedMap].  A transaction in the map is never [nil] ([Put] reads
    its nonce first), so the map holds transactions; [m.items[nonce]] is
    [nil] for a nonce that is not in the map, so a slice that collects such
    lookups is a list of options.  [cache] is [None] for [nil].  Go ranges
    over a map in an order that is not specified; the model takes the order
    of [map_to_list]. *)
Module txSortedMap.
Record t : Type := {
  items : gmap Z types.Transaction.t;
  index : nonceHeap.t;
  cache : option (list types.Transaction.t)
}.

Definition newTxSortedMap : t := {| items := ∅; index := []; cache := None |}.

Definition Get (m : t) (nonce : Z) : option types.Transaction.t := items m !! nonce.

Definition Put (m : t) (tx : types.Transaction.t) : t :=
  let nonce := types.Transaction.Nonce tx in
  let index := match items m !! nonce with
               | None => heap.Push (index m) nonce
               | Some _ => index m
               end in
  {| items := <[nonce := tx]> (items m); index := index; cache := None |}.

(** The loop of [Forward]; each pass pops an element, so [fuel] passes are
    enough when [fuel] is the length of the heap. *)
Fixpoint forwardLoop (fuel : nat) (threshold : Z)
    (items : gmap Z types.Transaction.t) (index : nonceHeap.t)
    (removed : list (option types.Transaction.t))
    : outcome (gmap Z types.Transaction.t * nonceHeap.t *
               list (option types.Transaction.t)) :=
  match index with
  | first :: _ =>
      if first <? threshold then
        match fuel with
        | O => OutOfFuel
        | S fuel =>
            let* r := heap.Pop index in
            let '(nonce, index) := r in
            forwardLoop fuel threshold (delete nonce items) index
                        (removed ++ [items !! nonce])
        end
      else Done (items, index, removed)
  | [] => Done (items, index, removed)
  end.

Definition Forward (m : t) (threshold : Z)
    : outcome (list (option types.Transaction.t) * t) :=
  let* r := forwardLoop (length (index m)) threshold (items m) (index m) [] in
  let '(items, index, removed) := r in
  match cache m with
  | Some c =>
      if (length removed <=? length c)%nat
      then Done (removed, {| items := items; index := index;
                             cache := Some (drop (length removed) c) |})
      else Panicked  (* slice bounds out of range *)
  | None => Done (removed, {| items := items; index := index; cache := None |})
  end.

Definition Filter (m : t) (filter : types.Transaction.t -> bool)
    : list types.Transaction.t * t :=
  let '(removed, items) :=
    fold_left (fun acc p =>
                 if filter (snd p) then (fst acc ++ [snd p], delete (fst p) (snd acc))
                 else acc)
              (map_to_list (items m)) ([], items m) in
  if (0 <? length removed)%nat then
    (removed, {| items := items;
                 index := heap.Init (map fst (map_to_list items));
                 cache := None |})
  else (removed, {| items := items; index := index m; cache := cache m |}).

(** The loop of [Cap], [count] passes from [size] downwards. *)
Fixpoint capLoop (count : nat) (size : Z) (items : gmap Z types.Transaction.t)
    (index : nonceHeap.t) (drops : list (option types.Transaction.t))
    : outcome (gmap Z types.Transaction.t * list (option types.Transaction.t)) :=
  match count with
  | O => Done (items, drops)
  | S count =>
      if 0 <=? size - 1 then
        match index !! Z.to_nat (size - 1) with
        | Some nonce =>
            capLoop count (size - 1) (delete nonce items) index
                    (drops ++ [items !! nonce])
        | None => Panicked  (* index out of range *)
        end
      else Panicked
  end.

Definition Cap (m : t) (threshold : Z)
    : outcome (list (option types.Transaction.t) * t) :=
  let len := Z.of_nat (size (items m)) in
  if len <=? threshold then Done ([], m)
  else
    let index := sort.Sort (index m) in
    let* r := capLoop (Z.to_nat (len - threshold)) len (items m) index [] in
    let '(items, drops) := r in
    let index := heap.Init (take (Z.to_nat threshold) index) in
    match cache m with
    | Some c =>
        if (length drops <=? length c)%nat
        then Done (drops, {| items := items; index := index;
                             cache := Some (take (length c - length drops) c) |})
        else Panicked  (* slice bounds out of range *)
    | None => Done (drops, {| items := items; index := index; cache := None |})
    end.

Definition Remove (m : t) (nonce : Z) : bool * t :=
  match items m !! nonce with
  | None => (false, m)
  | Some _ =>
      let index := match list_find (fun x => x = nonce) (index m) with
                   | Some (i, _) => heap.Remove (index m) i
                   | None => index m
                   end in
      (true, {| items := delete nonce (items m); index := index; cache := None |})
  end.

(** The loop of [Ready]; each pass pops an element. *)
Fixpoint readyLoop (fuel : nat) (next : Z) (items : gmap Z types.Transaction.t)
    (index : nonceHeap.t) (ready : list (option types.Transaction.t))
    : outcome (gmap Z types.Transaction.t * nonceHeap.t *
               list (option types.Transaction.t)) :=
  match index with
  | first :: _ =>
      if first =? next then
        match fuel with
        | O => OutOfFuel
        | S fuel =>
            let ready := ready ++ [items !! next] in
            let items := delete next items in
            let* r := heap.Pop index in
            readyLoop fuel (uint64 (next + 1)) items (snd r) ready
        end
      else Done (items, index, ready)
  | [] => Done (items, index, ready)
  end.

Definition Ready (m : t) (start : Z)
    : outcome (list (option types.Transaction.t) * t) :=
  match index m with
  | [] => Done ([], m)
  | first :: _ =>
      if start <? first then Done ([], m)
      else
        let* r := readyLoop (length (index m)) first (items m) (index m) [] in
        let '(items, index, ready) := r in
        Done (ready, {| items := items; index := index; cache := None |})
  end.

Definition Len (m : t) : Z := Z.of_nat (size (items m)).

Definition Flatten (m : t) : list types.Transaction.t * t :=
  let c := match cache m with
           | Some c => c
           | None => sort.TxByNonce (map snd (map_to_list (items m)))
           end in
  (c, {| items := items m; index := index m; cache := Some c |}).
End txSortedMap.

(** [txList]. *)
Module txList.
Record t : Type := {
  strict : bool;
  txs : txSortedMap.t;
  costcap : Z;
  gascap : Z
}.

Definition newTxList (strict : bool) : t :=
  {| strict := strict; txs := txSortedMap.newTxSortedMap; costcap := 0; gascap := 0 |}.

Definition set_txs (l : t) (m : txSortedMap.t) : t :=
  {| strict := strict l; txs := m; costcap := costcap l; gascap := gascap l |}.

Definition Overlaps (l : t) (tx : types.Transaction.t) : bool :=
  match txSortedMap.Get (txs l) (types.Transaction.Nonce tx) with
  | Some _ => true
  | None => false
  end.

Section Accessors.
(** The gas price, the gas limit and the cost of a transaction
    ([Transaction.GasPrice], [Gas] and [Cost] of core/types, not under
    src/). *)
Variables GasPrice Gas Cost : types.Transaction.t -> Z.

Definition Add (l : t) (tx : types.Transaction.t) (priceBump : Z)
    : bool * option types.Transaction.t * t :=
  let old := txSortedMap.Get (txs l) (types.Transaction.Nonce tx) in
  if match old with
     | Some old =>
         let threshold :=
           big.Div (GasPrice old * int64 (100 + int64 priceBump)) 100 in
         (GasPrice tx <=? GasPrice old) || (GasPrice tx <? threshold)
     | None => false
     end
  then (false, None, l)
  else
    let l := set_txs l (txSortedMap.Put (txs l) tx) in
    let l := if costcap l <? Cost tx
             then {| strict := strict l; txs := txs l; costcap := Cost tx;
                     gascap := gascap l |}
             else l in
    let l := if gascap l <? Gas tx
             then {| strict := strict l; txs := txs l; costcap := costcap l;
                     gascap := Gas tx |}
             else l in
    (true, old, l).

Definition Forward (l : t) (threshold : Z)
    : outcome (list (option types.Transaction.t) * t) :=
  let* r := txSortedMap.Forward (txs l) threshold in
  Done (fst r, set_txs l (snd r)).

Definition Filter (l : t) (costLimit gasLimit : Z)
    : list types.Transaction.t * list types.Transaction.t * t :=
  if (costcap l <=? costLimit) && (gascap l <=? gasLimit) then ([], [], l)
  else
    let l := {| strict := strict l; txs := txs l; costcap := costLimit;
                gascap := gasLimit |} in
    let '(removed, m) :=
      txSortedMap.Filter (txs l)
        (fun tx => (costLimit <? Cost tx) || (gasLimit <? Gas tx)) in
    let l := set_txs l m in
    if strict l && (0 <? length removed)%nat then
      let lowest :=
        fold_left (fun lowest tx =>
                     if types.Transaction.Nonce tx <? lowest
                     then types.Transaction.Nonce tx else lowest)
                  removed MaxUint64 in
      let '(invalids, m) :=
        txSortedMap.Filter (txs l)
          (fun tx => lowest <? types.Transaction.Nonce tx) in
      (removed, invalids, set_txs l m)
    else (removed, [], l).

Definition Cap (l : t) (threshold : Z)
    : outcome (list (option types.Transaction.t) * t) :=
  let* r := txSortedMap.Cap (txs l) threshold in
  Done (fst r, set_txs l (snd r)).

Definition Remove (l : t) (tx : types.Transaction.t)
    : bool * list types.Transaction.t * t :=
  let nonce := types.Transaction.Nonce tx in
  let '(removed, m) := txSortedMap.Remove (txs l) nonce in
  if negb removed then (false, [], set_txs l m)
  else
    let l := set_txs l m in
    if strict l then
      let '(invalids, m) :=
        txSortedMap.Filter (txs l) (fun tx => nonce <? types.Transaction.Nonce tx) in
      (true, invalids, set_txs l m)
    else (true, [], l).

Definition Ready (l : t) (start : Z)
    : outcome (list (option types.Transaction.t) * t) :=
  let* r := txSortedMap.Ready (txs l) start in
  Done (fst r, set_txs l (snd r)).

Definition Len (l : t) : Z := txSortedMap.Len (txs l).

Definition Empty (l : t) : bool := Len l =? 0.

Definition Flatten (l : t) : list types.Transaction.t * t :=
  let '(txs, m) := txSortedMap.Flatten (txs l) in
  (txs, set_txs l m).
End Accessors.
End txList.

(** ** Invariants of the transaction lists *)

(** The invariant of a sorted map: the heap holds the nonces of the map,
    each once; a transaction is stored under its nonce, a [uint64]; and a
    cache, if there is one, holds the transactions in the order of their
    nonces. *)
Definition sortedMapInv (m : txSortedMap.t) : Prop :=
  StronglySorted Z.lt (txSortedMap.index m) /\
  (forall n, n ∈ txSortedMap.index m <-> is_Some (txSortedMap.items m !! n)) /\
  (forall n tx, txSortedMap.items m !! n = Some tx ->
     types.Transaction.Nonce tx = n /\ 0 <= n <= MaxUint64) /\
  (forall c, txSortedMap.cache m = Some c ->
     map Some c = map (fun n => txSortedMap.items m !! n) (txSortedMap.index m)).

(** The invariant of a transaction list: its map is a sorted map, and no
    transaction costs more than [costcap] or has a gas limit above
    [gascap]. *)
Definition txListInv (Gas Cost : types.Transaction.t -> Z) (l : txList.t) : Prop :=
  sortedMapInv (txList.txs l) /\
  (forall n tx, txSortedMap.Get (txList.txs l) n = Some tx ->
     Cost tx <= txList.costcap l /\ Gas tx <= txList.gascap l).

(** ** Transactions and lists of the pool, for running the model *)

Module PoolExample.
(** The gas price and the gas limit of a transaction are those of its
    message; its cost is the value and the price of the gas. *)
Definition GasPrice (tx : types.Transaction.t) : Z :=
  Message.GasPrice (types.Transaction.content tx).
Definition Gas (tx : types.Transaction.t) : Z :=
  Message.Gas (types.Transaction.content tx).
Definition Cost (tx : types.Transaction.t) : Z :=
  Message.Value (types.Transaction.content tx) + GasPrice tx * Gas tx.

(** A transfer of address 1 with a nonce, a gas price and a gas limit. *)
Definition transfer (nonce price gas : Z) : types.Transaction.t :=
  {| types.Transaction.Hash := 100 * nonce + price;
     types.Transaction.Nonce := nonce;
     types.Transaction.content :=
       {| Message.From := 1; Message.To := Some 2; Message.GasPrice := price;
          Message.Gas := gas; Message.Value := 0; Message.Nonce := nonce;
          Message.CheckNonce := true; Message.Data := [] |};
     types.Transaction.signature := 1 |}.

(** A sorted map with the nonces 3, 4 and 6, put in another order. *)
Definition sortedMap : txSortedMap.t :=
  txSortedMap.Put
    (txSortedMap.Put
       (txSortedMap.Put txSortedMap.newTxSortedMap (transfer 6 10 21000))
       (transfer 3 10 21000))
    (transfer 4 10 50000).

(** A strict list with the same transactions. *)
Definition list : txList.t :=
  snd (txList.Add GasPrice Gas Cost
         (snd (txList.Add GasPrice Gas Cost
                 (snd (txList.Add GasPrice Gas Cost (txList.newTxList true)
                         (transfer 6 10 21000) 10))
                 (transfer 3 10 21000) 10))
         (transfer 4 10 50000) 10).
End PoolExample.

(** ** Sums and relations for the properties of the processor and of the tracer *)

(** The sum of the gas used by a list of receipts. *)
Definition gasOfReceipts (rs : list types.Receipt.t) : Z :=
  fold_right (fun r acc => types.Receipt.GasUsed r + acc) 0 rs.

(** Two interpreters that agree on all that [Run] reads but the debug
    flag and the tracer of their configuration.  The tracer of the model
    records the states it is given ([Interpreter.CaptureState]) and does
    nothing else. *)
Definition sameMachine (i1 i2 : Interpreter.t) : Prop :=
  Interpreter.evm i1 = Interpreter.evm i2 /\
  Interpreter.gasTable i1 = Interpreter.gasTable i2 /\
  Interpreter.readOnly i1 = Interpreter.readOnly i2 /\
  Interpreter.returnData i1 = Interpreter.returnData i2 /\
  Config.JumpTable (Interpreter.cfg i1) = Config.JumpTable (Interpreter.cfg i2) /\
  Config.DisableGasMetering (Interpreter.cfg i1)
    = Config.DisableGasMetering (Interpreter.cfg i2).

(** Two sets of locals of [Run] that differ at most in what is kept for
    the tracer. *)
Definition sameLocals (f1 f2 : Frame.t) : Prop :=
  Frame.mem f1 = Frame.mem f2 /\ Frame.stack f1 = Frame.stack f2 /\
  Frame.pc f1 = Frame.pc f2.

(** Two passes through the loop body that end in the same way. *)
Definition sameControl (c1 c2 : outcome Interpreter.control) : Prop :=
  match c1, c2 with
  | Done (Interpreter.Next i1 k1 f1), Done (Interpreter.Next i2 k2 f2) =>
      sameMachine i1 i2 /\ k1 = k2 /\ sameLocals f1 f2
  | Done (Interpreter.Return r1 e1 i1 k1 f1), Done (Interpreter.Return r2 e2 i2 k2 f2) =>
      r1 = r2 /\ e1 = e2 /\ sameMachine i1 i2 /\ k1 = k2 /\ sameLocals f1 f2
  | Panicked, Panicked => True
  | OutOfFuel, OutOfFuel => True
  | _, _ => False
  end.

(** Two runs that end in the same way. *)
Definition sameResult (r1 r2 : outcome Interpreter.Result) : Prop :=
  match r1, r2 with
  | Done r1, Done r2 =>
      Interpreter.ret r1 = Interpreter.ret r2 /\
      Interpreter.err r1 = Interpreter.err r2 /\
      Interpreter.contract r1 = Interpreter.contract r2 /\
      sameMachine (Interpreter.interpreter r1) (Interpreter.interpreter r2)
  | Panicked, Panicked => True
  | OutOfFuel, OutOfFuel => True
  | _, _ => False
  end.

(** * Properties *)

(** ** Machine arithmetic *)

Lemma int_dec_inc (d : Z) :
  - 2 ^ 63 <= d < 2 ^ 63 -> int (int (d + 1) - 1) = d.
Proof.
  intros Hd. unfold int.
  destruct (Z.eq_dec d (2 ^ 63 - 1)) as [->|Hne]; [reflexivity|].
  rewrite (Z.mod_small (d + 1 + 2 ^ 63)) by lia.
  rewrite Z.mod_small by lia. lia.
Qed.

Lemma uint64_small (z : Z) : 0 <= z < 2 ^ 64 -> uint64 z = z.
Proof. apply Z.mod_small. Qed.

Lemma uint64_range (z : Z) : 0 <= uint64 z < 2 ^ 64.
Proof. apply Z.mod_pos_bound. lia. Qed.

Lemma BitLen_pos_iff (v : Z) : 0 < big.BitLen v <-> v <> 0.
Proof.
  unfold big.BitLen. destruct (Z.eqb_spec (Z.abs v) 0) as [H|H].
  - split; [lia|]. intros Hv. lia.
  - split; [lia|]. intros _. pose proof (Z.log2_nonneg (Z.abs v)). lia.
Qed.

Lemma BitLen_le_64 (v : Z) : 0 <= v -> big.BitLen v <= 64 -> v < 2 ^ 64.
Proof.
  unfold big.BitLen. intros Hv. destruct (Z.eqb_spec (Z.abs v) 0) as [H|H]; [lia|].
  intros Hl. rewrite Z.abs_eq in * by lia.
  apply Z.log2_lt_pow2; lia.
Qed.

(** ** The interpreter *)

(** C9. [Run] on a contract without code returns at once: no output, no
    error, for any step budget and any jump table, so no opcode is executed;
    the contract (and so its gas) is as it was, and so is the environment
    (the world state, and the depth counter after its increment and
    decrement).  Stack and memory are not yet allocated.  Of the interpreter
    only [returnData] has changed: it is reset. *)
Theorem Run_empty_code (fuel : nat) (in_ : Interpreter.t) (snapshot : Z)
    (contract : Contract.t) (input : bytes) :
  Contract.Code contract = [] ->
  - 2 ^ 63 <= EVM.depth (Interpreter.evm in_) < 2 ^ 63 ->
  Interpreter.Run fuel in_ snapshot contract input =
  Done {| Interpreter.ret := []; Interpreter.err := None;
          Interpreter.interpreter := Interpreter.set_returnData in_ [];
          Interpreter.contract := contract |}.
Proof.
  intros Hcode Hdepth. unfold Interpreter.Run. rewrite Hcode. simpl.
  destruct in_ as [e c g r d]. destruct e. simpl in *.
  unfold Interpreter.leave, Interpreter.set_returnData, Interpreter.set_evm,
    EVM.set_depth. simpl.
  rewrite int_dec_inc by assumption. reflexivity.
Qed.

Lemma Run_empty_code_witness :
  Interpreter.Run 0 (Example.interpreter true false Example.emptyState) 0
                  (Example.contract [] 500) [x02] =
  Done {| Interpreter.ret := []; Interpreter.err := None;
          Interpreter.interpreter :=
            Interpreter.set_returnData
              (Example.interpreter true false Example.emptyState) [];
          Interpreter.contract := Example.contract [] 500 |}.
Proof.
  apply (Run_empty_code 0 (Example.interpreter true false Example.emptyState) 0
                        (Example.contract [] 500) [x02]).
  - reflexivity.
  - simpl. lia.
Defined.

(** A step that ends at one of the two checks that precede the gas charge:
    it returns the error, with the interpreter and the contract as they
    were, and the locals changed only in the copies kept for the tracer. *)
Lemma step_rejected (in_ : Interpreter.t) (contract : Contract.t) (fr : Frame.t)
    (e : error) :
  let op := Contract.GetOp contract (Frame.pc fr) in
  let operation := Config.JumpTable (Interpreter.cfg in_) op in
  let fr' := if Config.Debug (Interpreter.cfg in_)
             then Frame.snapshot (Frame.set_op fr op) (Contract.Gas contract)
             else Frame.set_op fr op in
  valid operation = true ->
  validateStack operation (Frame.stack fr) = Some e \/
  (validateStack operation (Frame.stack fr) = None /\
   Interpreter.enforceRestrictions in_ op operation (Frame.stack fr) = Done (Some e)) ->
  Interpreter.step in_ contract fr =
  Done (Interpreter.Return [] (Some e) in_ contract fr').
Proof.
  intros op operation fr' Hvalid H. unfold Interpreter.step.
  fold op. fold operation. rewrite Hvalid. simpl.
  assert (Hstack : Frame.stack fr' = Frame.stack fr).
  { subst fr'. destruct (Config.Debug _); reflexivity. }
  fold fr'. rewrite Hstack.
  destruct H as [Hs | [Hs Hr]].
  - rewrite Hs. reflexivity.
  - rewrite Hs, Hr. reflexivity.
Qed.

(** C7. A step whose operation fails the stack validation, or is refused by
    the write-protection check, returns that error with the interpreter and
    the contract exactly as they were: the gas of the frame is unchanged, the
    world state is unchanged, and the locals [cost], [stack], [mem] and [pc]
    are untouched, so the gas function and the executor have not run. *)
Theorem step_fails_before_gas (in_ : Interpreter.t) (contract : Contract.t)
    (fr : Frame.t) (e : error) :
  let op := Contract.GetOp contract (Frame.pc fr) in
  let operation := Config.JumpTable (Interpreter.cfg in_) op in
  valid operation = true ->
  validateStack operation (Frame.stack fr) = Some e \/
  (validateStack operation (Frame.stack fr) = None /\
   Interpreter.enforceRestrictions in_ op operation (Frame.stack fr) = Done (Some e)) ->
  exists fr',
    Interpreter.step in_ contract fr =
      Done (Interpreter.Return [] (Some e) in_ contract fr') /\
    Frame.cost fr' = Frame.cost fr /\ Frame.stack fr' = Frame.stack fr /\
    Frame.mem fr' = Frame.mem fr /\ Frame.pc fr' = Frame.pc fr.
Proof.
  intros op operation Hvalid H.
  eexists. split; [apply step_rejected; assumption|].
  destruct (Config.Debug _); repeat split; reflexivity.
Qed.

Lemma step_fails_before_gas_witness :
  exists fr',
    Interpreter.step (Example.interpreter true false (Example.world [x55]))
                     (Example.contract [x55] 10000) (Example.frame [7]) =
      Done (Interpreter.Return [] (Some (ErrOther 1))
              (Example.interpreter true false (Example.world [x55]))
              (Example.contract [x55] 10000) fr') /\
    Frame.cost fr' = Frame.cost (Example.frame [7]) /\
    Frame.stack fr' = Frame.stack (Example.frame [7]) /\
    Frame.mem fr' = Frame.mem (Example.frame [7]) /\
    Frame.pc fr' = Frame.pc (Example.frame [7]).
Proof.
  apply (step_fails_before_gas
           (Example.interpreter true false (Example.world [x55]))
           (Example.contract [x55] 10000) (Example.frame [7]) (ErrOther 1)).
  - reflexivity.
  - left. reflexivity.
Defined.

Lemma enforceRestrictions_static (in_ : Interpreter.t) (op : byte)
    (operation : operation) (stack : Stack.t) :
  Interpreter.readOnly in_ = true ->
  params.Rules.IsByzantium (EVM.chainRules (Interpreter.evm in_)) = true ->
  writes operation = true \/
  (op = CALL /\ exists v, Stack.Back stack 2 = Done v /\ v <> 0) ->
  Interpreter.enforceRestrictions in_ op operation stack =
  Done (Some errWriteProtection).
Proof.
  intros Hro Hbyz H. unfold Interpreter.enforceRestrictions.
  rewrite Hbyz, Hro. destruct (writes operation); [reflexivity|].
  destruct H as [H | [-> (v & Hv & Hnz)]]; [discriminate|].
  simpl. rewrite Hv. simpl.
  apply BitLen_pos_iff in Hnz. apply Z.ltb_lt in Hnz. rewrite Hnz. reflexivity.
Qed.

(** C1 (amended). Under the Byzantium rules, a step in read-only mode whose
    operation is valid and passes the stack validation, and either has
    [writes] set or is CALL with a non-zero third stack item, returns the
    write-protection error; the interpreter (and so the world state) and the
    contract are as they were, and so are stack and memory. *)
Theorem static_write_protection (in_ : Interpreter.t) (contract : Contract.t)
    (fr : Frame.t) :
  let op := Contract.GetOp contract (Frame.pc fr) in
  let operation := Config.JumpTable (Interpreter.cfg in_) op in
  Interpreter.readOnly in_ = true ->
  params.Rules.IsByzantium (EVM.chainRules (Interpreter.evm in_)) = true ->
  valid operation = true ->
  validateStack operation (Frame.stack fr) = None ->
  writes operation = true \/
  (op = CALL /\ exists v, Stack.Back (Frame.stack fr) 2 = Done v /\ v <> 0) ->
  exists fr',
    Interpreter.step in_ contract fr =
      Done (Interpreter.Return [] (Some errWriteProtection) in_ contract fr') /\
    Frame.stack fr' = Frame.stack fr /\ Frame.mem fr' = Frame.mem fr.
Proof.
  intros op operation Hro Hbyz Hvalid Hstack H.
  eexists. split.
  - apply step_rejected; [assumption|]. right. split; [assumption|].
    apply enforceRestrictions_static; assumption.
  - destruct (Config.Debug _); split; reflexivity.
Qed.

Lemma static_write_protection_witness :
  exists fr',
    Interpreter.step (Example.interpreter true true (Example.world [xf1]))
                     (Example.contract [xf1] 10000)
                     (Example.frame [0; 0; 0; 0; 5; 2; 900]) =
      Done (Interpreter.Return [] (Some errWriteProtection)
              (Example.interpreter true true (Example.world [xf1]))
              (Example.contract [xf1] 10000) fr') /\
    Frame.stack fr' = Frame.stack (Example.frame [0; 0; 0; 0; 5; 2; 900]) /\
    Frame.mem fr' = Frame.mem (Example.frame [0; 0; 0; 0; 5; 2; 900]).
Proof.
  apply (static_write_protection
           (Example.interpreter true true (Example.world [xf1]))
           (Example.contract [xf1] 10000)
           (Example.frame [0; 0; 0; 0; 5; 2; 900])).
  - reflexivity.
  - reflexivity.
  - reflexivity.
  - reflexivity.
  - right. split; [reflexivity|]. exists 5. split; [reflexivity|lia].
Defined.

(** C1, as stated, fails.  Before Byzantium a step in read-only mode runs an
    operation that has [writes] set: SSTORE is charged and writes slot 0 of
    the contract.  Under Byzantium, the same operation on a stack that is too
    short returns the error of the stack validation, not the
    write-protection error. *)
Lemma static_write_unprotected :
  let contract := Example.contract [x55] 10000 in
  (let in_ := Example.interpreter false true (Example.world [x55]) in
   let fr := Example.frame [7; 0] in
   Interpreter.readOnly in_ = true /\
   writes (Config.JumpTable (Interpreter.cfg in_)
             (Contract.GetOp contract (Frame.pc fr))) = true /\
   StateDB.GetState (EVM.StateDB (Interpreter.evm in_)) 2 0 = 1 /\
   exists in' contract' fr',
     Interpreter.step in_ contract fr = Done (Interpreter.Next in' contract' fr') /\
     StateDB.GetState (EVM.StateDB (Interpreter.evm in')) 2 0 = 7 /\
     Contract.Gas contract' = 5000) /\
  (let in_ := Example.interpreter true true (Example.world [x55]) in
   let fr := Example.frame [7] in
   writes (Config.JumpTable (Interpreter.cfg in_)
             (Contract.GetOp contract (Frame.pc fr))) = true /\
   exists fr',
     Interpreter.step in_ contract fr =
     Done (Interpreter.Return [] (Some (ErrOther 1)) in_ contract fr')).
Proof.
  split.
  - split; [reflexivity|]. split; [reflexivity|]. split; [vm_compute; reflexivity|].
    assert (H : match Interpreter.step
                        (Example.interpreter false true (Example.world [x55]))
                        (Example.contract [x55] 10000) (Example.frame [7; 0]) with
                | Done (Interpreter.Next in' contract' fr') =>
                    StateDB.GetState (EVM.StateDB (Interpreter.evm in')) 2 0 = 7 /\
                    Contract.Gas contract' = 5000
                | _ => False
                end) by (vm_compute; split; reflexivity).
    destruct (Interpreter.step _ _ _) as [[in' contract' fr'|]| |];
      try contradiction.
    exists in', contract', fr'. split; [reflexivity|exact H].
  - split; [reflexivity|]. eexists. apply step_rejected; [reflexivity|].
    left. reflexivity.
Qed.

(** ** The world state *)

Lemma Exist_CreateAccount (s : StateDB.t) (a : Z) :
  StateDB.Exist (StateDB.CreateAccount s a) a = true.
Proof.
  unfold StateDB.Exist, StateDB.CreateAccount. simpl.
  rewrite lookup_insert_eq. reflexivity.
Qed.

Lemma Exist_CreateAccount_other (s : StateDB.t) (a b : Z) :
  StateDB.Exist s b = true -> StateDB.Exist (StateDB.CreateAccount s a) b = true.
Proof.
  unfold StateDB.Exist, StateDB.CreateAccount. simpl. intros H.
  destruct (decide (a = b)) as [->|Hne].
  - rewrite lookup_insert_eq. reflexivity.
  - rewrite lookup_insert_ne by assumption. exact H.
Qed.

(** Creating an account that does not exist changes no account that is
    read: a missing account reads as a new one. *)
Lemma getOrNew_CreateAccount (s : StateDB.t) (a b : Z) :
  StateDB.Exist s a = false ->
  StateDB.getOrNew (StateDB.CreateAccount s a) b = StateDB.getOrNew s b.
Proof.
  unfold StateDB.Exist, StateDB.getOrNew, StateDB.CreateAccount. simpl. intros H.
  destruct (decide (a = b)) as [->|Hne].
  - rewrite lookup_insert_eq. destruct (StateDB.accounts s !! b); [discriminate|reflexivity].
  - rewrite lookup_insert_ne by assumption. reflexivity.
Qed.

Lemma getOrNew_update (s : StateDB.t) (a : Z) (f : StateDB.Account -> StateDB.Account) :
  StateDB.getOrNew (StateDB.update s a f) a = f (StateDB.getOrNew s a).
Proof.
  unfold StateDB.getOrNew, StateDB.update. simpl.
  rewrite lookup_insert_eq. reflexivity.
Qed.

Lemma getOrNew_update_other (s : StateDB.t) (a b : Z)
    (f : StateDB.Account -> StateDB.Account) :
  a <> b -> StateDB.getOrNew (StateDB.update s a f) b = StateDB.getOrNew s b.
Proof.
  unfold StateDB.getOrNew, StateDB.update. simpl. intros Hne.
  rewrite lookup_insert_ne by assumption. reflexivity.
Qed.

Lemma Exist_update (s : StateDB.t) (a b : Z) (f : StateDB.Account -> StateDB.Account) :
  StateDB.Exist s b = true -> StateDB.Exist (StateDB.update s a f) b = true.
Proof.
  unfold StateDB.Exist, StateDB.update. simpl. intros H.
  destruct (decide (a = b)) as [->|Hne].
  - rewrite lookup_insert_eq. reflexivity.
  - rewrite lookup_insert_ne by assumption. exact H.
Qed.


(** ** The state transition *)

(** [from] returns the sender and changes the world state only: afterwards
    the sender exists, and every account reads as before. *)
Lemma from_spec (st : StateTransition.t) :
  exists s',
    StateTransition.from st =
      (Message.From (StateTransition.msg st), StateTransition.set_state st s') /\
    StateDB.Exist s' (Message.From (StateTransition.msg st)) = true /\
    (forall b, StateDB.getOrNew s' b = StateDB.getOrNew (StateTransition.state st) b) /\
    StateDB.refund s' = StateDB.refund (StateTransition.state st) /\
    (forall b, StateDB.Exist (StateTransition.state st) b = true ->
               StateDB.Exist s' b = true) /\
    (StateDB.Exist (StateTransition.state st) (Message.From (StateTransition.msg st)) = true ->
     s' = StateTransition.state st) /\
    (StateDB.Exist (StateTransition.state st) (Message.From (StateTransition.msg st)) = false ->
     s' = StateDB.CreateAccount (StateTransition.state st)
            (Message.From (StateTransition.msg st))).
Proof.
  unfold StateTransition.from.
  destruct (StateDB.Exist (StateTransition.state st)
              (Message.From (StateTransition.msg st))) eqn:E; simpl.
  - exists (StateTransition.state st). split; [|repeat split; auto; discriminate].
    destruct st as [? ? ? ? ? ? ? e]. destruct e. reflexivity.
  - exists (StateDB.CreateAccount (StateTransition.state st)
              (Message.From (StateTransition.msg st))).
    repeat split; try discriminate.
    + apply Exist_CreateAccount.
    + intros b. apply getOrNew_CreateAccount. exact E.
    + intros b. apply Exist_CreateAccount_other.
Qed.

Lemma BigMin_min (x y : Z) : math.BigMin x y = Z.min y x.
Proof. unfold math.BigMin. destruct (Z.ltb_spec y x); lia. Qed.

Lemma GetBalance_AddBalance (s : StateDB.t) (a : Z) (v : Z) :
  StateDB.GetBalance (StateDB.AddBalance s a v) a = StateDB.GetBalance s a + v.
Proof.
  unfold StateDB.GetBalance, StateDB.AddBalance. rewrite getOrNew_update. reflexivity.
Qed.

(** Unfold the setters of the transition and read the fields through them. *)
Ltac st_simpl :=
  unfold StateTransition.state, StateTransition.set_state, StateTransition.set_gas,
    StateTransition.set_gp, StateTransition.set_initialGas, StateTransition.set_evm,
    EVM.set_StateDB in *;
  cbn [StateTransition.gp StateTransition.msg StateTransition.gas
       StateTransition.gasPrice StateTransition.initialGas StateTransition.value
       StateTransition.data StateTransition.evm
       EVM.Origin EVM.Coinbase EVM.BlockNumber EVM.StateDB EVM.depth
       EVM.chainConfig EVM.chainRules EVM.abort EVM.ChainConfig fst snd] in *.

(** C3. At the refund step, with the gas left no more than the gas bought, a
    gas limit that fits 64 bits and a refund counter that is not negative:
    the gas added back is the smaller of the refund counter and half of the
    gas used before the refund, so it never exceeds [gasUsed / 2]; the sender
    is paid the remaining gas and the refund at the gas price of the message;
    and the gas that is left goes back to the pool. *)
Theorem refundGas_capped (st : StateTransition.t) :
  0 <= StateTransition.gas st <= StateTransition.initialGas st ->
  StateTransition.initialGas st < 2 ^ 64 ->
  0 <= StateDB.GetRefund (StateTransition.state st) ->
  let sender := Message.From (StateTransition.msg st) in
  let used := StateTransition.gasUsed st in
  let refund := Z.min (StateDB.GetRefund (StateTransition.state st)) (used / 2) in
  let st' := StateTransition.refundGas st in
  StateTransition.gas st' = StateTransition.gas st + refund /\
  StateTransition.gas st' - StateTransition.gas st <= used / 2 /\
  StateDB.GetBalance (StateTransition.state st') sender =
    StateDB.GetBalance (StateTransition.state st) sender
    + StateTransition.gas st * StateTransition.gasPrice st
    + refund * StateTransition.gasPrice st /\
  StateTransition.gp st' = StateTransition.gp st + StateTransition.gas st'.
Proof.
  intros Hgas Hinit Href sender used refund st'.
  destruct (from_spec st) as (s' & Hfrom & _ & Hread & Hrefund & _).
  subst st'. unfold StateTransition.refundGas. rewrite Hfrom.
  unfold StateTransition.gasUsed, StateDB.GetRefund in *. st_simpl.
  replace (StateDB.refund (StateDB.AddBalance s' (Message.From (StateTransition.msg st))
             (StateTransition.gas st * StateTransition.gasPrice st)))
    with (StateDB.refund s') by reflexivity.
  rewrite Hrefund. rewrite BigMin_min. unfold big.Div. fold used. fold refund.
  assert (Hu : 0 <= used / 2 <= used).
  { subst used. unfold StateTransition.gasUsed. split.
    - apply Z.div_pos; lia.
    - apply Z.div_le_upper_bound; lia. }
  assert (Hr : 0 <= refund <= used / 2) by (subst refund; lia).
  unfold big.Uint64. rewrite Z.abs_eq by lia.
  assert (Hused : used = StateTransition.initialGas st - StateTransition.gas st)
    by reflexivity.
  rewrite (uint64_small refund) by lia.
  rewrite uint64_small by lia.
  repeat split; try lia.
  rewrite !GetBalance_AddBalance. unfold StateDB.GetBalance.
  rewrite Hread. reflexivity.
Qed.

Lemma refundGas_capped_witness :
  StateTransition.gas (StateTransition.refundGas (Example.refunding 4000 15000))
    = 4000 + 13000 /\
  StateDB.GetBalance
    (StateTransition.state (StateTransition.refundGas (Example.refunding 4000 15000))) 1
    = 1000000 + 4000 + 13000.
Proof.
  assert (H1 : 0 <= StateTransition.gas (Example.refunding 4000 15000)
               <= StateTransition.initialGas (Example.refunding 4000 15000))
    by (simpl; lia).
  assert (H2 : StateTransition.initialGas (Example.refunding 4000 15000) < 2 ^ 64)
    by (simpl; lia).
  assert (H3 : 0 <= StateDB.GetRefund
                      (StateTransition.state (Example.refunding 4000 15000)))
    by (simpl; lia).
  destruct (refundGas_capped (Example.refunding 4000 15000) H1 H2 H3)
    as (Hgas & _ & Hbal & _).
  split.
  - rewrite Hgas. reflexivity.
  - etransitivity; [exact Hbal|]. vm_compute. reflexivity.
Defined.

(** The nonce that [preCheck] compares is the sender's nonce in the world
    state the transition starts from. *)
Lemma preCheck_unfold (st : StateTransition.t) :
  let nonce := StateDB.GetNonce (StateTransition.state st)
                 (Message.From (StateTransition.msg st)) in
  let m := StateTransition.msg st in
  StateTransition.preCheck st =
    if Message.CheckNonce m && (nonce <? Message.Nonce m)
    then (Some ErrNonceTooHigh, snd (StateTransition.from st))
    else if Message.CheckNonce m && (Message.Nonce m <? nonce)
    then (Some ErrNonceTooLow, snd (StateTransition.from st))
    else StateTransition.buyGas (snd (StateTransition.from st)).
Proof.
  intros nonce m. unfold StateTransition.preCheck.
  destruct (from_spec st) as (s' & Hfrom & _ & Hread & _).
  rewrite Hfrom. st_simpl. unfold StateDB.GetNonce. rewrite Hread.
  reflexivity.
Qed.

(** C4. With nonce checking requested: a message nonce above the sender's
    nonce makes [preCheck] return the nonce-too-high error, one below it the
    nonce-too-low error, and [TransitionDb] returns that error as its own
    (no result, no gas); a nonce one higher than the account's is too high;
    and [preCheck] succeeds only if the two nonces are equal. *)
Theorem preCheck_nonce (P : params.Constants) (Call : CallFunc) (Create : CreateFunc)
    (st : StateTransition.t) :
  Message.CheckNonce (StateTransition.msg st) = true ->
  let nonce := StateDB.GetNonce (StateTransition.state st)
                 (Message.From (StateTransition.msg st)) in
  let m := Message.Nonce (StateTransition.msg st) in
  let st' := snd (StateTransition.from st) in
  (nonce < m ->
   StateTransition.preCheck st = (Some ErrNonceTooHigh, st') /\
   StateTransition.TransitionDb P Call Create st =
     Done (StateTransition.failure ErrNonceTooHigh, st')) /\
  (m < nonce ->
   StateTransition.preCheck st = (Some ErrNonceTooLow, st') /\
   StateTransition.TransitionDb P Call Create st =
     Done (StateTransition.failure ErrNonceTooLow, st')) /\
  (m = nonce + 1 ->
   StateTransition.TransitionDb P Call Create st =
     Done (StateTransition.failure ErrNonceTooHigh, st')) /\
  (fst (StateTransition.preCheck st) = None -> m = nonce).
Proof.
  intros Hcheck nonce m st'.
  pose proof (preCheck_unfold st) as Hpre. cbv zeta in Hpre.
  fold nonce in Hpre. fold m in Hpre. fold st' in Hpre. rewrite Hcheck in Hpre.
  simpl in Hpre.
  assert (Hhigh : nonce < m ->
            StateTransition.preCheck st = (Some ErrNonceTooHigh, st') /\
            StateTransition.TransitionDb P Call Create st =
              Done (StateTransition.failure ErrNonceTooHigh, st')).
  { intros H. apply Z.ltb_lt in H. rewrite H in Hpre.
    split; [exact Hpre|]. unfold StateTransition.TransitionDb. rewrite Hpre.
    reflexivity. }
  split; [exact Hhigh|]. split; [|split].
  - intros H. destruct (Z.ltb_spec nonce m); [lia|].
    apply Z.ltb_lt in H. rewrite H in Hpre.
    split; [exact Hpre|]. unfold StateTransition.TransitionDb. rewrite Hpre.
    reflexivity.
  - intros H. apply Hhigh. lia.
  - intros H. rewrite Hpre in H.
    destruct (Z.ltb_spec nonce m); [discriminate|].
    destruct (Z.ltb_spec m nonce); [discriminate|]. lia.
Qed.

Lemma preCheck_nonce_witness :
  StateTransition.TransitionDb Example.constants Example.Call Example.Create
    (Example.transition [] 1 30000) =
  Done (StateTransition.failure ErrNonceTooHigh,
        snd (StateTransition.from (Example.transition [] 1 30000))).
Proof.
  destruct (preCheck_nonce Example.constants Example.Call Example.Create
              (Example.transition [] 1 30000) eq_refl) as (_ & _ & H & _).
  apply H. vm_compute. reflexivity.
Defined.

(** [buyGas] and [preCheck] change the pool, the gas, the initial gas and the
    world state only. *)
Lemma buyGas_shape (st : StateTransition.t) :
  exists p g i s,
    snd (StateTransition.buyGas st) =
    {| StateTransition.gp := p; StateTransition.msg := StateTransition.msg st;
       StateTransition.gas := g; StateTransition.gasPrice := StateTransition.gasPrice st;
       StateTransition.initialGas := i; StateTransition.value := StateTransition.value st;
       StateTransition.data := StateTransition.data st;
       StateTransition.evm := EVM.set_StateDB (StateTransition.evm st) s |}.
Proof.
  unfold StateTransition.buyGas.
  destruct (64 <? big.BitLen _).
  { exists (StateTransition.gp st), (StateTransition.gas st),
      (StateTransition.initialGas st), (StateTransition.state st).
    destruct st as [? ? ? ? ? ? ? e]; destruct e; reflexivity. }
  destruct (from_spec st) as (s' & Hfrom & _). rewrite Hfrom.
  destruct (_ <? _).
  { simpl. do 4 eexists. reflexivity. }
  unfold GasPool.SubGas. destruct (_ <? _); simpl; do 4 eexists; reflexivity.
Qed.

Lemma preCheck_shape (st : StateTransition.t) :
  exists p g i s,
    snd (StateTransition.preCheck st) =
    {| StateTransition.gp := p; StateTransition.msg := StateTransition.msg st;
       StateTransition.gas := g; StateTransition.gasPrice := StateTransition.gasPrice st;
       StateTransition.initialGas := i; StateTransition.value := StateTransition.value st;
       StateTransition.data := StateTransition.data st;
       StateTransition.evm := EVM.set_StateDB (StateTransition.evm st) s |}.
Proof.
  rewrite preCheck_unfold. destruct (from_spec st) as (s' & Hfrom & _).
  rewrite Hfrom. simpl.
  destruct (_ && _); [do 4 eexists; reflexivity|].
  destruct (_ && _); [do 4 eexists; reflexivity|].
  destruct (buyGas_shape (StateTransition.set_state st s')) as (p & g & i & s & H).
  rewrite H. do 4 eexists. reflexivity.
Qed.

Lemma error_eqb_eq (a b : error) : error_eqb a b = true <-> a = b.
Proof.
  split.
  - destruct a, b; simpl; try discriminate; try reflexivity.
    + intros H. apply Byte.byte_dec_bl in H. congruence.
    + intros H. apply Z.eqb_eq in H. congruence.
  - intros ->. destruct b; simpl; try reflexivity.
    + apply Byte.byte_dec_lb. reflexivity.
    + apply Z.eqb_refl.
Qed.

(** [TransitionDb] after a pre-check and an intrinsic-gas charge that
    succeed: the error of the virtual machine decides between the two ways
    out. *)
Lemma TransitionDb_dispatch (P : params.Constants) (Call : CallFunc)
    (Create : CreateFunc) (st st1 st2 st3 : StateTransition.t) (ret : bytes)
    (vmerr : option error) :
  let sender := Message.From (StateTransition.msg st) in
  let contractCreation :=
    match Message.To (StateTransition.msg st) with None => true | Some _ => false end in
  let homestead :=
    params.ChainConfig.IsHomestead (EVM.ChainConfig (StateTransition.evm st))
                                   (EVM.BlockNumber (StateTransition.evm st)) in
  let intrinsicGas := IntrinsicGas P (StateTransition.data st) contractCreation homestead in
  StateTransition.preCheck st = (None, st1) ->
  big.BitLen intrinsicGas <= 64 ->
  StateTransition.useGas (snd (StateTransition.from st1)) (big.Uint64 intrinsicGas)
    = (None, st2) ->
  StateTransition.callOrCreate Call Create st2 sender contractCreation
    = Done (ret, vmerr, st3) ->
  StateTransition.TransitionDb P Call Create st =
    if match vmerr with
       | Some e => error_eqb e ErrInsufficientBalance
       | None => false
       end
    then Done ({| StateTransition.ret := []; StateTransition.requiredGas := None;
                  StateTransition.usedGas := None; StateTransition.failed := false;
                  StateTransition.err := vmerr |}, st3)
    else
      let st4 := StateTransition.refundGas st3 in
      let st5 := StateTransition.set_state st4
                   (StateDB.AddBalance (StateTransition.state st4)
                      (EVM.Coinbase (StateTransition.evm st4))
                      (StateTransition.gasUsed st4 * StateTransition.gasPrice st4)) in
      Done ({| StateTransition.ret := ret;
               StateTransition.requiredGas := Some (StateTransition.gasUsed st3);
               StateTransition.usedGas := Some (StateTransition.gasUsed st5);
               StateTransition.failed :=
                 match vmerr with Some _ => true | None => false end;
               StateTransition.err := None |}, st5).
Proof.
  intros sender contractCreation homestead intrinsicGas Hpre Hbits Huse Hcall.
  unfold StateTransition.TransitionDb. rewrite Hpre.
  destruct (preCheck_shape st) as (p & g & i & s & Hshape).
  rewrite Hpre in Hshape. simpl in Hshape.
  destruct (from_spec st1) as (s1 & Hfrom & _). rewrite Hfrom in *.
  assert (Hmsg : StateTransition.msg st1 = StateTransition.msg st)
    by (rewrite Hshape; reflexivity).
  rewrite Hmsg in *. simpl in Huse.
  replace (StateTransition.data (StateTransition.set_state st1 s1))
    with (StateTransition.data st) by (rewrite Hshape; reflexivity).
  replace (EVM.ChainConfig (StateTransition.evm (StateTransition.set_state st1 s1)))
    with (EVM.ChainConfig (StateTransition.evm st)) by (rewrite Hshape; reflexivity).
  replace (EVM.BlockNumber (StateTransition.evm (StateTransition.set_state st1 s1)))
    with (EVM.BlockNumber (StateTransition.evm st)) by (rewrite Hshape; reflexivity).
  fold contractCreation homestead intrinsicGas.
  destruct (Z.ltb_spec 64 (big.BitLen intrinsicGas)); [lia|].
  rewrite Huse. fold sender. rewrite Hcall. simpl.
  destruct (match vmerr with Some e => error_eqb e ErrInsufficientBalance | None => false end);
    reflexivity.
Qed.

(** C5. After a pre-check and an intrinsic-gas charge that succeed,
    [TransitionDb] returns an error if and only if the error of the virtual
    machine is the insufficient-balance error, which it returns as its own.
    Any other error of the virtual machine gives [err = nil] with
    [failed = true], and the transaction is billed as one that succeeded:
    the gas used before and after the refund is reported, the refund step
    runs, and the coinbase is paid the gas used at the gas price. *)
Theorem vm_error_is_not_fatal (P : params.Constants) (Call : CallFunc)
    (Create : CreateFunc) (st st1 st2 st3 : StateTransition.t) (ret : bytes)
    (vmerr : option error) :
  let sender := Message.From (StateTransition.msg st) in
  let contractCreation :=
    match Message.To (StateTransition.msg st) with None => true | Some _ => false end in
  let homestead :=
    params.ChainConfig.IsHomestead (EVM.ChainConfig (StateTransition.evm st))
                                   (EVM.BlockNumber (StateTransition.evm st)) in
  let intrinsicGas := IntrinsicGas P (StateTransition.data st) contractCreation homestead in
  StateTransition.preCheck st = (None, st1) ->
  big.BitLen intrinsicGas <= 64 ->
  StateTransition.useGas (snd (StateTransition.from st1)) (big.Uint64 intrinsicGas)
    = (None, st2) ->
  StateTransition.callOrCreate Call Create st2 sender contractCreation
    = Done (ret, vmerr, st3) ->
  exists r st',
    StateTransition.TransitionDb P Call Create st = Done (r, st') /\
    (StateTransition.err r <> None <-> vmerr = Some ErrInsufficientBalance) /\
    (vmerr = Some ErrInsufficientBalance ->
     r = StateTransition.failure ErrInsufficientBalance /\ st' = st3) /\
    (vmerr <> Some ErrInsufficientBalance ->
     let st4 := StateTransition.refundGas st3 in
     StateTransition.err r = None /\
     StateTransition.failed r = match vmerr with Some _ => true | None => false end /\
     StateTransition.ret r = ret /\
     StateTransition.requiredGas r = Some (StateTransition.gasUsed st3) /\
     StateTransition.usedGas r = Some (StateTransition.gasUsed st4) /\
     st' = StateTransition.set_state st4
             (StateDB.AddBalance (StateTransition.state st4)
                (EVM.Coinbase (StateTransition.evm st4))
                (StateTransition.gasUsed st4 * StateTransition.gasPrice st4))).
Proof.
  intros sender contractCreation homestead intrinsicGas Hpre Hbits Huse Hcall.
  rewrite (TransitionDb_dispatch P Call Create st st1 st2 st3 ret vmerr
             Hpre Hbits Huse Hcall).
  destruct vmerr as [e|].
  - destruct (error_eqb e ErrInsufficientBalance) eqn:E.
    + apply error_eqb_eq in E. subst e. do 2 eexists. split; [reflexivity|].
      simpl. repeat split; try congruence.
    + assert (Hne : e <> ErrInsufficientBalance).
      { intros ->. rewrite (proj2 (error_eqb_eq _ _) eq_refl) in E. discriminate. }
      do 2 eexists. split; [reflexivity|]. simpl.
      split; [split; congruence|]. split; [congruence|].
      intros _. repeat split; reflexivity.
  - do 2 eexists. split; [reflexivity|]. simpl.
    split; [split; congruence|]. split; [congruence|].
    intros _. repeat split; reflexivity.
Qed.

Lemma vm_error_is_not_fatal_witness :
  exists r st',
    StateTransition.TransitionDb Example.constants Example.Call Example.Create
      (Example.transition [xfe] 0 30000) = Done (r, st') /\
    StateTransition.err r = None /\ StateTransition.failed r = true /\
    StateTransition.usedGas r = Some 30000.
Proof.
  edestruct (vm_error_is_not_fatal Example.constants Example.Call Example.Create
               (Example.transition [xfe] 0 30000))
    as (r & st' & H & _ & _ & Hok).
  - vm_compute. reflexivity.
  - vm_compute. discriminate.
  - vm_compute. reflexivity.
  - vm_compute. reflexivity.
  - exists r, st'. split; [exact H|].
    destruct Hok as (He & Hf & _ & _ & Hu & _); [discriminate|].
    split; [exact He|]. split; [exact Hf|]. rewrite Hu. vm_compute. reflexivity.
Defined.

(** What a gas purchase that succeeds leaves behind. *)
Lemma buyGas_ok (st st1 : StateTransition.t) :
  StateTransition.buyGas st = (None, st1) ->
  big.BitLen (Message.Gas (StateTransition.msg st)) <= 64 /\
  StateTransition.initialGas st1 = Message.Gas (StateTransition.msg st) /\
  StateTransition.gas st1 =
    uint64 (StateTransition.gas st + big.Uint64 (Message.Gas (StateTransition.msg st))) /\
  StateTransition.gasPrice st1 = StateTransition.gasPrice st.
Proof.
  unfold StateTransition.buyGas.
  destruct (Z.ltb_spec 64 (big.BitLen (Message.Gas (StateTransition.msg st))));
    [discriminate|].
  destruct (from_spec st) as (s' & Hfrom & _). rewrite Hfrom.
  destruct (_ <? _); [discriminate|].
  unfold GasPool.SubGas. destruct (_ <? _); [discriminate|].
  intros [= <-]. repeat split; try assumption.
Qed.

Lemma preCheck_ok (st st1 : StateTransition.t) :
  StateTransition.preCheck st = (None, st1) ->
  StateTransition.buyGas (snd (StateTransition.from st)) = (None, st1).
Proof.
  rewrite preCheck_unfold.
  destruct (_ && _); [discriminate|]. destruct (_ && _); [discriminate|].
  trivial.
Qed.

Lemma useGas_ok (st st2 : StateTransition.t) (amount : Z) :
  StateTransition.useGas st amount = (None, st2) ->
  amount <= StateTransition.gas st /\
  st2 = StateTransition.set_gas st (StateTransition.gas st - amount).
Proof.
  unfold StateTransition.useGas. destruct (Z.ltb_spec (StateTransition.gas st) amount);
    [discriminate|].
  intros [= <-]. split; [lia|reflexivity].
Qed.

(** The call-or-create step changes the gas and the environment only. *)
Lemma callOrCreate_shape (Call : CallFunc) (Create : CreateFunc)
    (st st3 : StateTransition.t) (sender : Z) (cc : bool) (ret : bytes)
    (vmerr : option error) :
  StateTransition.callOrCreate Call Create st sender cc = Done (ret, vmerr, st3) ->
  StateTransition.initialGas st3 = StateTransition.initialGas st /\
  StateTransition.gasPrice st3 = StateTransition.gasPrice st /\
  StateTransition.msg st3 = StateTransition.msg st /\
  StateTransition.gp st3 = StateTransition.gp st.
Proof.
  unfold StateTransition.callOrCreate. destruct cc.
  - destruct (Create _ _ _ _ _); simpl; try discriminate.
    intros [= _ _ <-]. repeat split.
  - unfold StateTransition.to. simpl.
    destruct (Message.To _).
    + destruct (negb _); simpl; destruct (Call _ _ _ _ _ _); simpl;
        try discriminate; intros [= _ _ <-]; repeat split.
    + simpl. destruct (Call _ _ _ _ _ _); simpl;
        try discriminate; intros [= _ _ <-]; repeat split.
Qed.

Lemma Uint64_abs (z : Z) : big.BitLen z <= 64 -> big.Uint64 z = Z.abs z.
Proof.
  intros H. unfold big.Uint64. apply uint64_small.
  split; [lia|]. unfold big.BitLen in H.
  destruct (Z.eqb_spec (Z.abs z) 0) as [E|E]; [lia|].
  apply Z.log2_lt_pow2; lia.
Qed.

(** C8 (amended). When [TransitionDb] returns without an error of its own,
    the gas used it reports (after the refund) is at most the gas limit of
    the message.  If moreover the gas limit is not negative, the virtual
    machine hands back no more gas than it was given, and the refund counter
    is not negative, then the gas used before the refund is at least the
    intrinsic gas and at most the gas limit, and the gas used after the
    refund is at least the gas used before it less its half. *)
Theorem gas_accounting (P : params.Constants) (Call : CallFunc) (Create : CreateFunc)
    (evm : EVM.t) (msg : Message.t) (gp : GasPool.t)
    (st1 st2 st3 : StateTransition.t) (ret : bytes) (vmerr : option error) :
  let st := StateTransition.NewStateTransition evm msg gp in
  let sender := Message.From msg in
  let contractCreation :=
    match Message.To msg with None => true | Some _ => false end in
  let homestead :=
    params.ChainConfig.IsHomestead (EVM.ChainConfig evm) (EVM.BlockNumber evm) in
  let intrinsicGas := IntrinsicGas P (Message.Data msg) contractCreation homestead in
  StateTransition.preCheck st = (None, st1) ->
  big.BitLen intrinsicGas <= 64 ->
  StateTransition.useGas (snd (StateTransition.from st1)) (big.Uint64 intrinsicGas)
    = (None, st2) ->
  StateTransition.callOrCreate Call Create st2 sender contractCreation
    = Done (ret, vmerr, st3) ->
  vmerr <> Some ErrInsufficientBalance ->
  exists r st' required used,
    StateTransition.TransitionDb P Call Create st = Done (r, st') /\
    StateTransition.err r = None /\
    StateTransition.requiredGas r = Some required /\
    StateTransition.usedGas r = Some used /\
    used <= Message.Gas msg /\
    (0 <= Message.Gas msg ->
     0 <= StateTransition.gas st3 <= StateTransition.gas st2 ->
     0 <= StateDB.GetRefund (StateTransition.state st3) ->
     intrinsicGas <= required /\
     required <= Message.Gas msg /\
     required - required / 2 <= used <= required).
Proof.
  intros st sender contractCreation homestead intrinsicGas Hpre Hbits Huse Hcall Hvm.
  destruct (vm_error_is_not_fatal P Call Create st st1 st2 st3 ret vmerr
              Hpre Hbits Huse Hcall) as (r & st' & Hrun & _ & _ & Hok).
  destruct (Hok Hvm) as (Herr & _ & _ & Hreq & Hused & _). clear Hok.
  exists r, st', (StateTransition.gasUsed st3),
    (StateTransition.gasUsed (StateTransition.refundGas st3)).
  split; [exact Hrun|]. split; [exact Herr|]. split; [exact Hreq|].
  split; [exact Hused|].
  apply preCheck_ok in Hpre.
  destruct (buyGas_ok _ _ Hpre) as (Hmbits & Hinit1 & Hgas1 & _).
  destruct (from_spec st) as (s0 & Hfrom0 & _). rewrite Hfrom0 in *.
  simpl in Hinit1, Hgas1, Hmbits.
  destruct (from_spec st1) as (s1 & Hfrom1 & _). rewrite Hfrom1 in *.
  apply useGas_ok in Huse. destruct Huse as (Hle & ->).
  destruct (callOrCreate_shape _ _ _ _ _ _ _ _ Hcall) as (Hinit3 & _).
  simpl in Hinit3, Hle.
  assert (Hinit : StateTransition.initialGas st3 = Message.Gas msg) by congruence.
  split.
  - (* the gas left is a uint64 *)
    unfold StateTransition.gasUsed.
    assert (Hi4 : StateTransition.initialGas (StateTransition.refundGas st3)
                  = StateTransition.initialGas st3).
    { unfold StateTransition.refundGas.
      destruct (from_spec st3) as (s3 & Hfrom3 & _). rewrite Hfrom3. reflexivity. }
    assert (Hg4 : 0 <= StateTransition.gas (StateTransition.refundGas st3)).
    { unfold StateTransition.refundGas.
      destruct (from_spec st3) as (s3 & Hfrom3 & _). rewrite Hfrom3. simpl.
      apply uint64_range. }
    lia.
  - intros Hmsg Hgas3 Href. simpl in Hgas3.
    assert (Hm64 : Message.Gas msg < 2 ^ 64) by (apply BitLen_le_64; assumption).
    rewrite (Uint64_abs (Message.Gas msg)) in Hgas1 by assumption.
    rewrite Z.abs_eq in Hgas1 by lia. rewrite uint64_small in Hgas1 by lia.
    rewrite (Uint64_abs intrinsicGas) in * by assumption.
    assert (Hc3 : 0 <= StateTransition.gas st3 <= StateTransition.initialGas st3) by lia.
    assert (Hi3 : StateTransition.initialGas st3 < 2 ^ 64) by lia.
    destruct (refundGas_capped st3 Hc3 Hi3 Href) as (Hg & _).
    unfold StateTransition.gasUsed in *.
    assert (Hi4 : StateTransition.initialGas (StateTransition.refundGas st3)
                  = StateTransition.initialGas st3).
    { unfold StateTransition.refundGas.
      destruct (from_spec st3) as (s3 & Hfrom3 & _). rewrite Hfrom3. reflexivity. }
    rewrite Hi4, Hg.
    set (q := StateTransition.initialGas st3 - StateTransition.gas st3) in *.
    assert (0 <= q / 2 <= q).
    { split; [apply Z.div_pos; lia|apply Z.div_le_upper_bound; lia]. }
    lia.
Qed.

Lemma gas_accounting_witness :
  exists r st' required used,
    StateTransition.TransitionDb Example.constants Example.Call Example.Create
      (Example.transition [x60; x00; x60; x00; x55; x00] 0 30000) = Done (r, st') /\
    StateTransition.requiredGas r = Some required /\
    StateTransition.usedGas r = Some used /\
    used <= 30000 /\ 21000 <= required /\ required - required / 2 <= used <= required.
Proof.
  edestruct (gas_accounting Example.constants Example.Call Example.Create
               (Example.env true (Example.world [x60; x00; x60; x00; x55; x00]))
               (Example.message 0 30000) 1000000)
    as (r & st' & required & used & H & _ & Hr & Hu & Hle & Hrest).
  - vm_compute. reflexivity.
  - vm_compute. discriminate.
  - vm_compute. reflexivity.
  - vm_compute. reflexivity.
  - discriminate.
  - exists r, st', required, used. split; [exact H|]. split; [exact Hr|].
    split; [exact Hu|]. split; [exact Hle|].
    destruct Hrest as (Hi & _ & Hhalf).
    + vm_compute. discriminate.
    + vm_compute. split; discriminate.
    + vm_compute. discriminate.
    + split; [exact Hi|exact Hhalf].
Defined.

(** C8, as stated, fails.  A call that clears a storage slot uses 26006 gas,
    of which 21000 is the intrinsic gas; the refund counter is 15000 and the
    refund is capped at 13003, so the gas used that is reported is 13003,
    less than the intrinsic gas.  The call did not fail. *)
Lemma refund_below_intrinsic_gas :
  IntrinsicGas Example.constants [] false true = 21000 /\
  exists st',
    StateTransition.ApplyMessage Example.constants Example.Call Example.Create
      (Example.env true (Example.world [x60; x00; x60; x00; x55; x00]))
      (Example.message 0 30000) 1000000
    = Done ([], Some 13003, false, None, st') /\
    13003 < 21000.
Proof.
  split; [reflexivity|]. eexists. split; [vm_compute; reflexivity|lia].
Qed.






(** ** A frame that ends with an error, at the top of a call *)





Lemma state_set_state (st : StateTransition.t) (s : StateDB.t) :
  StateTransition.state (StateTransition.set_state st s) = s.
Proof. reflexivity. Qed.












(** ** The block processor *)

Section ProcessorFacts.
Variable K : Collaborators.
Variable p : StateProcessor K.
Variable block : types.Block.t.
Variable cfg : Config.t.

(** The loop over a list of transactions that is split in two runs the
    first part, and then, unless that ended with an error, the second part
    from where the first one stopped. *)
Lemma processTransactions_app (pre rest : list types.Transaction.t) :
  forall (i : Z) (s : ProcessState),
    processTransactions K p block cfg i (pre ++ rest) s =
    let* r := processTransactions K p block cfg i pre s in
    match r with
    | (Some e, s') => Done (Some e, s')
    | (None, s') =>
        processTransactions K p block cfg (i + Z.of_nat (length pre)) rest s'
    end.
Proof.
  induction pre as [|tx pre IH]; intros i s.
  - simpl. rewrite Z.add_0_r. reflexivity.
  - cbn [app processTransactions].
    destruct (ApplyTransaction _ _ _ _ _ _ _ _ _ _)
      as [[[[receipt g] [e|]] [[gp statedb] used]]| |]; try reflexivity.
    cbn [bind]. destruct receipt as [receipt|]; [|reflexivity].
    rewrite IH. replace (i + 1 + Z.of_nat (length pre))
      with (i + Z.of_nat (length (tx :: pre))) by (simpl length; lia).
    reflexivity.
Qed.

(** A receipt carries the hash of its transaction. *)
Lemma ApplyTransaction_TxHash config bc author gp statedb header tx usedGas
    receipt g w :
  ApplyTransaction K config bc author gp statedb header tx usedGas cfg
    = Done (Some receipt, g, None, w) ->
  types.Receipt.TxHash receipt = types.Transaction.Hash tx.
Proof.
  unfold ApplyTransaction. destruct (AsMessage K tx _); [discriminate|].
  destruct (StateTransition.ApplyMessage _ _ _ _ _ _)
    as [[[[[? gas] ?] [e|]] ?]| |]; simpl; try discriminate.
  destruct (if params.ChainConfig.IsByzantium config (types.Header.Number header)
            then _ else _) as [root db].
  destruct gas; [|discriminate]. intros [= <- _ _]. reflexivity.
Qed.

(** The receipts of a loop that ends without an error are those it started
    with, followed by one for each transaction, in the order of the
    list. *)
Lemma processTransactions_receipts (txs : list types.Transaction.t) :
  forall (i : Z) (s s' : ProcessState),
    processTransactions K p block cfg i txs s = Done (None, s') ->
    map types.Receipt.TxHash (ps_receipts s') =
    map types.Receipt.TxHash (ps_receipts s) ++ map types.Transaction.Hash txs.
Proof.
  induction txs as [|tx txs IH]; intros i s s'.
  - simpl. intros [= <-]. rewrite app_nil_r. reflexivity.
  - cbn [processTransactions].
    destruct (ApplyTransaction _ _ _ _ _ _ _ _ _ _)
      as [[[[receipt g] [e|]] [[gp statedb] used]]| |] eqn:Happly;
      cbn [bind]; try discriminate.
    destruct receipt as [receipt|]; [|discriminate].
    intros H. apply IH in H. rewrite H. cbn [ps_receipts].
    rewrite map_app. cbn [map]. rewrite <- app_assoc. cbn [app].
    rewrite (ApplyTransaction_TxHash _ _ _ _ _ _ _ _ _ _ _ Happly). reflexivity.
Qed.
End ProcessorFacts.

(** C6. Split the transactions of a block into a first part that the loop
    of [Process] runs without an error, and the rest.  The receipts so far
    are those of the first part, in block order.  If nothing is left,
    [Process] returns them with the logs and the total gas, and the world
    state is the one the consensus engine's [Finalize] returns.  If the next
    transaction, applied at its index to the state the first part left,
    returns an error, [Process] returns that error with no receipts, no logs
    and no total, whatever follows in the block, and the world state is the
    one that transaction left: [Finalize] has not run. *)
Theorem Process_aborts_on_first_error (K : Collaborators) (p : StateProcessor K)
    (block : types.Block.t) (statedb : StateDB.t) (cfg : Config.t)
    (pre rest : list types.Transaction.t) (s1 : ProcessState) :
  let header := types.Block.Header block in
  let s0 :=
    {| ps_gp := GasPool.AddGas 0 (types.Block.GasLimit block);
       ps_statedb :=
         if params.ChainConfig.DAOForkSupport (config K p) &&
            match params.ChainConfig.DAOForkBlock (config K p) with
            | Some n => n =? types.Block.Number block
            | None => false
            end
         then ApplyDAOHardFork K statedb else statedb;
       ps_totalUsedGas := 0; ps_receipts := []; ps_allLogs := [] |} in
  types.Block.Transactions block = pre ++ rest ->
  processTransactions K p block cfg 0 pre s0 = Done (None, s1) ->
  map types.Receipt.TxHash (ps_receipts s1) = map types.Transaction.Hash pre /\
  match rest with
  | [] =>
      Process K p block statedb cfg =
      Done ({| receipts := ps_receipts s1; allLogs := ps_allLogs s1;
               totalUsedGas := Some (ps_totalUsedGas s1); perr := None |},
            Finalize K (bc K p) header (ps_statedb s1)
                     (types.Block.Transactions block) (types.Block.Uncles block)
                     (ps_receipts s1))
  | tx :: post =>
      forall receipt gas e gp' statedb' used',
        ApplyTransaction K (config K p) (bc K p) None (ps_gp s1)
          (StateDB.Prepare (ps_statedb s1) (types.Transaction.Hash tx)
                           (types.Block.Hash block) (Z.of_nat (length pre)))
          header tx (ps_totalUsedGas s1) cfg
        = Done (receipt, gas, Some e, (gp', statedb', used')) ->
        Process K p block statedb cfg =
        Done ({| receipts := []; allLogs := []; totalUsedGas := None;
                 perr := Some e |}, statedb')
  end.
Proof.
  intros header s0 Htxs Hpre. split.
  - apply processTransactions_receipts in Hpre. exact Hpre.
  - assert (Hloop : processTransactions K p block cfg 0
                      (types.Block.Transactions block) s0 =
                    processTransactions K p block cfg (Z.of_nat (length pre)) rest s1).
    { rewrite Htxs, processTransactions_app, Hpre. reflexivity. }
    unfold Process. fold s0. rewrite Hloop. clear Hloop.
    destruct rest as [|tx post].
    + reflexivity.
    + intros receipt gas e gp' statedb' used' Happly.
      cbn [processTransactions]. fold header. rewrite Happly. reflexivity.
Qed.

Lemma Process_aborts_on_first_error_witness :
  exists statedb',
    Process Example.collaborators Example.processor
      (Example.block [Example.transaction 11 0; Example.transaction 12 5;
                      Example.transaction 13 1])
      (Example.world [xfe]) Example.vmConfig =
    Done ({| receipts := []; allLogs := []; totalUsedGas := None;
             perr := Some ErrNonceTooHigh |}, statedb').
Proof.
  edestruct (Process_aborts_on_first_error Example.collaborators Example.processor
               (Example.block [Example.transaction 11 0; Example.transaction 12 5;
                               Example.transaction 13 1])
               (Example.world [xfe]) Example.vmConfig
               [Example.transaction 11 0]
               [Example.transaction 12 5; Example.transaction 13 1])
    as (_ & H).
  - reflexivity.
  - vm_compute. reflexivity.
  - eexists. eapply H. vm_compute. reflexivity.
Defined.

(** * Properties of the gas purchase, the receipts, the tracer and the transaction lists *)

(** ** The intrinsic gas of a payload *)

Lemma nonZeroBytes_fold (data : bytes) (n : Z) :
  fold_left (fun nz byt => if Byte.eqb byt x00 then nz else nz + 1) data n =
  n + nonZeroBytes data.
Proof.
  unfold nonZeroBytes. revert n. induction data as [|b data IH]; intros n; simpl.
  - lia.
  - rewrite IH. rewrite (IH (if Byte.eqb b x00 then 0 else 0 + 1)).
    destruct (Byte.eqb b x00); lia.
Qed.

Lemma nonZeroBytes_app (a b : bytes) :
  nonZeroBytes (a ++ b) = nonZeroBytes a + nonZeroBytes b.
Proof.
  unfold nonZeroBytes at 1. rewrite fold_left_app. fold (nonZeroBytes a).
  apply nonZeroBytes_fold.
Qed.

Lemma nonZeroBytes_range (data : bytes) :
  0 <= nonZeroBytes data <= Z.of_nat (length data).
Proof.
  induction data as [|b data IH].
  - simpl. unfold nonZeroBytes. simpl. lia.
  - change (b :: data) with ([b] ++ data). rewrite nonZeroBytes_app.
    rewrite length_app. simpl length.
    assert (0 <= nonZeroBytes [b] <= 1).
    { unfold nonZeroBytes. simpl. destruct (Byte.eqb b x00); lia. }
    lia.
Qed.

(** The intrinsic gas is the base cost and a sum over the bytes of the
    payload. *)
Lemma IntrinsicGas_sum (P : params.Constants) (data : bytes) (cc h : bool) :
  IntrinsicGas P data cc h =
  IntrinsicGas P [] cc h + nonZeroBytes data * params.TxDataNonZeroGas P
  + (Z.of_nat (length data) - nonZeroBytes data) * params.TxDataZeroGas P.
Proof.
  unfold IntrinsicGas. change (0 <? Z.of_nat (length (@nil byte))) with false.
  cbv iota zeta.
  destruct (Z.ltb_spec 0 (Z.of_nat (length data))) as [Hlen|Hlen]; [lia|].
  destruct data; [|simpl length in Hlen; lia].
  unfold nonZeroBytes. simpl. lia.
Qed.

(** X1. The intrinsic gas of a payload in two parts is the sum of the
    intrinsic gas of the parts, with the base cost counted once. *)
Theorem IntrinsicGas_app (P : params.Constants) (a b : bytes) (cc h : bool) :
  IntrinsicGas P (a ++ b) cc h =
  IntrinsicGas P a cc h + IntrinsicGas P b cc h - IntrinsicGas P [] cc h.
Proof.
  rewrite (IntrinsicGas_sum P (a ++ b)), (IntrinsicGas_sum P a), (IntrinsicGas_sum P b).
  rewrite nonZeroBytes_app, length_app, Nat2Z.inj_add. lia.
Qed.

(** X2. When a zero byte of the payload costs at least nothing and at
    most what a non-zero byte costs, the intrinsic gas is at least the base
    cost plus the price of a zero byte for each byte of the payload, and at
    most the base cost plus the price of a non-zero byte for each byte. *)
Theorem IntrinsicGas_bounds (P : params.Constants) (data : bytes) (cc h : bool) :
  0 <= params.TxDataZeroGas P <= params.TxDataNonZeroGas P ->
  let base := if cc && h then params.TxGasContractCreation P else params.TxGas P in
  base + Z.of_nat (length data) * params.TxDataZeroGas P
    <= IntrinsicGas P data cc h
    <= base + Z.of_nat (length data) * params.TxDataNonZeroGas P.
Proof.
  intros Hr base. rewrite IntrinsicGas_sum.
  pose proof (nonZeroBytes_range data) as Hn.
  replace (IntrinsicGas P [] cc h) with base by reflexivity.
  nia.
Qed.

Lemma IntrinsicGas_bounds_witness :
  21000 + 3 * 4 <= IntrinsicGas Example.constants [x00; x01; x02] false true
    <= 21000 + 3 * 68.
Proof.
  apply (IntrinsicGas_bounds Example.constants [x00; x01; x02] false true).
  simpl. lia.
Defined.

(** ** Buying and returning gas *)

(** [buyGas], with the sender read from the message and the balance from the
    world state the transition starts from. *)
Lemma buyGas_unfold (st : StateTransition.t) :
  let m := StateTransition.msg st in
  let sender := Message.From m in
  let mgas := Message.Gas m in
  let mgval := mgas * StateTransition.gasPrice st in
  let st0 := snd (StateTransition.from st) in
  StateTransition.buyGas st =
    if 64 <? big.BitLen mgas then (Some ErrOutOfGas, st)
    else if StateDB.GetBalance (StateTransition.state st) sender <? mgval
    then (Some errInsufficientBalanceForGas, st0)
    else if StateTransition.gp st <? mgas then (Some ErrGasLimitReached, st0)
    else (None,
          StateTransition.set_state
            (StateTransition.set_initialGas
               (StateTransition.set_gas
                  (StateTransition.set_gp st0 (StateTransition.gp st - mgas))
                  (uint64 (StateTransition.gas st + big.Uint64 mgas)))
               mgas)
            (StateDB.SubBalance (StateTransition.state st0) sender mgval)).
Proof.
  intros m sender mgas mgval st0. unfold StateTransition.buyGas.
  fold m. fold mgas. destruct (64 <? big.BitLen mgas); [reflexivity|].
  subst st0. destruct (from_spec st) as (s' & Hfrom & _ & Hread & _).
  rewrite Hfrom. cbn [snd]. fold mgval. st_simpl.
  unfold StateDB.GetBalance. rewrite Hread. fold sender.
  destruct (_ <? mgval); [reflexivity|].
  unfold GasPool.SubGas. destruct (_ <? mgas); reflexivity.
Qed.

Lemma from_reads (st : StateTransition.t) (b : Z) :
  StateDB.getOrNew (StateTransition.state (snd (StateTransition.from st))) b =
  StateDB.getOrNew (StateTransition.state st) b.
Proof.
  destruct (from_spec st) as (s' & Hfrom & _ & Hread & _). rewrite Hfrom.
  cbn [snd]. rewrite state_set_state. apply Hread.
Qed.

Lemma from_fields (st : StateTransition.t) :
  let st0 := snd (StateTransition.from st) in
  StateTransition.gp st0 = StateTransition.gp st /\
  StateTransition.gas st0 = StateTransition.gas st /\
  StateTransition.initialGas st0 = StateTransition.initialGas st /\
  StateTransition.gasPrice st0 = StateTransition.gasPrice st /\
  StateTransition.msg st0 = StateTransition.msg st /\
  StateDB.refund (StateTransition.state st0) = StateDB.refund (StateTransition.state st) /\
  EVM.Coinbase (StateTransition.evm st0) = EVM.Coinbase (StateTransition.evm st).
Proof.
  destruct (from_spec st) as (s' & Hfrom & _ & _ & Hrefund & _). rewrite Hfrom.
  cbn [snd]. rewrite state_set_state. repeat split; try reflexivity. exact Hrefund.
Qed.

Lemma GetBalance_SubBalance (s : StateDB.t) (a : Z) (v : Z) :
  StateDB.GetBalance (StateDB.SubBalance s a v) a = StateDB.GetBalance s a - v.
Proof.
  unfold StateDB.GetBalance, StateDB.SubBalance. rewrite getOrNew_update. reflexivity.
Qed.

Lemma GetBalance_SubBalance_other (s : StateDB.t) (a b : Z) (v : Z) :
  a <> b ->
  StateDB.GetBalance (StateDB.SubBalance s a v) b = StateDB.GetBalance s b.
Proof.
  intros H. unfold StateDB.GetBalance, StateDB.SubBalance.
  rewrite getOrNew_update_other by exact H. reflexivity.
Qed.

Lemma GetBalance_AddBalance_other (s : StateDB.t) (a b : Z) (v : Z) :
  a <> b ->
  StateDB.GetBalance (StateDB.AddBalance s a v) b = StateDB.GetBalance s b.
Proof.
  intros H. unfold StateDB.GetBalance, StateDB.AddBalance.
  rewrite getOrNew_update_other by exact H. reflexivity.
Qed.

(** X3. The pre-check returns no error exactly when the nonce of the
    message is the nonce of the sender's account (if the message asks for
    the nonce check), the gas limit of the message fits in 64 bits, the
    balance of the sender covers the gas limit at the gas price, and the
    gas pool of the block holds the gas limit. *)
Theorem preCheck_succeeds_iff (st : StateTransition.t) :
  let m := StateTransition.msg st in
  let sender := Message.From m in
  fst (StateTransition.preCheck st) = None <->
  (Message.CheckNonce m = true ->
   Message.Nonce m = StateDB.GetNonce (StateTransition.state st) sender) /\
  big.BitLen (Message.Gas m) <= 64 /\
  Message.Gas m * StateTransition.gasPrice st
    <= StateDB.GetBalance (StateTransition.state st) sender /\
  Message.Gas m <= StateTransition.gp st.
Proof.
  intros m sender. rewrite preCheck_unfold. cbv zeta. fold m. fold sender.
  pose proof (buyGas_unfold (snd (StateTransition.from st))) as Hbuy.
  cbv zeta in Hbuy.
  destruct (from_fields st) as (Hgp & _ & _ & Hprice & Hmsg & _).
  rewrite Hgp, Hprice, Hmsg in Hbuy.
  unfold StateDB.GetBalance in Hbuy. rewrite from_reads in Hbuy.
  fold (StateDB.GetBalance (StateTransition.state st) (Message.From (StateTransition.msg st)))
    in Hbuy.
  fold m in Hbuy. fold sender in Hbuy. rewrite Hbuy. clear Hbuy.
  destruct (Message.CheckNonce m); cbn [andb].
  - destruct (Z.ltb_spec (StateDB.GetNonce (StateTransition.state st) sender)
                         (Message.Nonce m)).
    { cbn [fst]. split; [discriminate|]. intros (Hn & _). specialize (Hn eq_refl). lia. }
    destruct (Z.ltb_spec (Message.Nonce m)
                         (StateDB.GetNonce (StateTransition.state st) sender)).
    { cbn [fst]. split; [discriminate|]. intros (Hn & _). specialize (Hn eq_refl). lia. }
    destruct (Z.ltb_spec 64 (big.BitLen (Message.Gas m)));
      [cbn [fst]; split; [discriminate|]; lia|].
    destruct (Z.ltb_spec (StateDB.GetBalance (StateTransition.state st) sender)
                         (Message.Gas m * StateTransition.gasPrice st));
      [cbn [fst]; split; [discriminate|]; lia|].
    destruct (Z.ltb_spec (StateTransition.gp st) (Message.Gas m));
      [cbn [fst]; split; [discriminate|]; lia|].
    cbn [fst]. split; [|reflexivity]. intros _. repeat split; lia.
  - destruct (Z.ltb_spec 64 (big.BitLen (Message.Gas m)));
      [cbn [fst]; split; [discriminate|]; lia|].
    destruct (Z.ltb_spec (StateDB.GetBalance (StateTransition.state st) sender)
                         (Message.Gas m * StateTransition.gasPrice st));
      [cbn [fst]; split; [discriminate|]; lia|].
    destruct (Z.ltb_spec (StateTransition.gp st) (Message.Gas m));
      [cbn [fst]; split; [discriminate|]; lia|].
    cbn [fst]. split; [|reflexivity]. intros _. repeat split; try lia; try discriminate.
Qed.

(** What a gas purchase that succeeds has changed. *)
Lemma buyGas_success (st st1 : StateTransition.t) :
  StateTransition.buyGas st = (None, st1) ->
  let sender := Message.From (StateTransition.msg st) in
  let mgas := Message.Gas (StateTransition.msg st) in
  big.BitLen mgas <= 64 /\
  mgas * StateTransition.gasPrice st
    <= StateDB.GetBalance (StateTransition.state st) sender /\
  mgas <= StateTransition.gp st /\
  StateTransition.gp st1 = StateTransition.gp st - mgas /\
  StateTransition.gas st1 = uint64 (StateTransition.gas st + big.Uint64 mgas) /\
  StateTransition.initialGas st1 = mgas /\
  StateTransition.gasPrice st1 = StateTransition.gasPrice st /\
  StateTransition.msg st1 = StateTransition.msg st /\
  StateDB.refund (StateTransition.state st1) = StateDB.refund (StateTransition.state st) /\
  EVM.Coinbase (StateTransition.evm st1) = EVM.Coinbase (StateTransition.evm st) /\
  (forall a, StateDB.GetBalance (StateTransition.state st1) a =
             StateDB.GetBalance (StateTransition.state st) a
             - (if Z.eqb a sender then mgas * StateTransition.gasPrice st else 0)).
Proof.
  intros Hbuy sender mgas. rewrite buyGas_unfold in Hbuy. cbv zeta in Hbuy.
  fold sender mgas in Hbuy.
  destruct (Z.ltb_spec 64 (big.BitLen mgas)); [discriminate|].
  destruct (Z.ltb_spec (StateDB.GetBalance (StateTransition.state st) sender)
                       (mgas * StateTransition.gasPrice st)); [discriminate|].
  destruct (Z.ltb_spec (StateTransition.gp st) mgas); [discriminate|].
  pose proof (from_reads st) as Hread.
  destruct (from_fields st) as (Hgp & Hgas & Hinit & Hprice & Hmsg & Hrefund & Hcb).
  remember (snd (StateTransition.from st)) as st0 eqn:Hst0.
  injection Hbuy as <-. rewrite state_set_state.
  assert (Hbal : forall a, StateDB.GetBalance (StateTransition.state st0) a =
                           StateDB.GetBalance (StateTransition.state st) a).
  { intros a. unfold StateDB.GetBalance. rewrite Hread. reflexivity. }
  split; [lia|]. split; [lia|]. split; [lia|].
  split; [reflexivity|]. split; [reflexivity|]. split; [reflexivity|].
  split; [exact Hprice|]. split; [exact Hmsg|]. split; [exact Hrefund|].
  split; [exact Hcb|].
  intros a. destruct (Z.eqb_spec a sender) as [->|Ha].
  - rewrite GetBalance_SubBalance, Hbal. reflexivity.
  - rewrite GetBalance_SubBalance_other by congruence. rewrite Hbal. lia.
Qed.

(** X4. A gas purchase that succeeds takes the gas limit of the message
    out of the gas pool of the block, which does not become negative,
    records it as the initial gas, and takes its price out of the balance
    of the sender, which does not become negative; no other balance
    changes. *)
Theorem buyGas_charges (st st1 : StateTransition.t) :
  StateTransition.buyGas st = (None, st1) ->
  let sender := Message.From (StateTransition.msg st) in
  let mgas := Message.Gas (StateTransition.msg st) in
  StateTransition.gp st1 = StateTransition.gp st - mgas /\
  0 <= StateTransition.gp st1 /\
  StateTransition.initialGas st1 = mgas /\
  StateDB.GetBalance (StateTransition.state st1) sender =
    StateDB.GetBalance (StateTransition.state st) sender
    - mgas * StateTransition.gasPrice st /\
  0 <= StateDB.GetBalance (StateTransition.state st1) sender /\
  (forall a, a <> sender ->
     StateDB.GetBalance (StateTransition.state st1) a =
     StateDB.GetBalance (StateTransition.state st) a).
Proof.
  intros Hbuy sender mgas.
  destruct (buyGas_success st st1 Hbuy)
    as (_ & Hb & Hp & Hgp & _ & Hinit & _ & _ & _ & _ & Hbal).
  fold sender mgas in Hb, Hp, Hgp, Hinit, Hbal.
  pose proof (Hbal sender) as Hs. rewrite Z.eqb_refl in Hs.
  repeat split; try assumption; try lia.
  intros a Ha. rewrite Hbal. destruct (Z.eqb_spec a sender); [contradiction|lia].
Qed.

Lemma buyGas_charges_witness :
  StateTransition.gp (snd (StateTransition.buyGas (Example.transition [] 0 30000)))
    = 1000000 - 30000 /\
  StateDB.GetBalance
    (StateTransition.state (snd (StateTransition.buyGas (Example.transition [] 0 30000)))) 1
    = 1000000 - 30000 * 1.
Proof.
  destruct (buyGas_charges (Example.transition [] 0 30000)
              (snd (StateTransition.buyGas (Example.transition [] 0 30000))))
    as (Hgp & _ & _ & Hbal & _).
  - vm_compute. reflexivity.
  - split.
    + etransitivity; [exact Hgp|]. reflexivity.
    + etransitivity; [exact Hbal|]. vm_compute. reflexivity.
Defined.

(** [from] on a transition whose sender has an account hands the
    transition back as it is. *)
Lemma from_existing (st : StateTransition.t) :
  StateDB.Exist (StateTransition.state st) (Message.From (StateTransition.msg st)) = true ->
  StateTransition.from st = (Message.From (StateTransition.msg st), st).
Proof. intros H. unfold StateTransition.from. rewrite H. reflexivity. Qed.

(** After [from] the sender has an account, so a second [from] changes
    nothing. *)
Lemma from_from (st : StateTransition.t) :
  snd (StateTransition.from (snd (StateTransition.from st))) =
  snd (StateTransition.from st).
Proof.
  destruct (from_spec st) as (s' & Hfrom & Hex & _). rewrite Hfrom. cbn [snd].
  rewrite from_existing; [reflexivity|]. exact Hex.
Qed.

(** Creating an account leaves the other accounts where they are. *)
Lemma Exist_CreateAccount_ne (s : StateDB.t) (a b : Z) :
  a <> b -> StateDB.Exist (StateDB.CreateAccount s a) b = StateDB.Exist s b.
Proof.
  intros Hne. unfold StateDB.Exist, StateDB.CreateAccount. simpl.
  rewrite lookup_insert_ne by assumption. reflexivity.
Qed.

(** A gas purchase that fails hands back the transition as it found it, or
    as [from] left it. *)
Lemma buyGas_rejected_state (st st1 : StateTransition.t) (e : error) :
  StateTransition.buyGas st = (Some e, st1) ->
  (e = ErrOutOfGas \/ e = errInsufficientBalanceForGas \/ e = ErrGasLimitReached) /\
  (st1 = st \/ st1 = snd (StateTransition.from st)).
Proof.
  intros Hbuy. rewrite buyGas_unfold in Hbuy. cbv zeta in Hbuy.
  remember (snd (StateTransition.from st)) as st0 eqn:Hst0.
  destruct (_ <? _).
  { injection Hbuy as <- <-. split; [left; reflexivity|left; reflexivity]. }
  destruct (_ <? _).
  { injection Hbuy as <- <-. split; [right; left; reflexivity|right; reflexivity]. }
  destruct (_ <? _); [|discriminate].
  injection Hbuy as <- <-. split; [right; right; reflexivity|right; reflexivity].
Qed.

(** [refundGas], with the sender read from the message. *)
Lemma refundGas_unfold (st : StateTransition.t) :
  let sender := Message.From (StateTransition.msg st) in
  let st0 := snd (StateTransition.from st) in
  let refund := math.BigMin (big.Div (StateTransition.gasUsed st) 2)
                            (StateDB.GetRefund (StateTransition.state st)) in
  let gas' := uint64 (StateTransition.gas st + big.Uint64 refund) in
  StateTransition.refundGas st =
    StateTransition.set_gp
      (StateTransition.set_state
         (StateTransition.set_gas st0 gas')
         (StateDB.AddBalance
            (StateDB.AddBalance (StateTransition.state st0) sender
               (StateTransition.gas st * StateTransition.gasPrice st))
            sender (refund * StateTransition.gasPrice st)))
      (StateTransition.gp st + gas').
Proof.
  intros sender st0 refund gas'. unfold StateTransition.refundGas.
  subst st0. destruct (from_spec st) as (s' & Hfrom & _ & _ & Hrefund & _).
  rewrite Hfrom. cbn [snd]. subst gas' refund.
  unfold StateTransition.gasUsed, StateDB.GetRefund. st_simpl.
  replace (StateDB.refund (StateDB.AddBalance s' (Message.From (StateTransition.msg st))
             (StateTransition.gas st * StateTransition.gasPrice st)))
    with (StateDB.refund s') by reflexivity.
  rewrite Hrefund. reflexivity.
Qed.

(** What the refund step has changed. *)
Lemma refundGas_fields (st : StateTransition.t) :
  let sender := Message.From (StateTransition.msg st) in
  let refund := math.BigMin (big.Div (StateTransition.gasUsed st) 2)
                            (StateDB.GetRefund (StateTransition.state st)) in
  let gas' := uint64 (StateTransition.gas st + big.Uint64 refund) in
  let st' := StateTransition.refundGas st in
  StateTransition.gp st' = StateTransition.gp st + gas' /\
  StateTransition.gas st' = gas' /\
  StateTransition.initialGas st' = StateTransition.initialGas st /\
  StateTransition.gasPrice st' = StateTransition.gasPrice st /\
  StateTransition.msg st' = StateTransition.msg st /\
  EVM.Coinbase (StateTransition.evm st') = EVM.Coinbase (StateTransition.evm st) /\
  (forall a, StateDB.GetBalance (StateTransition.state st') a =
             StateDB.GetBalance (StateTransition.state st) a
             + (if Z.eqb a sender
                then StateTransition.gas st * StateTransition.gasPrice st
                     + refund * StateTransition.gasPrice st
                else 0)).
Proof.
  intros sender refund gas' st'. subst st'. rewrite refundGas_unfold. cbv zeta.
  fold sender refund gas'.
  pose proof (from_reads st) as Hread.
  destruct (from_fields st) as (Hgp & Hgas & Hinit & Hprice & Hmsg & Hrefund & Hcb).
  remember (snd (StateTransition.from st)) as st0 eqn:Hst0.
  assert (Hbal : forall a, StateDB.GetBalance (StateTransition.state st0) a =
                           StateDB.GetBalance (StateTransition.state st) a).
  { intros a. unfold StateDB.GetBalance. rewrite Hread. reflexivity. }
  split; [reflexivity|]. split; [reflexivity|]. split; [exact Hinit|].
  split; [exact Hprice|]. split; [exact Hmsg|]. split; [exact Hcb|].
  intros a.
  replace (StateTransition.state (StateTransition.set_gp
             (StateTransition.set_state (StateTransition.set_gas st0 gas')
                (StateDB.AddBalance
                   (StateDB.AddBalance (StateTransition.state st0) sender
                      (StateTransition.gas st * StateTransition.gasPrice st))
                   sender (refund * StateTransition.gasPrice st)))
             (StateTransition.gp st + gas')))
    with (StateDB.AddBalance
            (StateDB.AddBalance (StateTransition.state st0) sender
               (StateTransition.gas st * StateTransition.gasPrice st))
            sender (refund * StateTransition.gasPrice st)) by reflexivity.
  destruct (Z.eqb_spec a sender) as [->|Ha].
  - rewrite !GetBalance_AddBalance, Hbal. lia.
  - rewrite !GetBalance_AddBalance_other by congruence. rewrite Hbal. lia.
Qed.

(** X5. Gas that is bought and returned unused costs nothing: after
    [buyGas] and then [refundGas], on a transition that held no gas, with
    a gas limit and a refund counter that are not negative, the gas pool of
    the block is what it was, the gas used is 0 and every balance is what it
    was. *)
Theorem buyGas_refundGas (st st1 : StateTransition.t) :
  StateTransition.buyGas st = (None, st1) ->
  StateTransition.gas st = 0 ->
  0 <= Message.Gas (StateTransition.msg st) ->
  0 <= StateDB.GetRefund (StateTransition.state st) ->
  let st2 := StateTransition.refundGas st1 in
  StateTransition.gp st2 = StateTransition.gp st /\
  StateTransition.gasUsed st2 = 0 /\
  (forall a, StateDB.GetBalance (StateTransition.state st2) a =
             StateDB.GetBalance (StateTransition.state st) a).
Proof.
  intros Hbuy Hgas Hm Href st2.
  destruct (buyGas_success st st1 Hbuy)
    as (Hbits & _ & _ & Hgp1 & Hgas1 & Hinit1 & Hprice1 & Hmsg1 & Hrefund1 & _ & Hbal1).
  destruct (refundGas_fields st1) as (Hgp2 & Hgas2 & Hinit2 & _ & _ & _ & Hbal2).
  fold st2 in Hgp2, Hgas2, Hinit2, Hbal2.
  set (mgas := Message.Gas (StateTransition.msg st)) in *.
  assert (Hm64 : mgas < 2 ^ 64) by (apply BitLen_le_64; assumption).
  rewrite Hgas in Hgas1. rewrite (Uint64_abs mgas) in Hgas1 by assumption.
  rewrite Z.abs_eq in Hgas1 by lia. rewrite uint64_small in Hgas1 by lia.
  assert (Hused : StateTransition.gasUsed st1 = 0)
    by (unfold StateTransition.gasUsed; lia).
  unfold StateDB.GetRefund in *.
  rewrite Hused, Hrefund1, BigMin_min in Hgas2, Hgp2, Hbal2.
  change (big.Div 0 2) with 0 in *.
  rewrite Z.min_r in Hgas2, Hgp2, Hbal2 by lia.
  change (big.Uint64 0) with 0 in *.
  rewrite Hgas1 in Hgas2, Hgp2, Hbal2.
  rewrite uint64_small in Hgas2, Hgp2 by lia.
  split; [lia|]. split; [unfold StateTransition.gasUsed; lia|].
  intros a. rewrite Hbal2, Hbal1, Hmsg1, Hprice1.
  destruct (Z.eqb a (Message.From (StateTransition.msg st))); lia.
Qed.

Lemma buyGas_refundGas_witness :
  StateTransition.gp
    (StateTransition.refundGas
       (snd (StateTransition.buyGas (Example.transition [] 0 30000)))) = 1000000 /\
  StateDB.GetBalance
    (StateTransition.state
       (StateTransition.refundGas
          (snd (StateTransition.buyGas (Example.transition [] 0 30000))))) 1
  = 1000000.
Proof.
  destruct (buyGas_refundGas (Example.transition [] 0 30000)
              (snd (StateTransition.buyGas (Example.transition [] 0 30000))))
    as (Hgp & _ & Hbal).
  - vm_compute. reflexivity.
  - reflexivity.
  - simpl. lia.
  - simpl. lia.
  - split.
    + etransitivity; [exact Hgp|]. reflexivity.
    + rewrite Hbal. vm_compute. reflexivity.
Defined.

(** ** Gas and the pool over a whole transition *)

(** [TransitionDb] after a pre-check that succeeds, with the message, the
    payload and the chain parameters read from the transition it was called
    on. *)
Lemma TransitionDb_checked (P : params.Constants) (Call : CallFunc)
    (Create : CreateFunc) (st st1 : StateTransition.t) :
  let sender := Message.From (StateTransition.msg st) in
  let contractCreation :=
    match Message.To (StateTransition.msg st) with None => true | Some _ => false end in
  let homestead :=
    params.ChainConfig.IsHomestead (EVM.ChainConfig (StateTransition.evm st))
                                   (EVM.BlockNumber (StateTransition.evm st)) in
  let intrinsicGas := IntrinsicGas P (StateTransition.data st) contractCreation homestead in
  StateTransition.preCheck st = (None, st1) ->
  StateTransition.TransitionDb P Call Create st =
    if 64 <? big.BitLen intrinsicGas
    then Done (StateTransition.failure ErrOutOfGas, snd (StateTransition.from st1))
    else
      match StateTransition.useGas (snd (StateTransition.from st1))
                                   (big.Uint64 intrinsicGas) with
      | (Some err, st2) => Done (StateTransition.failure err, st2)
      | (None, st2) =>
          let* r := StateTransition.callOrCreate Call Create st2 sender contractCreation in
          match r with
          | (_, Some ErrInsufficientBalance, st3) =>
              Done ({| StateTransition.ret := []; StateTransition.requiredGas := None;
                       StateTransition.usedGas := None; StateTransition.failed := false;
                       StateTransition.err := Some ErrInsufficientBalance |}, st3)
          | (ret, vmerr, st3) =>
              let st4 := StateTransition.refundGas st3 in
              let st5 := StateTransition.set_state st4
                           (StateDB.AddBalance (StateTransition.state st4)
                              (EVM.Coinbase (StateTransition.evm st4))
                              (StateTransition.gasUsed st4 * StateTransition.gasPrice st4)) in
              Done ({| StateTransition.ret := ret;
                       StateTransition.requiredGas := Some (StateTransition.gasUsed st3);
                       StateTransition.usedGas := Some (StateTransition.gasUsed st5);
                       StateTransition.failed :=
                         match vmerr with Some _ => true | None => false end;
                       StateTransition.err := None |}, st5)
          end
      end.
Proof.
  intros sender contractCreation homestead intrinsicGas Hpre.
  unfold StateTransition.TransitionDb. rewrite Hpre.
  destruct (preCheck_shape st) as (p & g & i & s & Hshape).
  rewrite Hpre in Hshape. cbn [snd] in Hshape.
  destruct (from_spec st1) as (s1 & Hfrom & _). rewrite Hfrom. cbn [snd].
  assert (Hmsg : StateTransition.msg st1 = StateTransition.msg st)
    by (rewrite Hshape; reflexivity).
  rewrite Hmsg.
  replace (StateTransition.data (StateTransition.set_state st1 s1))
    with (StateTransition.data st) by (rewrite Hshape; reflexivity).
  replace (EVM.ChainConfig (StateTransition.evm (StateTransition.set_state st1 s1)))
    with (EVM.ChainConfig (StateTransition.evm st)) by (rewrite Hshape; reflexivity).
  replace (EVM.BlockNumber (StateTransition.evm (StateTransition.set_state st1 s1)))
    with (EVM.BlockNumber (StateTransition.evm st)) by (rewrite Hshape; reflexivity).
  fold sender contractCreation homestead intrinsicGas.
  destruct (64 <? big.BitLen intrinsicGas); [reflexivity|].
  destruct (StateTransition.useGas _ _) as [[e|] st2]; [reflexivity|].
  destruct (StateTransition.callOrCreate _ _ _ _ _) as [[[ret vmerr] st3]| |];
    try reflexivity.
  cbn [bind]. destruct vmerr as [[]|]; reflexivity.
Qed.

(** A transition that returns without an error of its own went through the
    pre-check, the intrinsic-gas charge, the virtual machine, the refund and
    the payment of the coinbase. *)
Lemma TransitionDb_success (P : params.Constants) (Call : CallFunc)
    (Create : CreateFunc) (st st' : StateTransition.t) (r : StateTransition.Result) :
  StateTransition.TransitionDb P Call Create st = Done (r, st') ->
  StateTransition.err r = None ->
  let sender := Message.From (StateTransition.msg st) in
  let contractCreation :=
    match Message.To (StateTransition.msg st) with None => true | Some _ => false end in
  let homestead :=
    params.ChainConfig.IsHomestead (EVM.ChainConfig (StateTransition.evm st))
                                   (EVM.BlockNumber (StateTransition.evm st)) in
  let intrinsicGas := IntrinsicGas P (StateTransition.data st) contractCreation homestead in
  exists st1 st2 st3 vmerr,
    StateTransition.preCheck st = (None, st1) /\
    big.BitLen intrinsicGas <= 64 /\
    StateTransition.useGas (snd (StateTransition.from st1)) (big.Uint64 intrinsicGas)
      = (None, st2) /\
    StateTransition.callOrCreate Call Create st2 sender contractCreation
      = Done (StateTransition.ret r, vmerr, st3) /\
    vmerr <> Some ErrInsufficientBalance /\
    let st4 := StateTransition.refundGas st3 in
    st' = StateTransition.set_state st4
            (StateDB.AddBalance (StateTransition.state st4)
               (EVM.Coinbase (StateTransition.evm st4))
               (StateTransition.gasUsed st4 * StateTransition.gasPrice st4)) /\
    StateTransition.requiredGas r = Some (StateTransition.gasUsed st3) /\
    StateTransition.usedGas r = Some (StateTransition.gasUsed st4) /\
    StateTransition.failed r = match vmerr with Some _ => true | None => false end.
Proof.
  intros Hrun Herr sender contractCreation homestead intrinsicGas.
  destruct (StateTransition.preCheck st) as [[e|] st1] eqn:Hpre.
  { unfold StateTransition.TransitionDb in Hrun. rewrite Hpre in Hrun.
    assert (r = StateTransition.failure e) by congruence. subst r. discriminate. }
  rewrite (TransitionDb_checked P Call Create st st1 Hpre) in Hrun.
  fold sender contractCreation homestead intrinsicGas in Hrun.
  destruct (Z.ltb_spec 64 (big.BitLen intrinsicGas)) as [Hbits|Hbits].
  { assert (r = StateTransition.failure ErrOutOfGas) by congruence. subst r.
    discriminate. }
  destruct (StateTransition.useGas (snd (StateTransition.from st1))
              (big.Uint64 intrinsicGas)) as [[e|] st2] eqn:Huse.
  { assert (r = StateTransition.failure e) by congruence. subst r. discriminate. }
  destruct (StateTransition.callOrCreate Call Create st2 sender contractCreation)
    as [[[ret vmerr] st3]| |] eqn:Hcall; cbn [bind] in Hrun; try discriminate.
  exists st1, st2, st3, vmerr.
  assert (Hne : vmerr <> Some ErrInsufficientBalance).
  { intros ->. match type of Hrun with Done (?A, _) = _ =>
      assert (r = A) by congruence end. subst r. discriminate. }
  assert (Hrun' :
    Done ({| StateTransition.ret := ret;
             StateTransition.requiredGas := Some (StateTransition.gasUsed st3);
             StateTransition.usedGas :=
               Some (StateTransition.gasUsed (StateTransition.refundGas st3));
             StateTransition.failed :=
               match vmerr with Some _ => true | None => false end;
             StateTransition.err := None |},
          StateTransition.set_state (StateTransition.refundGas st3)
            (StateDB.AddBalance (StateTransition.state (StateTransition.refundGas st3))
               (EVM.Coinbase (StateTransition.evm (StateTransition.refundGas st3)))
               (StateTransition.gasUsed (StateTransition.refundGas st3)
                * StateTransition.gasPrice (StateTransition.refundGas st3))))
    = Done (r, st')).
  { rewrite <- Hrun. destruct vmerr as [[]|]; try reflexivity. contradiction. }
  clear Hrun.
  match type of Hrun' with
  | Done (?A, ?B) = _ => assert (Hr : r = A /\ st' = B) by (split; congruence)
  end.
  destruct Hr as [-> ->]. cbn [StateTransition.ret].
  split; [first [reflexivity|assumption]|]. split; [lia|].
  split; [first [reflexivity|assumption]|].
  split; [first [reflexivity|assumption]|]. split; [exact Hne|].
  repeat split; reflexivity.
Qed.

(** A message that is applied without an error of the transition reports
    the gas it used, and the pool has given up exactly that much. *)
Lemma ApplyMessage_success (P : params.Constants) (Call : CallFunc)
    (Create : CreateFunc) (evm : EVM.t) (msg : Message.t) (gp : GasPool.t)
    (ret : bytes) (used : option Z) (failed : bool) (st' : StateTransition.t) :
  StateTransition.ApplyMessage P Call Create evm msg gp
    = Done (ret, used, failed, None, st') ->
  exists u,
    used = Some u /\
    StateTransition.gp st' = gp - u /\
    0 <= StateTransition.gp st' /\
    u <= Message.Gas msg.
Proof.
  unfold StateTransition.ApplyMessage.
  destruct (StateTransition.TransitionDb _ _ _ _) as [[r st5]| |] eqn:Hrun;
    cbn [bind]; try discriminate.
  intros H.
  assert (Hf : StateTransition.usedGas r = used /\ StateTransition.err r = None /\
               st5 = st') by (repeat split; congruence).
  destruct Hf as (Hused & Herr & ->). clear H.
  destruct (TransitionDb_success P Call Create _ _ _ Hrun Herr)
    as (st1 & st2 & st3 & vmerr & Hpre & _ & Huse & Hcall & _ & Hst' & _ & Hu & _).
  apply preCheck_ok in Hpre.
  destruct (buyGas_success _ _ Hpre)
    as (_ & _ & Hpool & Hgp1 & _ & Hinit1 & _).
  destruct (from_fields (StateTransition.NewStateTransition evm msg gp))
    as (Hgp0 & _ & _ & _ & Hmsg0 & _).
  rewrite Hgp0, Hmsg0 in Hgp1, Hpool. rewrite Hmsg0 in Hinit1.
  cbn [StateTransition.NewStateTransition StateTransition.gp StateTransition.msg]
    in Hgp1, Hpool, Hinit1.
  destruct (from_fields st1) as (Hgpf & _ & Hinitf & _).
  apply useGas_ok in Huse. destruct Huse as (_ & ->).
  destruct (callOrCreate_shape _ _ _ _ _ _ _ _ Hcall) as (Hinit3 & _ & _ & Hgp3).
  cbn [StateTransition.set_gas StateTransition.initialGas StateTransition.gp]
    in Hinit3, Hgp3.
  destruct (refundGas_fields st3) as (Hgp4 & Hgas4 & Hinit4 & _).
  rewrite <- Hgas4 in Hgp4.
  assert (Hg4 : 0 <= StateTransition.gas (StateTransition.refundGas st3))
    by (rewrite Hgas4; apply uint64_range).
  exists (StateTransition.gasUsed (StateTransition.refundGas st3)).
  split; [congruence|]. subst st'.
  replace (StateTransition.gp (StateTransition.set_state _ _))
    with (StateTransition.gp (StateTransition.refundGas st3)) by reflexivity.
  unfold StateTransition.gasUsed. lia.
Qed.

(** X6. When [ApplyMessage] returns no error it reports the gas used; the
    gas pool has given up exactly that much and is not negative, and the gas
    used is at most the gas limit of the message. *)
Theorem ApplyMessage_pool (P : params.Constants) (Call : CallFunc)
    (Create : CreateFunc) (evm : EVM.t) (msg : Message.t) (gp : GasPool.t)
    (ret : bytes) (used : option Z) (failed : bool) (st' : StateTransition.t) :
  StateTransition.ApplyMessage P Call Create evm msg gp
    = Done (ret, used, failed, None, st') ->
  exists u,
    used = Some u /\
    StateTransition.gp st' = gp - u /\
    0 <= StateTransition.gp st' /\
    u <= Message.Gas msg.
Proof. apply ApplyMessage_success. Qed.

Lemma ApplyMessage_pool_witness :
  exists st',
    StateTransition.ApplyMessage Example.constants Example.Call Example.Create
      (Example.env true (Example.world [x60; x00; x60; x00; x55; x00]))
      (Example.message 0 30000) 1000000
    = Done ([], Some 13003, false, None, st') /\
    StateTransition.gp st' = 1000000 - 13003.
Proof.
  assert (H : exists st',
    StateTransition.ApplyMessage Example.constants Example.Call Example.Create
      (Example.env true (Example.world [x60; x00; x60; x00; x55; x00]))
      (Example.message 0 30000) 1000000
    = Done ([], Some 13003, false, None, st')).
  { eexists. vm_compute. reflexivity. }
  destruct H as (st' & H). exists st'. split; [exact H|].
  destruct (ApplyMessage_pool _ _ _ _ _ _ _ _ _ _ H) as (u & Hu & Hgp & _).
  injection Hu as <-. exact Hgp.
Defined.

(** X7. A transition that runs the virtual machine splits the price of
    the gas limit, which the gas purchase took from the sender, between the
    sender and the coinbase: over the state that the virtual machine left
    (with gas left between 0 and the gas limit and a refund counter that is
    not negative), the sender receives the price of the gas that was not
    used, the coinbase receives the price of the gas used, and no other
    balance changes. *)
Theorem gas_payment_conserved (P : params.Constants) (Call : CallFunc)
    (Create : CreateFunc) (evm : EVM.t) (msg : Message.t) (gp : GasPool.t)
    (st1 st2 st3 : StateTransition.t) (ret : bytes) (vmerr : option error) :
  let st := StateTransition.NewStateTransition evm msg gp in
  let sender := Message.From msg in
  let coinbase := EVM.Coinbase (StateTransition.evm st3) in
  let contractCreation :=
    match Message.To msg with None => true | Some _ => false end in
  let homestead :=
    params.ChainConfig.IsHomestead (EVM.ChainConfig evm) (EVM.BlockNumber evm) in
  let intrinsicGas := IntrinsicGas P (Message.Data msg) contractCreation homestead in
  StateTransition.preCheck st = (None, st1) ->
  big.BitLen intrinsicGas <= 64 ->
  StateTransition.useGas (snd (StateTransition.from st1)) (big.Uint64 intrinsicGas)
    = (None, st2) ->
  StateTransition.callOrCreate Call Create st2 sender contractCreation
    = Done (ret, vmerr, st3) ->
  vmerr <> Some ErrInsufficientBalance ->
  0 <= StateTransition.gas st3 <= Message.Gas msg ->
  0 <= StateDB.GetRefund (StateTransition.state st3) ->
  exists r st' u,
    StateTransition.TransitionDb P Call Create st = Done (r, st') /\
    StateTransition.usedGas r = Some u /\
    0 <= u <= Message.Gas msg /\
    forall a,
      StateDB.GetBalance (StateTransition.state st') a =
      StateDB.GetBalance (StateTransition.state st3) a
      + (if Z.eqb a sender then (Message.Gas msg - u) * Message.GasPrice msg else 0)
      + (if Z.eqb a coinbase then u * Message.GasPrice msg else 0).
Proof.
  intros st sender coinbase contractCreation homestead intrinsicGas
         Hpre Hbits Huse Hcall Hvm Hgas3 Href.
  pose proof (TransitionDb_checked P Call Create st st1 Hpre) as Hrun.
  cbv zeta in Hrun.
  change (StateTransition.msg st) with msg in Hrun.
  change (StateTransition.data st) with (Message.Data msg) in Hrun.
  change (StateTransition.evm st) with evm in Hrun.
  fold sender contractCreation homestead intrinsicGas in Hrun.
  destruct (Z.ltb_spec 64 (big.BitLen intrinsicGas)); [lia|].
  rewrite Huse, Hcall in Hrun. cbn [bind] in Hrun.
  set (st4 := StateTransition.refundGas st3) in *.
  assert (Hrun' :
    StateTransition.TransitionDb P Call Create st =
    Done ({| StateTransition.ret := ret;
             StateTransition.requiredGas := Some (StateTransition.gasUsed st3);
             StateTransition.usedGas := Some (StateTransition.gasUsed st4);
             StateTransition.failed :=
               match vmerr with Some _ => true | None => false end;
             StateTransition.err := None |},
          StateTransition.set_state st4
            (StateDB.AddBalance (StateTransition.state st4)
               (EVM.Coinbase (StateTransition.evm st4))
               (StateTransition.gasUsed st4 * StateTransition.gasPrice st4)))).
  { rewrite Hrun. destruct vmerr as [[]|]; try reflexivity. contradiction. }
  clear Hrun. do 2 eexists. exists (StateTransition.gasUsed st4).
  split; [exact Hrun'|]. split; [reflexivity|].
  apply preCheck_ok in Hpre.
  destruct (buyGas_success _ _ Hpre)
    as (Hmbits & _ & _ & _ & _ & Hinit1 & Hprice1 & Hmsg1 & _).
  destruct (from_fields st) as (_ & _ & _ & Hprice0 & Hmsg0 & _).
  rewrite Hmsg0 in Hinit1, Hmsg1, Hmbits. rewrite Hprice0 in Hprice1.
  change (StateTransition.msg st) with msg in *.
  change (StateTransition.gasPrice st) with (Message.GasPrice msg) in *.
  destruct (from_fields st1) as (_ & _ & Hinitf & Hpricef & Hmsgf & _).
  apply useGas_ok in Huse. destruct Huse as (_ & ->).
  destruct (callOrCreate_shape _ _ _ _ _ _ _ _ Hcall)
    as (Hinit3 & Hprice3 & Hmsg3 & _).
  cbn [StateTransition.set_gas StateTransition.initialGas StateTransition.gasPrice
       StateTransition.msg] in Hinit3, Hprice3, Hmsg3.
  assert (Hi3 : StateTransition.initialGas st3 = Message.Gas msg) by congruence.
  assert (Hp3 : StateTransition.gasPrice st3 = Message.GasPrice msg) by congruence.
  assert (Hm3 : StateTransition.msg st3 = msg) by congruence.
  assert (Hm64 : Message.Gas msg < 2 ^ 64) by (apply BitLen_le_64; [lia|assumption]).
  destruct (refundGas_fields st3) as (_ & Hgas4 & Hinit4 & Hprice4 & _ & Hcb4 & Hbal4).
  fold st4 in Hgas4, Hinit4, Hprice4, Hcb4, Hbal4.
  unfold StateTransition.gasUsed, StateDB.GetRefund in *.
  rewrite BigMin_min in Hgas4, Hbal4. unfold big.Div in Hgas4, Hbal4.
  set (used := StateTransition.initialGas st3 - StateTransition.gas st3) in *.
  set (refund := Z.min (StateDB.refund (StateTransition.state st3)) (used / 2)) in *.
  assert (Hu : 0 <= used / 2 <= used).
  { subst used. split; [apply Z.div_pos; lia|apply Z.div_le_upper_bound; lia]. }
  assert (Hr : 0 <= refund <= used / 2) by (subst refund; lia).
  unfold big.Uint64 in Hgas4. rewrite Z.abs_eq in Hgas4 by lia.
  rewrite (uint64_small refund) in Hgas4 by lia.
  rewrite uint64_small in Hgas4 by lia.
  split; [lia|].
  intros a. rewrite state_set_state.
  rewrite Hcb4, Hprice4, Hp3, Hinit4, Hi3, Hgas4. fold coinbase.
  rewrite Hm3 in Hbal4. fold sender in Hbal4. rewrite Hp3 in Hbal4.
  destruct (Z.eqb_spec a coinbase) as [->|Hc].
  - rewrite GetBalance_AddBalance, Hbal4.
    destruct (Z.eqb coinbase sender); lia.
  - rewrite GetBalance_AddBalance_other by congruence. rewrite Hbal4.
    destruct (Z.eqb a sender); lia.
Qed.

Lemma gas_payment_conserved_witness :
  exists r st',
    StateTransition.TransitionDb Example.constants Example.Call Example.Create
      (Example.transition [x60; x00; x60; x00; x55; x00] 0 30000) = Done (r, st') /\
    StateTransition.usedGas r = Some 13003 /\
    StateDB.GetBalance (StateTransition.state st') 1 = 1000000 - 13003 /\
    StateDB.GetBalance (StateTransition.state st') 9 = 13003.
Proof.
  edestruct (gas_payment_conserved Example.constants Example.Call Example.Create
               (Example.env true (Example.world [x60; x00; x60; x00; x55; x00]))
               (Example.message 0 30000) 1000000)
    as (r & st' & u & H & Hu & _ & Hbal).
  - vm_compute. reflexivity.
  - vm_compute. discriminate.
  - vm_compute. reflexivity.
  - vm_compute. reflexivity.
  - discriminate.
  - vm_compute. split; discriminate.
  - vm_compute. discriminate.
  - assert (Hr : StateTransition.usedGas r = Some 13003).
    { change (Example.transition [x60; x00; x60; x00; x55; x00] 0 30000)
        with (StateTransition.NewStateTransition
                (Example.env true (Example.world [x60; x00; x60; x00; x55; x00]))
                (Example.message 0 30000) 1000000).
      assert (Hc : match StateTransition.TransitionDb Example.constants Example.Call
                           Example.Create
                           (StateTransition.NewStateTransition
                              (Example.env true
                                 (Example.world [x60; x00; x60; x00; x55; x00]))
                              (Example.message 0 30000) 1000000) with
                   | Done (r, _) => StateTransition.usedGas r = Some 13003
                   | _ => False
                   end) by (vm_compute; reflexivity).
      rewrite H in Hc. exact Hc. }
    exists r, st'. split; [exact H|]. split; [exact Hr|].
    assert (u = 13003) by congruence. subst u.
    split.
    + rewrite Hbal. vm_compute. reflexivity.
    + rewrite Hbal. vm_compute. reflexivity.
Defined.

(** X8. When the pre-check returns an error, [TransitionDb] returns this
    error and the transition as [from] left it, and does nothing else: the
    error is one of the two nonce errors or one of the three errors of the
    gas purchase; the gas pool and the gas of the transition are as they
    were; the world state is as it was if the sender has an account, and
    otherwise it is the world state with an account created for the sender,
    so the accounts that exist afterwards are those that existed and the
    sender; and every account reads as it did. *)
Theorem preCheck_rejection (P : params.Constants) (Call : CallFunc)
    (Create : CreateFunc) (st st1 : StateTransition.t) (e : error) :
  StateTransition.preCheck st = (Some e, st1) ->
  let sender := Message.From (StateTransition.msg st) in
  StateTransition.TransitionDb P Call Create st =
    Done (StateTransition.failure e, st1) /\
  (e = ErrNonceTooHigh \/ e = ErrNonceTooLow \/ e = ErrOutOfGas \/
   e = errInsufficientBalanceForGas \/ e = ErrGasLimitReached) /\
  st1 = snd (StateTransition.from st) /\
  StateTransition.gp st1 = StateTransition.gp st /\
  StateTransition.gas st1 = StateTransition.gas st /\
  StateTransition.state st1 =
    (if StateDB.Exist (StateTransition.state st) sender
     then StateTransition.state st
     else StateDB.CreateAccount (StateTransition.state st) sender) /\
  (forall a, StateDB.Exist (StateTransition.state st1) a =
             StateDB.Exist (StateTransition.state st) a || (a =? sender)) /\
  (forall a, StateDB.getOrNew (StateTransition.state st1) a =
             StateDB.getOrNew (StateTransition.state st) a).
Proof.
  intros Hpre sender. split.
  { unfold StateTransition.TransitionDb. rewrite Hpre. reflexivity. }
  assert (H : (e = ErrNonceTooHigh \/ e = ErrNonceTooLow \/ e = ErrOutOfGas \/
               e = errInsufficientBalanceForGas \/ e = ErrGasLimitReached) /\
              st1 = snd (StateTransition.from st)).
  { rewrite preCheck_unfold in Hpre. cbv zeta in Hpre.
    destruct (_ && _).
    { injection Hpre as <- <-. split; [tauto|reflexivity]. }
    destruct (_ && _).
    { injection Hpre as <- <-. split; [tauto|reflexivity]. }
    destruct (buyGas_rejected_state _ _ _ Hpre) as (He & [Hs|Hs]).
    - split; [tauto|exact Hs].
    - split; [tauto|]. rewrite Hs. apply from_from. }
  destruct H as (He & Hst1). split; [exact He|]. split; [exact Hst1|].
  destruct (from_fields st) as (Hgp & Hgas & _).
  destruct (from_spec st) as (s' & Hfrom & Hex & Hread & _ & Hmono & Hsame & Hnew).
  assert (Hstate : StateTransition.state st1 = s').
  { rewrite Hst1, Hfrom. reflexivity. }
  rewrite <- Hst1 in Hgp, Hgas.
  split; [exact Hgp|]. split; [exact Hgas|].
  fold sender in Hex, Hsame, Hnew.
  split; [|split].
  - rewrite Hstate.
    destruct (StateDB.Exist (StateTransition.state st) sender) eqn:E.
    + apply Hsame. reflexivity.
    + apply Hnew. reflexivity.
  - intros a. rewrite Hstate.
    destruct (StateDB.Exist (StateTransition.state st) sender) eqn:E.
    + rewrite Hsame by reflexivity.
      destruct (Z.eqb_spec a sender) as [->|Hne].
      * rewrite E. reflexivity.
      * rewrite orb_false_r. reflexivity.
    + rewrite Hnew by reflexivity.
      destruct (Z.eqb_spec a sender) as [->|Hne].
      * rewrite Exist_CreateAccount. rewrite orb_true_r. reflexivity.
      * rewrite orb_false_r. apply Exist_CreateAccount_ne.
        intros Heq. apply Hne. symmetry. exact Heq.
  - intros a. rewrite Hstate. apply Hread.
Qed.

Lemma preCheck_rejection_witness :
  let st := StateTransition.NewStateTransition (Example.env true Example.emptyState)
              (Example.message 1 30000) 1000000 in
  let st1 := snd (StateTransition.preCheck st) in
  StateTransition.TransitionDb Example.constants Example.Call Example.Create st =
    Done (StateTransition.failure ErrNonceTooHigh, st1) /\
  StateDB.Exist (StateTransition.state st) 1 = false /\
  StateDB.Exist (StateTransition.state st1) 1 = true /\
  StateDB.GetBalance (StateTransition.state st1) 1 = 0.
Proof.
  intros st st1.
  destruct (preCheck_rejection Example.constants Example.Call Example.Create
              st st1 ErrNonceTooHigh)
    as (Hrun & _ & _ & _ & _ & _ & Hex & Hread).
  - vm_compute. reflexivity.
  - split; [exact Hrun|]. split; [reflexivity|]. split.
    + rewrite Hex. reflexivity.
    + unfold StateDB.GetBalance. rewrite Hread. reflexivity.
Defined.

(** X9. A message that passes the pre-check with a gas limit below the
    intrinsic gas fails with the out-of-gas error, and nothing is given
    back: the gas limit stays taken out of the gas pool and its price stays
    taken out of the balance of the sender. *)
Theorem intrinsic_gas_not_covered (P : params.Constants) (Call : CallFunc)
    (Create : CreateFunc) (evm : EVM.t) (msg : Message.t) (gp : GasPool.t)
    (st1 : StateTransition.t) :
  let st := StateTransition.NewStateTransition evm msg gp in
  let contractCreation :=
    match Message.To msg with None => true | Some _ => false end in
  let homestead :=
    params.ChainConfig.IsHomestead (EVM.ChainConfig evm) (EVM.BlockNumber evm) in
  let intrinsicGas := IntrinsicGas P (Message.Data msg) contractCreation homestead in
  StateTransition.preCheck st = (None, st1) ->
  0 <= Message.Gas msg < intrinsicGas ->
  exists st',
    StateTransition.TransitionDb P Call Create st =
      Done (StateTransition.failure ErrOutOfGas, st') /\
    StateTransition.gp st' = gp - Message.Gas msg /\
    StateDB.GetBalance (StateTransition.state st') (Message.From msg) =
      StateDB.GetBalance (EVM.StateDB evm) (Message.From msg)
      - Message.Gas msg * Message.GasPrice msg.
Proof.
  intros st contractCreation homestead intrinsicGas Hpre Hlow.
  rewrite (TransitionDb_checked P Call Create st st1 Hpre). cbv zeta.
  change (StateTransition.msg st) with msg.
  change (StateTransition.data st) with (Message.Data msg).
  change (StateTransition.evm st) with evm.
  fold contractCreation homestead intrinsicGas.
  apply preCheck_ok in Hpre.
  destruct (buyGas_success _ _ Hpre)
    as (Hbits & _ & _ & Hgp1 & Hgas1 & _ & _ & _ & _ & _ & Hbal1).
  destruct (from_fields st) as (Hgp0 & Hgas0 & _ & Hprice0 & Hmsg0 & _).
  rewrite Hmsg0 in Hbits, Hgp1, Hgas1, Hbal1. rewrite Hgp0 in Hgp1.
  rewrite Hgas0 in Hgas1. rewrite Hprice0 in Hbal1.
  change (StateTransition.msg st) with msg in *.
  change (StateTransition.gp st) with gp in *.
  change (StateTransition.gas st) with 0 in *.
  change (StateTransition.gasPrice st) with (Message.GasPrice msg) in *.
  assert (Hm64 : Message.Gas msg < 2 ^ 64) by (apply BitLen_le_64; [lia|assumption]).
  rewrite (Uint64_abs (Message.Gas msg)) in Hgas1 by assumption.
  rewrite Z.abs_eq in Hgas1 by lia. rewrite uint64_small in Hgas1 by lia.
  rewrite Z.add_0_l in Hgas1.
  destruct (from_fields st1) as (Hgpf & Hgasf & _).
  pose proof (from_reads st1) as Hreadf.
  pose proof (from_reads st) as Hread0.
  remember (snd (StateTransition.from st1)) as st1' eqn:Hst1'.
  assert (Hbal : StateDB.GetBalance (StateTransition.state st1') (Message.From msg) =
                 StateDB.GetBalance (EVM.StateDB evm) (Message.From msg)
                 - Message.Gas msg * Message.GasPrice msg).
  { unfold StateDB.GetBalance at 1. rewrite Hreadf.
    fold (StateDB.GetBalance (StateTransition.state st1) (Message.From msg)).
    rewrite Hbal1, Z.eqb_refl. unfold StateDB.GetBalance. rewrite Hread0. reflexivity. }
  destruct (Z.ltb_spec 64 (big.BitLen intrinsicGas)) as [Hbig|Hsmall].
  { exists st1'. split; [reflexivity|]. split; [congruence|exact Hbal]. }
  unfold StateTransition.useGas. rewrite Hgasf, Hgas1.
  rewrite (Uint64_abs intrinsicGas) by assumption. rewrite Z.abs_eq by lia.
  destruct (Z.ltb_spec (Message.Gas msg) intrinsicGas); [|lia].
  exists st1'. split; [reflexivity|]. split; [congruence|exact Hbal].
Qed.

Lemma intrinsic_gas_not_covered_witness :
  exists st',
    StateTransition.TransitionDb Example.constants Example.Call Example.Create
      (Example.transition [] 0 20000) =
      Done (StateTransition.failure ErrOutOfGas, st') /\
    StateTransition.gp st' = 1000000 - 20000.
Proof.
  edestruct (intrinsic_gas_not_covered Example.constants Example.Call Example.Create
               (Example.env true (Example.world [])) (Example.message 0 20000) 1000000)
    as (st' & Hrun & Hgp & _).
  - vm_compute. reflexivity.
  - vm_compute. split; [discriminate|reflexivity].
  - exists st'. split; [exact Hrun|exact Hgp].
Defined.

(** ** Receipts and totals of the block processor *)

Lemma gasOfReceipts_app (a b : list types.Receipt.t) :
  gasOfReceipts (a ++ b) = gasOfReceipts a + gasOfReceipts b.
Proof. induction a as [|r a IH]; simpl; [reflexivity|]. rewrite IH. lia. Qed.

Section ProcessorTotals.
Variable K : Collaborators.

(** What [ApplyTransaction] returns when it returns no error. *)
Lemma ApplyTransaction_success config bc author gp statedb header tx usedGas cfg
    receipt g gp' statedb' usedGas' :
  ApplyTransaction K config bc author gp statedb header tx usedGas cfg
    = Done (receipt, g, None, (gp', statedb', usedGas')) ->
  exists msg gas rc,
    AsMessage K tx (MakeSigner K config (types.Header.Number header)) = inr msg /\
    receipt = Some rc /\ g = Some gas /\
    usedGas' = usedGas + gas /\
    gp' = gp - gas /\ 0 <= gp' /\ gas <= Message.Gas msg /\
    types.Receipt.CumulativeGasUsed rc = usedGas + gas /\
    types.Receipt.GasUsed rc = gas /\
    types.Receipt.TxHash rc = types.Transaction.Hash tx /\
    types.Receipt.Logs rc = StateDB.GetLogs statedb' (types.Transaction.Hash tx) /\
    (Message.To msg <> None -> types.Receipt.ContractAddress rc = 0).
Proof.
  unfold ApplyTransaction.
  destruct (AsMessage K tx _) as [e|msg]; [discriminate|].
  destruct (StateTransition.ApplyMessage _ _ _ _ _ _)
    as [[[[[ret gas] failed] [e|]] st]| |] eqn:Happly; cbn [bind]; try discriminate.
  destruct (ApplyMessage_success _ _ _ _ _ _ _ _ _ _ Happly)
    as (u & -> & Hgp & Hpos & Hle).
  destruct (if params.ChainConfig.IsByzantium config (types.Header.Number header)
            then _ else _) as [root db].
  intros H. exists msg, u. eexists.
  assert (Hrc : receipt = Some
    {| types.Receipt.PostState := root; types.Receipt.Failed := failed;
       types.Receipt.CumulativeGasUsed := usedGas + u;
       types.Receipt.Bloom :=
         CreateBloom K
           [{| types.Receipt.PostState := root; types.Receipt.Failed := failed;
               types.Receipt.CumulativeGasUsed := usedGas + u;
               types.Receipt.Bloom := 0;
               types.Receipt.Logs := StateDB.GetLogs db (types.Transaction.Hash tx);
               types.Receipt.TxHash := types.Transaction.Hash tx;
               types.Receipt.ContractAddress :=
                 match Message.To msg with
                 | None => CreateAddress K (EVM.Origin (StateTransition.evm st))
                             (types.Transaction.Nonce tx)
                 | Some _ => 0
                 end;
               types.Receipt.GasUsed := u |}];
       types.Receipt.Logs := StateDB.GetLogs db (types.Transaction.Hash tx);
       types.Receipt.TxHash := types.Transaction.Hash tx;
       types.Receipt.ContractAddress :=
         match Message.To msg with
         | None => CreateAddress K (EVM.Origin (StateTransition.evm st))
                     (types.Transaction.Nonce tx)
         | Some _ => 0
         end;
       types.Receipt.GasUsed := u |}).
  { injection H as <- _ _ _ _. destruct (Message.To msg); reflexivity. }
  assert (Hrest : g = Some u /\ gp' = StateTransition.gp st /\ statedb' = db /\
                  usedGas' = usedGas + u) by (repeat split; congruence).
  destruct Hrest as (-> & -> & -> & ->).
  split; [reflexivity|]. split; [exact Hrc|]. split; [reflexivity|].
  split; [reflexivity|]. split; [exact Hgp|]. split; [exact Hpos|].
  split; [exact Hle|]. cbn. repeat split.
  destruct (Message.To msg); [reflexivity|contradiction].
Qed.

Variable p : StateProcessor K.
Variable block : types.Block.t.
Variable cfg : Config.t.

(** The loop that ends without an error has appended one receipt for each
    transaction; the running total has grown by the gas of these receipts
    and the pool has shrunk by as much; and the logs have grown by the logs
    of these receipts. *)
Lemma processTransactions_totals (txs : list types.Transaction.t) :
  forall (i : Z) (s s' : ProcessState),
    processTransactions K p block cfg i txs s = Done (None, s') ->
    exists rs,
      ps_receipts s' = ps_receipts s ++ rs /\
      length rs = length txs /\
      ps_totalUsedGas s' = ps_totalUsedGas s + gasOfReceipts rs /\
      ps_gp s' = ps_gp s - gasOfReceipts rs /\
      (0 <= ps_gp s -> 0 <= ps_gp s') /\
      ps_allLogs s' = ps_allLogs s ++ concat (map types.Receipt.Logs rs) /\
      (forall k rc, rs !! k = Some rc ->
         types.Receipt.CumulativeGasUsed rc =
         ps_totalUsedGas s + gasOfReceipts (take (S k) rs)).
Proof.
  induction txs as [|tx txs IH]; intros i s s'.
  - simpl. intros [= <-]. exists []. simpl. rewrite !app_nil_r.
    repeat split; try lia. intros k rc H. destruct k; discriminate.
  - cbn [processTransactions].
    destruct (ApplyTransaction _ _ _ _ _ _ _ _ _ _)
      as [[[[receipt g] [e|]] [[gp statedb] used]]| |] eqn:Happly;
      cbn [bind]; try discriminate.
    destruct (ApplyTransaction_success _ _ _ _ _ _ _ _ _ _ _ _ _ _ Happly)
      as (msg & gas & rc & _ & -> & -> & -> & -> & Hpos & _ & Hcum & Hgas & _).
    intros H. apply IH in H.
    destruct H as (rs & Hrs & Hlen & Htot & Hgp & Hp & Hlogs & Hk).
    cbn [ps_receipts ps_totalUsedGas ps_gp ps_allLogs] in *.
    exists (rc :: rs). cbn [gasOfReceipts fold_right map concat length].
    fold (gasOfReceipts rs). rewrite Hgas.
    split; [rewrite Hrs, <- app_assoc; reflexivity|].
    split; [lia|]. split; [lia|]. split; [lia|].
    split; [intros _; apply Hp; exact Hpos|].
    split; [rewrite Hlogs, <- app_assoc; reflexivity|].
    intros k rc' Hl. destruct k as [|k].
    + injection Hl as <-. rewrite Hcum. unfold gasOfReceipts. simpl. rewrite Hgas. lia.
    + cbn in Hl. apply Hk in Hl. rewrite Hl.
      change (take (S (S k)) (rc :: rs)) with (rc :: take (S k) rs).
      cbn [gasOfReceipts fold_right]. fold (gasOfReceipts (take (S k) rs)).
      rewrite Hgas. lia.
Qed.
End ProcessorTotals.

(** X10. When [ApplyTransaction] returns no error it returns a receipt
    and the gas used; the running total has grown and the gas pool has
    shrunk by this gas; the receipt records this gas, the new running total
    as its cumulative gas, the hash of the transaction and the logs that the
    state holds for this hash. *)
Theorem ApplyTransaction_receipt (K : Collaborators) (config : params.ChainConfig.t)
    (bc : BlockChain K) (author : option address) (gp : GasPool.t)
    (statedb : StateDB.t) (header : types.Header.t) (tx : types.Transaction.t)
    (usedGas : Z) (cfg : Config.t) (receipt : option types.Receipt.t)
    (g : option Z) (gp' : GasPool.t) (statedb' : StateDB.t) (usedGas' : Z) :
  ApplyTransaction K config bc author gp statedb header tx usedGas cfg
    = Done (receipt, g, None, (gp', statedb', usedGas')) ->
  exists gas rc,
    receipt = Some rc /\ g = Some gas /\
    usedGas' = usedGas + gas /\
    gp' = gp - gas /\
    types.Receipt.GasUsed rc = gas /\
    types.Receipt.CumulativeGasUsed rc = usedGas' /\
    types.Receipt.TxHash rc = types.Transaction.Hash tx /\
    types.Receipt.Logs rc = StateDB.GetLogs statedb' (types.Transaction.Hash tx).
Proof.
  intros H.
  destruct (ApplyTransaction_success K _ _ _ _ _ _ _ _ _ _ _ _ _ _ H)
    as (msg & gas & rc & _ & -> & -> & -> & -> & _ & _ & Hcum & Hgas & Hh & Hl & _).
  exists gas, rc. repeat split; assumption.
Qed.

Lemma ApplyTransaction_receipt_witness :
  exists rc statedb',
    ApplyTransaction Example.collaborators (Example.chainConfig true) tt None 1000000
      (Example.world []) (types.Block.Header (Example.block [])) (Example.transaction 11 0)
      500 Example.vmConfig
    = Done (Some rc, Some 21000, None, (979000, statedb', 21500)) /\
    types.Receipt.CumulativeGasUsed rc = 21500 /\
    types.Receipt.GasUsed rc = 21000.
Proof.
  assert (H : exists rc statedb',
    ApplyTransaction Example.collaborators (Example.chainConfig true) tt None 1000000
      (Example.world []) (types.Block.Header (Example.block [])) (Example.transaction 11 0)
      500 Example.vmConfig
    = Done (Some rc, Some 21000, None, (979000, statedb', 21500))).
  { do 2 eexists. vm_compute. reflexivity. }
  destruct H as (rc & statedb' & H). exists rc, statedb'. split; [exact H|].
  destruct (ApplyTransaction_receipt _ _ _ _ _ _ _ _ _ _ _ _ _ _ _ H)
    as (gas & rc' & Hrc & Hg & _ & _ & Hgas & Hcum & _).
  injection Hrc as <-. injection Hg as <-. split; assumption.
Defined.

(** X11. When [Process] returns no error there is one receipt for each
    transaction of the block, the total gas used is the sum of the gas used
    of the receipts, the logs are the logs of the receipts in their order,
    and the cumulative gas of each receipt is the sum of the gas used of the
    receipts up to it. *)
Theorem Process_totals (K : Collaborators) (p : StateProcessor K)
    (block : types.Block.t) (statedb statedb' : StateDB.t) (cfg : Config.t)
    (r : ProcessResult) :
  Process K p block statedb cfg = Done (r, statedb') ->
  perr r = None ->
  length (receipts r) = length (types.Block.Transactions block) /\
  totalUsedGas r = Some (gasOfReceipts (receipts r)) /\
  allLogs r = concat (map types.Receipt.Logs (receipts r)) /\
  (forall k rc, receipts r !! k = Some rc ->
     types.Receipt.CumulativeGasUsed rc = gasOfReceipts (take (S k) (receipts r))).
Proof.
  unfold Process.
  destruct (processTransactions _ _ _ _ _ _ _) as [[[e|] s]| |] eqn:Hloop;
    cbn [bind]; try discriminate.
  { intros H Herr. assert (perr r = Some e) by (injection H as <- _; reflexivity).
    congruence. }
  intros H _.
  assert (Hr : r = {| receipts := ps_receipts s; allLogs := ps_allLogs s;
                      totalUsedGas := Some (ps_totalUsedGas s); perr := None |})
    by congruence.
  subst r. clear H. cbn [receipts allLogs totalUsedGas].
  destruct (processTransactions_totals K p block cfg _ _ _ _ Hloop)
    as (rs & Hrs & Hlen & Htot & _ & _ & Hlogs & Hk).
  cbn [ps_receipts ps_totalUsedGas ps_allLogs app] in *. subst rs.
  split; [exact Hlen|]. split; [rewrite Htot; f_equal; lia|].
  split; [exact Hlogs|].
  intros k rc Hl. rewrite (Hk k rc Hl). lia.
Qed.

Lemma Process_totals_witness :
  exists r statedb',
    Process Example.collaborators Example.processor
      (Example.block [Example.transaction 11 0; Example.transaction 12 1])
      (Example.world []) Example.vmConfig = Done (r, statedb') /\
    length (receipts r) = 2%nat /\
    totalUsedGas r = Some (gasOfReceipts (receipts r)).
Proof.
  assert (H : exists r statedb',
    Process Example.collaborators Example.processor
      (Example.block [Example.transaction 11 0; Example.transaction 12 1])
      (Example.world []) Example.vmConfig = Done (r, statedb') /\ perr r = None).
  { do 2 eexists. split; [vm_compute; reflexivity|reflexivity]. }
  destruct H as (r & statedb' & H & Herr). exists r, statedb'. split; [exact H|].
  destruct (Process_totals _ _ _ _ _ _ _ H Herr) as (Hlen & Htot & _).
  split; [exact Hlen|exact Htot].
Defined.

(** X12. When [Process] returns no error on a block whose gas limit is
    not negative, the total gas used is at most the gas limit of the
    block. *)
Theorem Process_gas_limit (K : Collaborators) (p : StateProcessor K)
    (block : types.Block.t) (statedb statedb' : StateDB.t) (cfg : Config.t)
    (r : ProcessResult) :
  0 <= types.Block.GasLimit block ->
  Process K p block statedb cfg = Done (r, statedb') ->
  perr r = None ->
  exists total,
    totalUsedGas r = Some total /\ total <= types.Block.GasLimit block.
Proof.
  intros Hlimit. unfold Process.
  destruct (processTransactions _ _ _ _ _ _ _) as [[[e|] s]| |] eqn:Hloop;
    cbn [bind]; try discriminate.
  { intros H Herr. assert (perr r = Some e) by (injection H as <- _; reflexivity).
    congruence. }
  intros H _.
  assert (Hr : r = {| receipts := ps_receipts s; allLogs := ps_allLogs s;
                      totalUsedGas := Some (ps_totalUsedGas s); perr := None |})
    by congruence.
  subst r. clear H. cbn [totalUsedGas].
  destruct (processTransactions_totals K p block cfg _ _ _ _ Hloop)
    as (rs & _ & _ & Htot & Hgp & Hpos & _).
  cbn [ps_totalUsedGas ps_gp] in *. unfold GasPool.AddGas in *.
  exists (ps_totalUsedGas s). split; [reflexivity|].
  assert (0 <= ps_gp s) by (apply Hpos; lia). lia.
Qed.

Lemma Process_gas_limit_witness :
  exists r statedb' total,
    Process Example.collaborators Example.processor
      (Example.block [Example.transaction 11 0; Example.transaction 12 1])
      (Example.world []) Example.vmConfig = Done (r, statedb') /\
    totalUsedGas r = Some total /\ total <= 1000000.
Proof.
  assert (H : exists r statedb',
    Process Example.collaborators Example.processor
      (Example.block [Example.transaction 11 0; Example.transaction 12 1])
      (Example.world []) Example.vmConfig = Done (r, statedb') /\ perr r = None).
  { do 2 eexists. split; [vm_compute; reflexivity|reflexivity]. }
  destruct H as (r & statedb' & H & Herr).
  destruct (Process_gas_limit Example.collaborators Example.processor
              (Example.block [Example.transaction 11 0; Example.transaction 12 1])
              (Example.world []) statedb' Example.vmConfig r) as (total & Ht & Hle).
  - vm_compute. discriminate.
  - exact H.
  - exact Herr.
  - exists r, statedb', total. split; [exact H|]. split; [exact Ht|exact Hle].
Defined.

(** ** The tracer *)

Lemma sameMachine_CaptureState_l (i1 i2 : Interpreter.t) (c : Capture) :
  sameMachine i1 i2 -> sameMachine (Interpreter.CaptureState i1 c) i2.
Proof. intros H. exact H. Qed.

Lemma sameMachine_CaptureState_r (i1 i2 : Interpreter.t) (c : Capture) :
  sameMachine i1 i2 -> sameMachine i1 (Interpreter.CaptureState i2 c).
Proof. intros H. exact H. Qed.

Lemma enforceRestrictions_sameMachine (i1 i2 : Interpreter.t) (op : byte)
    (o : operation) (s : Stack.t) :
  sameMachine i1 i2 ->
  Interpreter.enforceRestrictions i1 op o s = Interpreter.enforceRestrictions i2 op o s.
Proof.
  intros (He & _ & Hr & _). unfold Interpreter.enforceRestrictions.
  rewrite He, Hr. reflexivity.
Qed.

Lemma dispatch_sameMachine (i1 i2 : Interpreter.t) (o : operation)
    (k : Contract.t) (f1 f2 : Frame.t) :
  sameMachine i1 i2 -> sameLocals f1 f2 ->
  sameControl (Interpreter.dispatch i1 o k f1) (Interpreter.dispatch i2 o k f2).
Proof.
  intros (He & Hg & Hr & Hd & Hj & Hm) (Hmem & Hst & Hpc).
  unfold Interpreter.dispatch. rewrite He, Hmem, Hst, Hpc.
  destruct (execute o _ _ _ _ _) as [r| |]; cbn [bind sameControl]; try exact I.
  assert (Hi : forall b : bool,
            sameMachine
              (if b then Interpreter.set_returnData
                           (Interpreter.set_evm i1 (exec_evm r)) (exec_res r)
               else Interpreter.set_evm i1 (exec_evm r))
              (if b then Interpreter.set_returnData
                           (Interpreter.set_evm i2 (exec_evm r)) (exec_res r)
               else Interpreter.set_evm i2 (exec_evm r))).
  { intros []; repeat split; cbn; assumption. }
  assert (Hf : sameLocals
            (Frame.set_pc (Frame.set_stack (Frame.set_mem f1 (exec_mem r))
                             (exec_stack r)) (exec_pc r))
            (Frame.set_pc (Frame.set_stack (Frame.set_mem f2 (exec_mem r))
                             (exec_stack r)) (exec_pc r)))
    by (repeat split).
  destruct (exec_err r).
  { cbn. repeat split; try apply Hi; apply Hf. }
  destruct (reverts o).
  { cbn. repeat split; try apply Hi; apply Hf. }
  destruct (halts o).
  { cbn. repeat split; try apply Hi; apply Hf. }
  destruct (negb (jumps o)); cbn.
  - split; [apply Hi|]. split; [reflexivity|]. repeat split.
  - split; [apply Hi|]. split; [reflexivity|]. exact Hf.
Qed.

(** Capturing a state for the tracer does not change what is executed. *)
Lemma captured_sameMachine (i1 i2 : Interpreter.t) (h1 h2 : Frame.t)
    (c1 c2 : Capture) (o : operation) (k : Contract.t) :
  sameMachine i1 i2 -> sameLocals h1 h2 ->
  sameControl
    (let '(in_, fr) :=
       if Config.Debug (Interpreter.cfg i1)
       then (Interpreter.CaptureState i1 c1, Frame.set_logged h1 true)
       else (i1, h1) in
     Interpreter.dispatch in_ o k fr)
    (let '(in_, fr) :=
       if Config.Debug (Interpreter.cfg i2)
       then (Interpreter.CaptureState i2 c2, Frame.set_logged h2 true)
       else (i2, h2) in
     Interpreter.dispatch in_ o k fr).
Proof.
  intros Hi Hh.
  destruct (Config.Debug (Interpreter.cfg i1)), (Config.Debug (Interpreter.cfg i2));
    apply dispatch_sameMachine; first [exact Hi | exact Hh].
Qed.

Lemma sameLocals_Resize (g1 g2 : Frame.t) (m : Z) :
  sameLocals g1 g2 ->
  sameLocals
    (if 0 <? m then Frame.set_mem g1 (Memory.Resize (Frame.mem g1) m) else g1)
    (if 0 <? m then Frame.set_mem g2 (Memory.Resize (Frame.mem g2) m) else g2).
Proof.
  intros (Hmem & Hst & Hpc).
  destruct (0 <? m); repeat split; cbn; try assumption. rewrite Hmem. reflexivity.
Qed.

Lemma step_sameMachine (i1 i2 : Interpreter.t) (k : Contract.t) (f1 f2 : Frame.t) :
  sameMachine i1 i2 -> sameLocals f1 f2 ->
  sameControl (Interpreter.step i1 k f1) (Interpreter.step i2 k f2).
Proof.
  intros Hi Hf. pose proof Hi as (He & Hg & Hr & Hd & Hj & Hm).
  pose proof Hf as (Hmem & Hst & Hpc).
  unfold Interpreter.step. rewrite Hpc, Hj.
  set (op := Contract.GetOp k (Frame.pc f2)).
  set (o := Config.JumpTable (Interpreter.cfg i2) op).
  set (g1 := if Config.Debug (Interpreter.cfg i1)
             then Frame.snapshot (Frame.set_op f1 op) (Contract.Gas k)
             else Frame.set_op f1 op).
  set (g2 := if Config.Debug (Interpreter.cfg i2)
             then Frame.snapshot (Frame.set_op f2 op) (Contract.Gas k)
             else Frame.set_op f2 op).
  assert (Hg12 : sameLocals g1 g2).
  { subst g1 g2. destruct (Config.Debug _), (Config.Debug _); exact Hf. }
  clearbody g1 g2 op.
  pose proof Hg12 as (Hmem' & Hst' & Hpc').
  destruct (negb (valid o)).
  { cbn. repeat split; assumption. }
  rewrite Hst'. destruct (validateStack o (Frame.stack g2)).
  { cbn. repeat split; assumption. }
  rewrite (enforceRestrictions_sameMachine i1 i2 op o _ Hi).
  destruct (Interpreter.enforceRestrictions i2 op o (Frame.stack g2)) as [[e|]| |];
    cbn [bind]; try exact I.
  { cbn. repeat split; assumption. }
  destruct (Interpreter.requiredMemory o (Frame.stack g2)) as [m|].
  2:{ cbn. repeat split; assumption. }
  unfold Interpreter.consumeGas. rewrite Hm, Hg, He, Hst', Hmem'.
  destruct (negb (Config.DisableGasMetering (Interpreter.cfg i2))).
  - destruct (gasCost o _ _ _ _ _ _) as [[cost gerr] stack'].
    destruct gerr as [ge|].
    { cbn. repeat split; assumption. }
    unfold Contract.UseGas. destruct (Contract.Gas k <? cost).
    { cbn. repeat split; assumption. }
    cbn [negb].
    apply captured_sameMachine; [exact Hi|].
    apply sameLocals_Resize. repeat split; assumption.
  - cbn [negb]. apply captured_sameMachine; [exact Hi|].
    apply sameLocals_Resize. exact Hg12.
Qed.

Lemma loop_sameMachine (fuel : nat) :
  forall (i1 i2 : Interpreter.t) (k : Contract.t) (f1 f2 : Frame.t),
    sameMachine i1 i2 -> sameLocals f1 f2 ->
    sameControl (Interpreter.loop fuel i1 k f1) (Interpreter.loop fuel i2 k f2).
Proof.
  induction fuel as [|fuel IH]; intros i1 i2 k f1 f2 Hi Hf.
  - cbn. destruct Hi as (He & Hrest). rewrite He.
    destruct (EVM.abort _ =? 0); cbn; [exact I|].
    repeat split; first [assumption | apply Hrest | apply Hf].
  - cbn [Interpreter.loop]. pose proof Hi as (He & Hrest). rewrite He.
    destruct (EVM.abort _ =? 0).
    + pose proof (step_sameMachine i1 i2 k f1 f2 Hi Hf) as Hs.
      destruct (Interpreter.step i1 k f1) as [[j1 k1 g1|r1 e1 j1 k1 g1]| |],
               (Interpreter.step i2 k f2) as [[j2 k2 g2|r2 e2 j2 k2 g2]| |];
        cbn in Hs; try contradiction; cbn [bind]; try exact I.
      * destruct Hs as (Hj & <- & Hg). apply IH; assumption.
      * exact Hs.
    + cbn. repeat split; first [assumption | apply Hrest | apply Hf].
Qed.

(** X13. A tracer that only records does not change what is executed: two
    interpreters that agree on the environment, the gas table, the
    read-only flag, the return data, the jump table and the gas-metering
    switch, and may differ in the debug flag and in the tracer, run a
    contract to the same end, with the same return data, the same error,
    the same contract and, the debug flag and the tracer apart, the same
    interpreter. *)
Theorem Run_tracer_independent (fuel : nat) (i1 i2 : Interpreter.t) (snapshot : Z)
    (contract : Contract.t) (input : bytes) :
  sameMachine i1 i2 ->
  sameResult (Interpreter.Run fuel i1 snapshot contract input)
             (Interpreter.Run fuel i2 snapshot contract input).
Proof.
  intros Hi. pose proof Hi as (He & Hg & Hr & Hd & Hj & Hm).
  unfold Interpreter.Run. rewrite He.
  set (j1 := Interpreter.set_returnData (Interpreter.set_evm i1 _) []).
  set (j2 := Interpreter.set_returnData (Interpreter.set_evm i2 _) []).
  assert (Hjj : sameMachine j1 j2) by (repeat split; assumption).
  assert (Hleave : forall a b, sameMachine a b ->
            sameMachine (Interpreter.leave a) (Interpreter.leave b)).
  { intros a b (H1 & H2 & H3 & H4 & H5 & H6). unfold Interpreter.leave.
    rewrite H1. repeat split; assumption. }
  assert (Htrace : forall a b e fa fb, sameMachine a b ->
            sameMachine (Interpreter.traceError a e fa) (Interpreter.traceError b e fb)).
  { intros a b e fa fb H. unfold Interpreter.traceError. destruct e; [|exact H].
    destruct (_ && _), (_ && _); exact H. }
  destruct (Z.of_nat (length (Contract.Code contract)) =? 0).
  - cbn. repeat split; try reflexivity; apply Hleave; exact Hjj.
  - pose proof (loop_sameMachine fuel j1 j2 (Contract.set_Input contract input)
                  Frame.init Frame.init Hjj (conj eq_refl (conj eq_refl eq_refl))) as Hl.
    destruct (Interpreter.loop fuel j1 _ _) as [[a1 k1 g1|r1 e1 a1 k1 g1]| |],
             (Interpreter.loop fuel j2 _ _) as [[a2 k2 g2|r2 e2 a2 k2 g2]| |];
      cbn in Hl; try contradiction; cbn [bind sameResult]; try exact I.
    destruct Hl as (-> & -> & Ha & -> & _). cbn.
    split; [reflexivity|]. split; [reflexivity|]. split; [reflexivity|].
    apply Hleave, Htrace, Ha.
Qed.

Lemma Run_tracer_independent_witness :
  sameResult
    (Interpreter.Run 10 (Example.interpreter true false (Example.world [x60; x07; x00])) 0
       (Example.contract [x60; x07; x00] 10000) [])
    (Interpreter.Run 10
       (Interpreter.set_cfg
          (Example.interpreter true false (Example.world [x60; x07; x00]))
          {| Config.Debug := true; Config.EnableJit := false;
             Config.ForceJit := false; Config.Tracer := [];
             Config.NoRecursion := false; Config.DisableGasMetering := false;
             Config.EnablePreimageRecording := false;
             Config.JumpTable := Example.instructionSet |}) 0
       (Example.contract [x60; x07; x00] 10000) []).
Proof.
  apply (Run_tracer_independent 10
           (Example.interpreter true false (Example.world [x60; x07; x00]))).
  repeat split.
Defined.

(** ** The abort flag *)

Lemma set_depth_same (e : EVM.t) : EVM.set_depth e (EVM.depth e) = e.
Proof. destruct e. reflexivity. Qed.

(** X14. With the abort flag of the environment set, [Run] on a contract
    that has code executes no operation, whatever the fuel: it returns no
    data and no error, the contract has its input set and is otherwise
    unchanged (all its gas is left), and the interpreter has its return
    data cleared and is otherwise unchanged (the call depth, an [int], is
    raised and lowered again). *)
Theorem Run_aborted (fuel : nat) (in_ : Interpreter.t) (snapshot : Z)
    (contract : Contract.t) (input : bytes) :
  EVM.abort (Interpreter.evm in_) <> 0 ->
  Contract.Code contract <> [] ->
  - 2 ^ 63 <= EVM.depth (Interpreter.evm in_) < 2 ^ 63 ->
  Interpreter.Run fuel in_ snapshot contract input =
  Done {| Interpreter.ret := []; Interpreter.err := None;
          Interpreter.interpreter := Interpreter.set_returnData in_ [];
          Interpreter.contract := Contract.set_Input contract input |}.
Proof.
  intros Habort Hcode Hdepth. unfold Interpreter.Run.
  destruct (Z.eqb_spec (Z.of_nat (length (Contract.Code contract))) 0) as [Hlen|Hlen].
  { destruct (Contract.Code contract); [contradiction|simpl length in Hlen; lia]. }
  assert (Hl : forall i k f, EVM.abort (Interpreter.evm i) <> 0 ->
            Interpreter.loop fuel i k f = Done (Interpreter.Return [] None i k f)).
  { intros i k f H. destruct fuel; cbn [Interpreter.loop];
      destruct (Z.eqb_spec (EVM.abort (Interpreter.evm i)) 0); try contradiction;
      reflexivity. }
  rewrite Hl by exact Habort. cbn [bind Interpreter.traceError].
  f_equal. f_equal. unfold Interpreter.leave.
  destruct in_ as [e c g r d]. cbn in *. f_equal.
  rewrite int_dec_inc by exact Hdepth.
  destruct e. reflexivity.
Qed.

Lemma Run_aborted_witness :
  let in_ :=
    Interpreter.set_evm (Example.interpreter true false (Example.world [x55]))
      {| EVM.Origin := 1; EVM.Coinbase := 9; EVM.BlockNumber := 100;
         EVM.StateDB := Example.world [x55]; EVM.depth := 0;
         EVM.chainConfig := Example.chainConfig true;
         EVM.chainRules := Example.rules true; EVM.abort := 1 |} in
  Interpreter.Run 0 in_ 0 (Example.contract [x55] 10000) [x01] =
  Done {| Interpreter.ret := []; Interpreter.err := None;
          Interpreter.interpreter := Interpreter.set_returnData in_ [];
          Interpreter.contract :=
            Contract.set_Input (Example.contract [x55] 10000) [x01] |}.
Proof.
  intros in_. apply (Run_aborted 0 in_ 0 (Example.contract [x55] 10000) [x01]).
  - simpl. lia.
  - discriminate.
  - simpl. lia.
Defined.

(** ** Running out of gas *)

(** X15. An operation that passes the checks of the loop but whose gas
    cost cannot be computed, or is more than the gas of the contract, ends
    the run with the out-of-gas error before it is executed: the
    interpreter and the contract (its gas too) are unchanged, and so are the
    memory and the program counter. *)
Theorem step_out_of_gas (in_ : Interpreter.t) (contract : Contract.t)
    (fr : Frame.t) (memorySize cost : Z) (gerr : option error) (stack' : Stack.t) :
  let op := Contract.GetOp contract (Frame.pc fr) in
  let operation := Config.JumpTable (Interpreter.cfg in_) op in
  valid operation = true ->
  validateStack operation (Frame.stack fr) = None ->
  Interpreter.enforceRestrictions in_ op operation (Frame.stack fr) = Done None ->
  Interpreter.requiredMemory operation (Frame.stack fr) = Some memorySize ->
  Config.DisableGasMetering (Interpreter.cfg in_) = false ->
  gasCost operation (Interpreter.gasTable in_) (Interpreter.evm in_) contract
          (Frame.stack fr) (Frame.mem fr) memorySize = (cost, gerr, stack') ->
  gerr <> None \/ Contract.Gas contract < cost ->
  exists fr',
    Interpreter.step in_ contract fr =
      Done (Interpreter.Return [] (Some ErrOutOfGas) in_ contract fr') /\
    Frame.mem fr' = Frame.mem fr /\ Frame.pc fr' = Frame.pc fr.
Proof.
  intros op operation Hvalid Hstack Hres Hmem Hmeter Hcost Hfail.
  unfold Interpreter.step. fold op. fold operation. rewrite Hvalid. cbn [negb].
  set (fr0 := if Config.Debug (Interpreter.cfg in_)
              then Frame.snapshot (Frame.set_op fr op) (Contract.Gas contract)
              else Frame.set_op fr op).
  assert (H0 : Frame.stack fr0 = Frame.stack fr /\ Frame.mem fr0 = Frame.mem fr /\
               Frame.pc fr0 = Frame.pc fr).
  { subst fr0. destruct (Config.Debug _); repeat split. }
  destruct H0 as (Hs0 & Hm0 & Hp0). clearbody fr0.
  rewrite Hs0, Hstack, Hres. cbn [bind]. rewrite Hmem.
  unfold Interpreter.consumeGas. rewrite Hmeter. cbn [negb].
  rewrite Hs0, Hm0, Hcost.
  destruct gerr as [e|].
  - cbn [negb]. eexists. split; [reflexivity|]. cbn. repeat split; assumption.
  - destruct Hfail as [Hfail|Hfail]; [contradiction|].
    unfold Contract.UseGas. apply Z.ltb_lt in Hfail. rewrite Hfail. cbn [negb].
    eexists. split; [reflexivity|]. cbn. repeat split; assumption.
Qed.

Lemma step_out_of_gas_witness :
  exists fr',
    Interpreter.step (Example.interpreter true false (Example.world [x55]))
                     (Example.contract [x55] 4999) (Example.frame [7; 0]) =
      Done (Interpreter.Return [] (Some ErrOutOfGas)
              (Example.interpreter true false (Example.world [x55]))
              (Example.contract [x55] 4999) fr') /\
    Frame.mem fr' = Frame.mem (Example.frame [7; 0]) /\
    Frame.pc fr' = Frame.pc (Example.frame [7; 0]).
Proof.
  apply (step_out_of_gas
           (Example.interpreter true false (Example.world [x55]))
           (Example.contract [x55] 4999) (Example.frame [7; 0]) 0 5000 None
           {| Stack.data := [7; 0] |}).
  - reflexivity.
  - reflexivity.
  - reflexivity.
  - reflexivity.
  - reflexivity.
  - reflexivity.
  - right. simpl. lia.
Defined.

(** ** Heaps of nonces *)

Lemma Push_Permutation (h : nonceHeap.t) (x : Z) : heap.Push h x ≡ₚ x :: h.
Proof.
  induction h as [|y r IH]; simpl; [reflexivity|].
  destruct (x <=? y); [reflexivity|]. rewrite IH. apply Permutation_swap.
Qed.

Lemma Push_elem_of (h : nonceHeap.t) (x y : Z) :
  y ∈ heap.Push h x <-> y = x \/ y ∈ h.
Proof. rewrite Push_Permutation. apply elem_of_cons. Qed.

Lemma Push_ascending (h : nonceHeap.t) (x : Z) :
  StronglySorted Z.lt h -> x ∉ h -> StronglySorted Z.lt (heap.Push h x).
Proof.
  induction h as [|y r IH]; simpl; intros Hs Hx.
  - repeat constructor.
  - apply StronglySorted_inv in Hs. destruct Hs as (Hr & Hall).
    rewrite not_elem_of_cons in Hx. destruct Hx as (Hxy & Hxr).
    destruct (Z.leb_spec x y).
    + constructor; [constructor; assumption|].
      constructor; [lia|]. rewrite Forall_forall in *. intros z Hz.
      specialize (Hall z Hz). lia.
    + constructor; [apply IH; assumption|].
      rewrite Forall_forall in *. intros z Hz.
      apply Push_elem_of in Hz. destruct Hz as [->|Hz]; [lia|].
      apply Hall, Hz.
Qed.

Lemma fold_Push_Permutation (l acc : nonceHeap.t) :
  fold_left heap.Push l acc ≡ₚ acc ++ l.
Proof.
  revert acc. induction l as [|x l IH]; intros acc; simpl.
  - rewrite app_nil_r. reflexivity.
  - rewrite IH, Push_Permutation. rewrite <- Permutation_middle. reflexivity.
Qed.

Lemma fold_Push_ascending (l acc : nonceHeap.t) :
  StronglySorted Z.lt acc -> NoDup (acc ++ l) ->
  StronglySorted Z.lt (fold_left heap.Push l acc).
Proof.
  revert acc. induction l as [|x l IH]; intros acc Hs Hnd; simpl; [exact Hs|].
  apply IH.
  - apply Push_ascending; [exact Hs|].
    apply NoDup_app in Hnd. destruct Hnd as (_ & Hd & _).
    intros Hx. apply (Hd x Hx). left.
  - rewrite Push_Permutation. rewrite <- Permutation_middle in Hnd. exact Hnd.
Qed.

Lemma Init_Permutation (h : nonceHeap.t) : heap.Init h ≡ₚ h.
Proof. unfold heap.Init. rewrite fold_Push_Permutation. reflexivity. Qed.

Lemma Init_ascending (h : nonceHeap.t) :
  NoDup h -> StronglySorted Z.lt (heap.Init h).
Proof. intros H. apply fold_Push_ascending; [constructor|exact H]. Qed.

(** An ascending list is determined by its elements. *)
Lemma ascending_unique (l1 l2 : list Z) :
  StronglySorted Z.lt l1 -> StronglySorted Z.lt l2 ->
  (forall x, x ∈ l1 <-> x ∈ l2) -> l1 = l2.
Proof.
  revert l2. induction l1 as [|a l1 IH]; intros l2 H1 H2 Hel.
  - destruct l2 as [|b l2]; [reflexivity|].
    exfalso. apply (not_elem_of_nil b), Hel. left.
  - destruct l2 as [|b l2].
    { exfalso. apply (not_elem_of_nil a), Hel. left. }
    apply StronglySorted_inv in H1. destruct H1 as (H1 & Ha).
    apply StronglySorted_inv in H2. destruct H2 as (H2 & Hb).
    rewrite Forall_forall in Ha, Hb.
    assert (a = b).
    { assert (Hab : a ∈ b :: l2) by (apply Hel; left).
      assert (Hba : b ∈ a :: l1) by (apply Hel; left).
      apply elem_of_cons in Hab. apply elem_of_cons in Hba.
      destruct Hab as [?|Hab]; [assumption|]. destruct Hba as [?|Hba]; [congruence|].
      apply Hb in Hab. apply Ha in Hba. lia. }
    subst b. f_equal. apply IH; try assumption.
    intros x. specialize (Hel x). rewrite !elem_of_cons in Hel.
    split; intros Hx.
    + destruct (proj1 Hel (or_intror Hx)) as [->|?]; [|assumption].
      apply Ha in Hx. lia.
    + destruct (proj2 Hel (or_intror Hx)) as [->|?]; [|assumption].
      apply Hb in Hx. lia.
Qed.

Lemma ascending_NoDup (l : list Z) : StronglySorted Z.lt l -> NoDup l.
Proof.
  induction l as [|a l IH]; intros H; [constructor|].
  apply StronglySorted_inv in H. destruct H as (H & Ha).
  constructor; [|apply IH, H].
  intros Hin. rewrite Forall_forall in Ha. apply Ha in Hin. lia.
Qed.

Lemma map_as_fmap {A B : Type} (f : A -> B) (l : list A) : map f l = f <$> l.
Proof. induction l as [|a l IH]; [reflexivity|]. cbn. rewrite IH. reflexivity. Qed.

Lemma elem_of_list_map {A B : Type} (f : A -> B) (l : list A) (y : B) :
  y ∈ map f l <-> exists x, y = f x /\ x ∈ l.
Proof. rewrite map_as_fmap. apply list_elem_of_fmap. Qed.

Lemma elem_of_take_1 {A : Type} (x : A) (k : nat) (l : list A) :
  x ∈ take k l -> x ∈ l.
Proof.
  intros H. rewrite <- (take_drop k l). apply elem_of_app. left. exact H.
Qed.

Lemma elem_of_drop_1 {A : Type} (x : A) (k : nat) (l : list A) :
  x ∈ drop k l -> x ∈ l.
Proof.
  intros H. rewrite <- (take_drop k l). apply elem_of_app. right. exact H.
Qed.

(** ** The sorted map *)

Lemma sortedMapInv_new : sortedMapInv txSortedMap.newTxSortedMap.
Proof.
  split; [constructor|]. split.
  - intros n. cbn. rewrite lookup_empty. split.
    + intros H. apply not_elem_of_nil in H. contradiction.
    + intros [x H]. discriminate.
  - split; [|discriminate]. intros n tx H. cbn in H. rewrite lookup_empty in H.
    discriminate.
Qed.

Lemma sortedMapInv_Put (m : txSortedMap.t) (tx : types.Transaction.t) :
  sortedMapInv m -> 0 <= types.Transaction.Nonce tx <= MaxUint64 ->
  sortedMapInv (txSortedMap.Put m tx).
Proof.
  intros (Hs & Hk & Hn & Hc) Hr. unfold txSortedMap.Put.
  set (nonce := types.Transaction.Nonce tx) in *.
  split; [|split; [|split; [|discriminate]]]; cbn.
  - destruct (txSortedMap.items m !! nonce) eqn:E; [exact Hs|].
    apply Push_ascending; [exact Hs|]. intros Hin. apply Hk in Hin.
    rewrite E in Hin. destruct Hin as [x Hx]. discriminate.
  - intros n. destruct (Z.eq_dec n nonce) as [->|Hne].
    + rewrite lookup_insert_eq. split; [intros _; eexists; reflexivity|]. intros _.
      destruct (txSortedMap.items m !! nonce) eqn:E.
      * apply Hk. rewrite E. eexists; reflexivity.
      * apply Push_elem_of. left. reflexivity.
    + rewrite lookup_insert_ne by congruence. rewrite <- Hk.
      destruct (txSortedMap.items m !! nonce); [reflexivity|].
      rewrite Push_elem_of. split; [intros [?|?]; [contradiction|assumption]|].
      intros H. right. exact H.
  - intros n tx'. destruct (Z.eq_dec n nonce) as [->|Hne].
    + rewrite lookup_insert_eq. intros [= <-]. split; [reflexivity|exact Hr].
    + rewrite lookup_insert_ne by congruence. apply Hn.
Qed.

(** The sorted map of the example satisfies the invariant. *)
Lemma PoolExample_sortedMap_inv : sortedMapInv PoolExample.sortedMap.
Proof.
  unfold PoolExample.sortedMap.
  repeat (apply sortedMapInv_Put; [|vm_compute; split; discriminate]).
  apply sortedMapInv_new.
Qed.

(** X16. [Put] keeps the invariant of the sorted map.  Afterwards the
    nonce of the transaction leads to the transaction and every other nonce
    to what it led to before; the length has grown by one if the nonce was
    free, and is unchanged if a transaction was replaced. *)
Theorem txSortedMap_Put_spec (m : txSortedMap.t) (tx : types.Transaction.t) :
  sortedMapInv m -> 0 <= types.Transaction.Nonce tx <= MaxUint64 ->
  let m' := txSortedMap.Put m tx in
  sortedMapInv m' /\
  (forall n, txSortedMap.Get m' n =
             if n =? types.Transaction.Nonce tx then Some tx else txSortedMap.Get m n) /\
  txSortedMap.Len m' =
    match txSortedMap.Get m (types.Transaction.Nonce tx) with
    | Some _ => txSortedMap.Len m
    | None => txSortedMap.Len m + 1
    end.
Proof.
  intros Hinv Hr m'. split; [apply sortedMapInv_Put; assumption|]. split.
  - intros n. unfold txSortedMap.Get. subst m'. cbn.
    destruct (Z.eqb_spec n (types.Transaction.Nonce tx)) as [->|Hne].
    + apply lookup_insert_eq.
    + apply lookup_insert_ne. congruence.
  - unfold txSortedMap.Len, txSortedMap.Get. subst m'. cbn.
    destruct (txSortedMap.items m !! types.Transaction.Nonce tx) eqn:E.
    + rewrite map_size_insert_Some by (eexists; exact E). reflexivity.
    + rewrite map_size_insert_None by exact E. lia.
Qed.

Lemma txSortedMap_Put_spec_witness :
  txSortedMap.Get (txSortedMap.Put PoolExample.sortedMap (PoolExample.transfer 4 12 21000)) 4
    = Some (PoolExample.transfer 4 12 21000) /\
  txSortedMap.Len (txSortedMap.Put PoolExample.sortedMap (PoolExample.transfer 4 12 21000))
    = 3.
Proof.
  destruct (txSortedMap_Put_spec PoolExample.sortedMap (PoolExample.transfer 4 12 21000)
              PoolExample_sortedMap_inv) as (_ & Hget & Hlen).
  - vm_compute. split; discriminate.
  - split.
    + rewrite Hget. reflexivity.
    + rewrite Hlen. vm_compute. reflexivity.
Defined.

Lemma ascending_delete (l : list Z) (i : nat) (a : Z) :
  StronglySorted Z.lt l -> l !! i = Some a ->
  StronglySorted Z.lt (delete i l) /\
  (forall x, x ∈ delete i l <-> x ∈ l /\ x <> a).
Proof.
  intros Hs Hi. pose proof (take_drop_middle l i a Hi) as Hl.
  rewrite delete_take_drop. rewrite <- Hl in Hs.
  apply StronglySorted_app in Hs. destruct Hs as (Hlt & Hs1 & Hs2).
  apply StronglySorted_inv in Hs2. destruct Hs2 as (Hs2 & Ha).
  rewrite Forall_forall in Ha.
  split.
  - apply StronglySorted_app_2; try assumption.
    intros x1 x2 H1 H2. apply Hlt; [exact H1|]. right. exact H2.
  - intros x.
    assert (Hx : x ∈ l <-> x ∈ take i l \/ x = a \/ x ∈ drop (S i) l).
    { rewrite <- Hl at 1. rewrite elem_of_app, elem_of_cons. reflexivity. }
    rewrite Hx, elem_of_app. split.
    + intros [H|H].
      * split; [left; exact H|]. specialize (Hlt x a H). 
        assert (a ∈ a :: drop (S i) l) by left. specialize (Hlt H0). lia.
      * split; [right; right; exact H|]. specialize (Ha x H). lia.
    + intros ([H|[H|H]] & Hne); [left; exact H|contradiction|right; exact H].
Qed.

(** What [Remove] does to a sorted map; the transaction list removes
    through it. *)
Lemma txSortedMap_Remove_facts (m : txSortedMap.t) (nonce : Z) :
  sortedMapInv m ->
  let found := fst (txSortedMap.Remove m nonce) in
  let m' := snd (txSortedMap.Remove m nonce) in
  sortedMapInv m' /\
  found = match txSortedMap.Get m nonce with Some _ => true | None => false end /\
  (found = false -> m' = m) /\
  (forall n, txSortedMap.Get m' n =
             if n =? nonce then None else txSortedMap.Get m n) /\
  txSortedMap.Len m' = txSortedMap.Len m - (if found then 1 else 0).
Proof.
  intros Hinv found m'. pose proof Hinv as (Hs & Hk & Hn & Hc).
  subst found m'. unfold txSortedMap.Remove, txSortedMap.Get, txSortedMap.Len.
  destruct (txSortedMap.items m !! nonce) as [tx|] eqn:E; cbn [fst snd].
  - assert (Hin : nonce ∈ txSortedMap.index m) by (apply Hk; eexists; exact E).
    destruct (list_find (λ x, x = nonce) (txSortedMap.index m)) as [[i x]|] eqn:Hf.
    2:{ apply list_find_None in Hf. rewrite Forall_forall in Hf.
        exfalso. apply (Hf nonce Hin). reflexivity. }
    apply list_find_Some in Hf. destruct Hf as (Hi & -> & _).
    destruct (ascending_delete _ _ _ Hs Hi) as (Hs' & Hel).
    split; [|split; [reflexivity|split; [discriminate|split]]].
    + split; [exact Hs'|]. split; [|split; [|discriminate]]; cbn.
      * intros n. unfold heap.Remove. rewrite Hel, Hk.
        destruct (Z.eq_dec n nonce) as [->|Hne].
        -- rewrite lookup_delete_eq. split; [intros (_ & H); contradiction|].
           intros [y Hy]. discriminate.
        -- rewrite lookup_delete_ne by congruence. tauto.
      * intros n tx'. destruct (Z.eq_dec n nonce) as [->|Hne].
        -- rewrite lookup_delete_eq. discriminate.
        -- rewrite lookup_delete_ne by congruence. apply Hn.
    + intros n. cbn. destruct (Z.eqb_spec n nonce) as [->|Hne].
      * apply lookup_delete_eq.
      * apply lookup_delete_ne. congruence.
    + cbn. rewrite map_size_delete_Some by (eexists; exact E).
      assert (0 < size (txSortedMap.items m))%nat.
      { destruct (size (txSortedMap.items m)) eqn:Hsz; [|lia].
        apply map_size_empty_inv in Hsz. rewrite Hsz, lookup_empty in E. discriminate. }
      lia.
  - split; [exact Hinv|]. split; [reflexivity|]. split; [reflexivity|]. split; [|lia].
    intros n. destruct (Z.eqb_spec n nonce) as [->|Hne]; [exact E|reflexivity].
Qed.

(** X17. [Remove] keeps the invariant of the sorted map and reports
    whether the nonce was in the map.  If it was not, the map is unchanged.
    Afterwards the nonce leads to nothing and every other nonce to what it
    led to before; the length has dropped by one if the nonce was found. *)
Theorem txSortedMap_Remove_spec (m : txSortedMap.t) (nonce : Z) :
  sortedMapInv m ->
  let found := fst (txSortedMap.Remove m nonce) in
  let m' := snd (txSortedMap.Remove m nonce) in
  sortedMapInv m' /\
  found = match txSortedMap.Get m nonce with Some _ => true | None => false end /\
  (found = false -> m' = m) /\
  (forall n, txSortedMap.Get m' n =
             if n =? nonce then None else txSortedMap.Get m n) /\
  txSortedMap.Len m' = txSortedMap.Len m - (if found then 1 else 0).
Proof. exact (txSortedMap_Remove_facts m nonce). Qed.

Lemma txSortedMap_Remove_spec_witness :
  fst (txSortedMap.Remove PoolExample.sortedMap 4) = true /\
  txSortedMap.Get (snd (txSortedMap.Remove PoolExample.sortedMap 4)) 4 = None /\
  txSortedMap.Len (snd (txSortedMap.Remove PoolExample.sortedMap 4)) = 2.
Proof.
  destruct (txSortedMap_Remove_spec PoolExample.sortedMap 4 PoolExample_sortedMap_inv)
    as (_ & Hfound & _ & Hget & Hlen).
  assert (Hf : fst (txSortedMap.Remove PoolExample.sortedMap 4) = true)
    by (rewrite Hfound; vm_compute; reflexivity).
  split; [exact Hf|]. split.
  - rewrite Hget. reflexivity.
  - rewrite Hlen, Hf. vm_compute. reflexivity.
Defined.

(** The loop of [Filter] over the entries of a map: what it collects, and
    what it leaves in the map. *)
Lemma Filter_fold (f : types.Transaction.t -> bool)
    (l : list (Z * types.Transaction.t)) :
  forall (r0 : list types.Transaction.t) (it0 : gmap Z types.Transaction.t),
    let r := fold_left (fun acc p =>
                 if f (snd p) then (fst acc ++ [snd p], delete (fst p) (snd acc))
                 else acc) l (r0, it0) in
    fst r = r0 ++ map snd (filter (fun p => f (snd p) = true) l) /\
    forall n, snd r !! n =
              if existsb (fun p => (fst p =? n) && f (snd p)) l
              then None else it0 !! n.
Proof.
  induction l as [|[k v] l IH]; intros r0 it0.
  - cbn. rewrite app_nil_r. split; reflexivity.
  - cbn [fold_left fst snd existsb]. rewrite filter_cons. cbn [snd].
    destruct (f v) eqn:Hf.
    + specialize (IH (r0 ++ [v]) (delete k it0)). cbv zeta in IH.
      destruct IH as (IH1 & IH2). split.
      * rewrite IH1. rewrite decide_True by reflexivity. cbn [map snd].
        rewrite <- app_assoc. reflexivity.
      * intros n. rewrite IH2. rewrite andb_true_r.
        destruct (existsb _ l); [rewrite orb_true_r; reflexivity|].
        rewrite orb_false_r. destruct (Z.eqb_spec k n) as [->|Hne].
        -- apply lookup_delete_eq.
        -- apply lookup_delete_ne. exact Hne.
    + specialize (IH r0 it0). cbv zeta in IH. destruct IH as (IH1 & IH2). split.
      * rewrite IH1. rewrite decide_False by discriminate. reflexivity.
      * intros n. rewrite IH2. rewrite andb_false_r. reflexivity.
Qed.

Lemma existsb_entries (f : types.Transaction.t -> bool)
    (items : gmap Z types.Transaction.t) (n : Z) :
  existsb (fun p => (fst p =? n) && f (snd p)) (map_to_list items) =
  match items !! n with Some tx => f tx | None => false end.
Proof.
  destruct (existsb _ _) eqn:E.
  - apply existsb_exists in E. destruct E as ([k v] & Hin & Hp).
    apply list_elem_of_In, elem_of_map_to_list in Hin. cbn in Hp.
    apply andb_prop in Hp. destruct Hp as (Hk & Hf). apply Z.eqb_eq in Hk. subst k.
    rewrite Hin. symmetry. exact Hf.
  - destruct (items !! n) as [tx|] eqn:Hl; [|reflexivity].
    destruct (f tx) eqn:Hf; [|reflexivity].
    rewrite <- E. apply existsb_exists. exists (n, tx). split.
    + apply list_elem_of_In, elem_of_map_to_list. exact Hl.
    + cbn. rewrite Z.eqb_refl. exact Hf.
Qed.

(** What [Filter] leaves in the map and what it returns. *)
Lemma Filter_items (m : txSortedMap.t) (f : types.Transaction.t -> bool) :
  let r := txSortedMap.Filter m f in
  (forall n, txSortedMap.items (snd r) !! n =
             match txSortedMap.items m !! n with
             | Some tx => if f tx then None else Some tx
             | None => None
             end) /\
  fst r = map snd (filter (fun p => f (snd p) = true) (map_to_list (txSortedMap.items m))) /\
  (fst r = [] -> snd r = m) /\
  (fst r <> [] ->
   txSortedMap.index (snd r) =
     heap.Init (map fst (map_to_list (txSortedMap.items (snd r)))) /\
   txSortedMap.cache (snd r) = None).
Proof.
  cbv zeta. unfold txSortedMap.Filter.
  pose proof (Filter_fold f (map_to_list (txSortedMap.items m)) []
                (txSortedMap.items m)) as Hfold.
  cbv zeta in Hfold.
  destruct (fold_left _ _ _) as [removed items'] eqn:Ef.
  cbn [fst snd] in Hfold. destruct Hfold as (Hr & Hl). cbn [app] in Hr.
  assert (Hitems : forall n, items' !! n =
            match txSortedMap.items m !! n with
            | Some tx => if f tx then None else Some tx
            | None => None
            end).
  { intros n. rewrite Hl, existsb_entries.
    destruct (txSortedMap.items m !! n) as [tx|]; [|reflexivity].
    destruct (f tx); reflexivity. }
  destruct removed as [|tx removed]; cbn [length Nat.ltb Nat.leb fst snd].
  - split; [exact Hitems|]. split; [exact Hr|]. split; [|congruence].
    intros _. destruct m as [items index cache]. cbn in *. f_equal.
    apply map_eq. intros n. rewrite Hitems.
    destruct (items !! n) as [tx|] eqn:E; [|reflexivity].
    destruct (f tx) eqn:Hf; [|reflexivity]. exfalso.
    assert (Hin : tx ∈ map snd (filter (fun p => f (snd p) = true) (map_to_list items))).
    { apply elem_of_list_map. exists (n, tx). split; [reflexivity|].
      apply list_elem_of_filter. split; [exact Hf|]. apply elem_of_map_to_list. exact E. }
    rewrite <- Hr in Hin. apply not_elem_of_nil in Hin. exact Hin.
  - split; [exact Hitems|]. split; [exact Hr|]. split; [discriminate|].
    intros _. split; reflexivity.
Qed.

(** The nonces of the map, as the entries of the map give them. *)
Lemma keys_of_items (m : txSortedMap.t) (n : Z) :
  n ∈ map fst (map_to_list (txSortedMap.items m)) <->
  is_Some (txSortedMap.items m !! n).
Proof.
  rewrite elem_of_list_map. split.
  - intros ([k v] & -> & H). apply elem_of_map_to_list in H. eexists; exact H.
  - intros [v H]. exists (n, v). split; [reflexivity|].
    apply elem_of_map_to_list. exact H.
Qed.

Lemma NoDup_keys (items : gmap Z types.Transaction.t) :
  NoDup (map fst (map_to_list items)).
Proof. rewrite map_as_fmap. apply NoDup_fst_map_to_list. Qed.

Lemma index_length (m : txSortedMap.t) :
  sortedMapInv m -> length (txSortedMap.index m) = size (txSortedMap.items m).
Proof.
  intros (Hs & Hk & _). rewrite <- length_map_to_list.
  rewrite <- (length_map fst (map_to_list (txSortedMap.items m))).
  apply Permutation_length, NoDup_Permutation.
  - apply ascending_NoDup, Hs.
  - apply NoDup_keys.
  - intros n. rewrite Hk, keys_of_items. reflexivity.
Qed.

(** What [Filter] does to a sorted map; the transaction list filters
    through it. *)
Lemma txSortedMap_Filter_facts (m : txSortedMap.t) (f : types.Transaction.t -> bool) :
  sortedMapInv m ->
  let removed := fst (txSortedMap.Filter m f) in
  let m' := snd (txSortedMap.Filter m f) in
  sortedMapInv m' /\
  (forall n, txSortedMap.Get m' n =
             match txSortedMap.Get m n with
             | Some tx => if f tx then None else Some tx
             | None => None
             end) /\
  (forall tx, tx ∈ removed <->
              txSortedMap.Get m (types.Transaction.Nonce tx) = Some tx /\ f tx = true).
Proof.
  intros Hinv removed m'. pose proof Hinv as (Hs & Hk & Hn & Hc).
  destruct (Filter_items m f) as (Hitems & Hr & Hnil & Hcons).
  fold removed m' in Hitems, Hr, Hnil, Hcons.
  split; [|split].
  - destruct removed as [|tx0 removed0] eqn:Er.
    { rewrite Hnil by reflexivity. exact Hinv. }
    destruct Hcons as (Hidx & Hcache); [discriminate|].
    split; [|split; [|split]].
    + rewrite Hidx. apply Init_ascending, NoDup_keys.
    + intros n. rewrite Hidx, Init_Permutation. apply keys_of_items.
    + intros n tx. rewrite Hitems.
      destruct (txSortedMap.items m !! n) as [tx'|] eqn:E; [|discriminate].
      destruct (f tx'); [discriminate|]. intros [= <-]. apply Hn, E.
    + rewrite Hcache. discriminate.
  - exact Hitems.
  - intros tx. rewrite Hr. rewrite elem_of_list_map. unfold txSortedMap.Get. split.
    + intros ([k v] & -> & H). apply list_elem_of_filter in H. cbn [snd] in *.
      destruct H as (Hf & H). apply elem_of_map_to_list in H.
      destruct (Hn k v H) as (Hkv & _). rewrite Hkv. split; assumption.
    + intros (H & Hf). exists (types.Transaction.Nonce tx, tx). split; [reflexivity|].
      apply list_elem_of_filter. split; [exact Hf|]. apply elem_of_map_to_list, H.
Qed.

(** X18. [Filter] keeps the invariant of the sorted map.  It leaves in
    the map exactly the transactions for which the function is false, and
    it returns exactly the transactions of the map for which the function is
    true. *)
Theorem txSortedMap_Filter_spec (m : txSortedMap.t) (f : types.Transaction.t -> bool) :
  sortedMapInv m ->
  let removed := fst (txSortedMap.Filter m f) in
  let m' := snd (txSortedMap.Filter m f) in
  sortedMapInv m' /\
  (forall n, txSortedMap.Get m' n =
             match txSortedMap.Get m n with
             | Some tx => if f tx then None else Some tx
             | None => None
             end) /\
  (forall tx, tx ∈ removed <->
              txSortedMap.Get m (types.Transaction.Nonce tx) = Some tx /\ f tx = true).
Proof. exact (txSortedMap_Filter_facts m f). Qed.

Lemma txSortedMap_Filter_spec_witness :
  sortedMapInv
    (snd (txSortedMap.Filter PoolExample.sortedMap
            (fun tx => 30000 <? PoolExample.Gas tx))) /\
  PoolExample.transfer 4 10 50000
    ∈ fst (txSortedMap.Filter PoolExample.sortedMap
             (fun tx => 30000 <? PoolExample.Gas tx)).
Proof.
  destruct (txSortedMap_Filter_spec PoolExample.sortedMap (fun tx => 30000 <? PoolExample.Gas tx)
              PoolExample_sortedMap_inv) as (Hinv & _ & Hrem).
  split; [exact Hinv|]. apply Hrem. split; vm_compute; reflexivity.
Defined.

(** ** Sorting by nonce *)

Lemma insertByNonce_Permutation (tx : types.Transaction.t)
    (l : list types.Transaction.t) :
  sort.insertByNonce tx l ≡ₚ tx :: l.
Proof.
  induction l as [|y r IH]; cbn; [reflexivity|].
  destruct (_ <=? _); [reflexivity|]. rewrite IH. apply Permutation_swap.
Qed.

Lemma TxByNonce_Permutation (l : list types.Transaction.t) : sort.TxByNonce l ≡ₚ l.
Proof.
  induction l as [|tx l IH]; cbn; [reflexivity|].
  rewrite insertByNonce_Permutation. rewrite IH. reflexivity.
Qed.

Lemma insertByNonce_sorted (tx : types.Transaction.t) (l : list types.Transaction.t) :
  StronglySorted Z.le (map types.Transaction.Nonce l) ->
  StronglySorted Z.le (map types.Transaction.Nonce (sort.insertByNonce tx l)).
Proof.
  induction l as [|y r IH]; cbn; intros Hs.
  - repeat constructor.
  - apply StronglySorted_inv in Hs. destruct Hs as (Hr & Hall).
    destruct (Z.leb_spec (types.Transaction.Nonce tx) (types.Transaction.Nonce y)).
    + cbn. constructor; [constructor; assumption|].
      constructor; [assumption|]. rewrite Forall_forall in *. intros z Hz.
      specialize (Hall z Hz). lia.
    + cbn. constructor; [apply IH; assumption|].
      rewrite Forall_forall in *. intros z Hz.
      apply elem_of_list_map in Hz. destruct Hz as (x & -> & Hx).
      rewrite insertByNonce_Permutation in Hx. apply elem_of_cons in Hx.
      destruct Hx as [->|Hx]; [lia|]. apply Hall. apply elem_of_list_map.
      exists x. split; [reflexivity|exact Hx].
Qed.

Lemma TxByNonce_sorted (l : list types.Transaction.t) :
  StronglySorted Z.le (map types.Transaction.Nonce (sort.TxByNonce l)).
Proof.
  induction l as [|tx l IH]; cbn; [constructor|]. apply insertByNonce_sorted, IH.
Qed.

Lemma ascending_le_NoDup (l : list Z) :
  StronglySorted Z.le l -> NoDup l -> StronglySorted Z.lt l.
Proof.
  induction l as [|a l IH]; intros Hs Hnd; [constructor|].
  apply StronglySorted_inv in Hs. destruct Hs as (Hs & Ha).
  apply NoDup_cons in Hnd. destruct Hnd as (Hnin & Hnd).
  constructor; [apply IH; assumption|].
  rewrite Forall_forall in *. intros x Hx. specialize (Ha x Hx).
  assert (x <> a) by (intros ->; contradiction). lia.
Qed.

(** The transactions of a map, sorted by nonce, are the transactions at the
    nonces of the heap, in the order of the heap. *)
Lemma sorted_values (m : txSortedMap.t) :
  sortedMapInv m ->
  map Some (sort.TxByNonce (map snd (map_to_list (txSortedMap.items m)))) =
  map (fun n => txSortedMap.items m !! n) (txSortedMap.index m).
Proof.
  intros (Hs & Hk & Hn & _).
  set (vals := map snd (map_to_list (txSortedMap.items m))).
  set (c := sort.TxByNonce vals).
  assert (Hperm : c ≡ₚ vals) by apply TxByNonce_Permutation.
  assert (Hstored : forall tx, tx ∈ c ->
            txSortedMap.items m !! types.Transaction.Nonce tx = Some tx).
  { intros tx Hin. rewrite Hperm in Hin. apply elem_of_list_map in Hin.
    destruct Hin as ([k v] & -> & H). apply elem_of_map_to_list in H.
    cbn [snd]. destruct (Hn k v H) as (Hkv & _). rewrite Hkv. exact H. }
  assert (Hkeys : map types.Transaction.Nonce vals
                  = map fst (map_to_list (txSortedMap.items m))).
  { subst vals. rewrite map_map. apply map_ext_in. intros [k v] Hin.
    apply list_elem_of_In, elem_of_map_to_list in Hin. apply Hn in Hin.
    cbn. apply Hin. }
  assert (Hnonces : map types.Transaction.Nonce c = txSortedMap.index m).
  { apply ascending_unique; [|exact Hs|].
    - apply ascending_le_NoDup; [apply TxByNonce_sorted|].
      rewrite map_as_fmap, Hperm, <- map_as_fmap, Hkeys. apply NoDup_keys.
    - intros n. rewrite Hk, <- keys_of_items, <- Hkeys.
      rewrite !map_as_fmap, Hperm. reflexivity. }
  rewrite <- Hnonces, map_map. apply map_ext_in. intros tx Hin.
  symmetry. apply Hstored, list_elem_of_In, Hin.
Qed.

(** What a cache that is in the order of the heap holds. *)
Lemma cache_facts (m : txSortedMap.t) (c : list types.Transaction.t) :
  sortedMapInv m ->
  map Some c = map (fun n => txSortedMap.items m !! n) (txSortedMap.index m) ->
  map types.Transaction.Nonce c = txSortedMap.index m /\
  (forall tx, tx ∈ c <->
              txSortedMap.items m !! types.Transaction.Nonce tx = Some tx).
Proof.
  intros (Hs & Hk & Hn & _) Hc.
  assert (Hnonces : map types.Transaction.Nonce c = txSortedMap.index m).
  { revert Hc. generalize (txSortedMap.index m). induction c as [|tx c IH];
      intros [|n idx] Hc; try discriminate; [reflexivity|].
    cbn in Hc. injection Hc as Htx Hc. cbn. f_equal.
    - symmetry in Htx. apply Hn in Htx. apply Htx.
    - apply IH, Hc. }
  split; [exact Hnonces|]. intros tx. split.
  - intros Hin. apply list_elem_of_lookup in Hin. destruct Hin as (i & Hi).
    assert (H1 : map Some c !! i = Some (Some tx))
      by (rewrite map_as_fmap, list_lookup_fmap, Hi; reflexivity).
    rewrite Hc, map_as_fmap, list_lookup_fmap in H1.
    apply fmap_Some in H1. destruct H1 as (n & En & H1). symmetry in H1.
    destruct (Hn n tx H1) as (-> & _). exact H1.
  - intros Hst. assert (Hin : types.Transaction.Nonce tx ∈ txSortedMap.index m)
      by (apply Hk; eexists; exact Hst).
    apply list_elem_of_lookup in Hin. destruct Hin as (i & Hi).
    assert (H1 : map (fun n => txSortedMap.items m !! n) (txSortedMap.index m) !! i
                 = Some (Some tx))
      by (rewrite map_as_fmap, list_lookup_fmap, Hi; cbn; rewrite Hst; reflexivity).
    rewrite <- Hc, map_as_fmap, list_lookup_fmap in H1.
    apply fmap_Some in H1. destruct H1 as (tx' & Ec & [= ->]).
    apply list_elem_of_lookup. exists i. exact Ec.
Qed.

(** X19. [Flatten] returns exactly the transactions of the map, in the
    strict order of their nonces, as many as the map holds.  It keeps the
    invariant and the contents of the map, and a second call returns the
    same list. *)
Theorem txSortedMap_Flatten_spec (m : txSortedMap.t) :
  sortedMapInv m ->
  let txs := fst (txSortedMap.Flatten m) in
  let m' := snd (txSortedMap.Flatten m) in
  StronglySorted Z.lt (map types.Transaction.Nonce txs) /\
  (forall tx, tx ∈ txs <->
              txSortedMap.Get m (types.Transaction.Nonce tx) = Some tx) /\
  Z.of_nat (length txs) = txSortedMap.Len m /\
  sortedMapInv m' /\
  (forall n, txSortedMap.Get m' n = txSortedMap.Get m n) /\
  txSortedMap.Flatten m' = (txs, m').
Proof.
  intros Hinv txs m'. pose proof Hinv as (Hs & Hk & Hn & Hc).
  assert (Hcoh : map Some txs
                 = map (fun n => txSortedMap.items m !! n) (txSortedMap.index m)).
  { subst txs. unfold txSortedMap.Flatten. cbn [fst].
    destruct (txSortedMap.cache m) as [c|] eqn:Ec.
    - apply Hc. reflexivity.
    - apply sorted_values, Hinv. }
  destruct (cache_facts m txs Hinv Hcoh) as (Hnonces & Hel).
  split; [rewrite Hnonces; exact Hs|]. split; [exact Hel|]. split.
  { unfold txSortedMap.Len. rewrite <- index_length by exact Hinv.
    rewrite <- Hnonces, length_map. reflexivity. }
  split; [|split].
  - split; [exact Hs|]. split; [exact Hk|]. split; [exact Hn|].
    intros c [= <-]. exact Hcoh.
  - reflexivity.
  - reflexivity.
Qed.

Lemma txSortedMap_Flatten_spec_witness :
  StronglySorted Z.lt
    (map types.Transaction.Nonce (fst (txSortedMap.Flatten PoolExample.sortedMap))) /\
  Z.of_nat (length (fst (txSortedMap.Flatten PoolExample.sortedMap))) = 3.
Proof.
  destruct (txSortedMap_Flatten_spec PoolExample.sortedMap PoolExample_sortedMap_inv)
    as (Hsorted & _ & Hlen & _).
  split; [exact Hsorted|]. rewrite Hlen. vm_compute. reflexivity.
Defined.

(** ** Taking transactions off the front of the sorted map *)

(** The lookups of nonces that are all in the map. *)
Lemma lookups_Some (items : gmap Z types.Transaction.t) (ns : list Z) :
  (forall n, n ∈ ns -> is_Some (items !! n)) ->
  (forall n tx, items !! n = Some tx -> types.Transaction.Nonce tx = n) ->
  exists txs,
    map (fun n => items !! n) ns = map Some txs /\
    map types.Transaction.Nonce txs = ns /\
    (forall tx, tx ∈ txs <->
                items !! types.Transaction.Nonce tx = Some tx /\
                types.Transaction.Nonce tx ∈ ns).
Proof.
  intros Hin Hn. induction ns as [|n ns IH].
  - exists []. split; [reflexivity|]. split; [reflexivity|]. intros tx. split.
    + intros Hx. apply not_elem_of_nil in Hx. contradiction.
    + intros (_ & Hx). apply not_elem_of_nil in Hx. contradiction.
  - destruct IH as (txs & Hl & Hnonces & Hel).
    { intros k Hk. apply Hin. right. exact Hk. }
    destruct (Hin n) as [tx Htx]; [left|].
    exists (tx :: txs). cbn. rewrite Htx, Hl, Hnonces, (Hn n tx Htx).
    split; [reflexivity|]. split; [reflexivity|].
    intros tx'. rewrite !elem_of_cons, Hel. split.
    + intros [->|(H1 & H2)].
      * rewrite (Hn n tx Htx). split; [exact Htx|left; reflexivity].
      * split; [exact H1|right; exact H2].
    + intros (H1 & [H2|H2]).
      * left. rewrite H2 in H1. congruence.
      * right. split; assumption.
Qed.

Lemma map_lookup_ext (items items' : gmap Z types.Transaction.t) (ns : list Z) :
  (forall n, n ∈ ns -> items' !! n = items !! n) ->
  map (fun n => items' !! n) ns = map (fun n => items !! n) ns.
Proof.
  intros H. apply map_ext_in. intros n Hn. apply H, list_elem_of_In, Hn.
Qed.

(** The loop of [Forward] on an ascending heap takes the nonces below the
    threshold off its front. *)
Lemma forwardLoop_spec (threshold : Z) (index : nonceHeap.t) :
  forall (fuel : nat) (items : gmap Z types.Transaction.t)
         (removed : list (option types.Transaction.t)),
    StronglySorted Z.lt index -> (length index <= fuel)%nat ->
    exists pre post items',
      index = pre ++ post /\
      Forall (fun n => n < threshold) pre /\
      Forall (fun n => threshold <= n) post /\
      txSortedMap.forwardLoop fuel threshold items index removed =
        Done (items', post, removed ++ map (fun n => items !! n) pre) /\
      (forall n, items' !! n = if decide (n ∈ pre) then None else items !! n).
Proof.
  induction index as [|first rest IH]; intros fuel items removed Hs Hfuel.
  - exists [], [], items. cbn. rewrite app_nil_r.
    repeat split; try constructor. destruct fuel; reflexivity.
  - apply StronglySorted_inv in Hs. destruct Hs as (Hs & Hfirst).
    rewrite Forall_forall in Hfirst.
    destruct (Z.ltb_spec first threshold) as [Hlt|Hge].
    + destruct fuel as [|fuel]; [cbn in Hfuel; lia|].
      destruct (IH fuel (delete first items) (removed ++ [items !! first]) Hs)
        as (pre & post & items' & Hidx & Hpre & Hpost & Hloop & Hlook).
      { cbn in Hfuel. lia. }
      assert (Hnin : first ∉ rest).
      { intros Hin. specialize (Hfirst first Hin). lia. }
      exists (first :: pre), post, items'.
      split; [cbn; rewrite Hidx; reflexivity|].
      split; [constructor; assumption|]. split; [exact Hpost|]. split.
      * cbn [txSortedMap.forwardLoop]. apply Z.ltb_lt in Hlt. rewrite Hlt.
        cbn [heap.Pop bind]. rewrite Hloop. rewrite <- app_assoc. cbn [app map].
        f_equal. f_equal. f_equal. f_equal. apply map_lookup_ext.
        intros n Hn. apply lookup_delete_ne. intros ->. apply Hnin.
        rewrite Hidx. apply elem_of_app. left. exact Hn.
      * intros n. rewrite Hlook.
        destruct (decide (n ∈ pre)) as [Hin|Hin].
        -- rewrite decide_True; [reflexivity|]. right. exact Hin.
        -- destruct (Z.eq_dec n first) as [->|Hne].
           ++ rewrite lookup_delete_eq. rewrite decide_True; [reflexivity|]. left.
           ++ rewrite lookup_delete_ne by congruence.
              rewrite decide_False; [reflexivity|]. intros H.
              apply elem_of_cons in H. destruct H; contradiction.
    + exists [], (first :: rest), items. cbn [app map].
      split; [reflexivity|]. split; [constructor|]. split.
      * constructor; [exact Hge|]. rewrite Forall_forall. intros n Hn.
        specialize (Hfirst n Hn). lia.
      * split.
        -- destruct fuel; cbn [txSortedMap.forwardLoop];
             destruct (Z.ltb_spec first threshold); try lia;
             rewrite app_nil_r; reflexivity.
        -- intros n. rewrite decide_False; [reflexivity|]. apply not_elem_of_nil.
Qed.

(** X20. [Forward] on a sorted map that satisfies the invariant does not
    panic.  It removes exactly the transactions with a nonce below the
    threshold and returns them in the strict order of their nonces; the
    invariant is kept. *)
Theorem txSortedMap_Forward_spec (m : txSortedMap.t) (threshold : Z) :
  sortedMapInv m ->
  exists txs m',
    txSortedMap.Forward m threshold = Done (map Some txs, m') /\
    sortedMapInv m' /\
    (forall n, txSortedMap.Get m' n =
               if n <? threshold then None else txSortedMap.Get m n) /\
    StronglySorted Z.lt (map types.Transaction.Nonce txs) /\
    (forall tx, tx ∈ txs <->
                txSortedMap.Get m (types.Transaction.Nonce tx) = Some tx /\
                types.Transaction.Nonce tx < threshold).
Proof.
  intros Hinv. pose proof Hinv as (Hs & Hk & Hn & Hc).
  destruct (forwardLoop_spec threshold (txSortedMap.index m)
              (length (txSortedMap.index m)) (txSortedMap.items m) [] Hs (le_n _))
    as (pre & post & items' & Hidx & Hpre & Hpost & Hloop & Hlook).
  rewrite Forall_forall in Hpre, Hpost.
  assert (Hnd : NoDup (pre ++ post)) by (rewrite <- Hidx; apply ascending_NoDup, Hs).
  apply NoDup_app in Hnd. destruct Hnd as (_ & Hdisj & _).
  destruct (lookups_Some (txSortedMap.items m) pre) as (txs & Hl & Hnonces & Hel).
  { intros n Hin. apply Hk. rewrite Hidx. apply elem_of_app. left. exact Hin. }
  { intros n tx H. apply Hn, H. }
  assert (Hget : forall n, items' !! n =
                           if n <? threshold then None else txSortedMap.items m !! n).
  { intros n. rewrite Hlook. destruct (decide (n ∈ pre)) as [Hin|Hin].
    - specialize (Hpre n Hin). apply Z.ltb_lt in Hpre. rewrite Hpre. reflexivity.
    - destruct (Z.ltb_spec n threshold) as [Hlt|Hge]; [|reflexivity].
      destruct (txSortedMap.items m !! n) as [tx|] eqn:E; [|reflexivity].
      assert (Hi : n ∈ txSortedMap.index m) by (apply Hk; eexists; exact E).
      rewrite Hidx in Hi. apply elem_of_app in Hi. destruct Hi as [Hi|Hi];
        [contradiction|]. specialize (Hpost n Hi). lia. }
  assert (Hs' : StronglySorted Z.lt post).
  { rewrite Hidx in Hs. apply StronglySorted_app_1_r in Hs. exact Hs. }
  assert (Hk' : forall n, n ∈ post <-> is_Some (items' !! n)).
  { intros n. rewrite Hget. split.
    - intros Hin. specialize (Hpost n Hin).
      destruct (Z.ltb_spec n threshold); [lia|]. apply Hk. rewrite Hidx.
      apply elem_of_app. right. exact Hin.
    - destruct (Z.ltb_spec n threshold) as [Hlt|Hge]; [intros [x Hx]; discriminate|].
      intros H. apply Hk in H. rewrite Hidx in H. apply elem_of_app in H.
      destruct H as [H|H]; [|exact H]. specialize (Hpre n H). lia. }
  assert (Hn' : forall n tx, items' !! n = Some tx ->
                  types.Transaction.Nonce tx = n /\ 0 <= n <= MaxUint64).
  { intros n tx. rewrite Hget. destruct (n <? threshold); [discriminate|]. apply Hn. }
  assert (Hsorted : StronglySorted Z.lt (map types.Transaction.Nonce txs)).
  { rewrite Hnonces. rewrite Hidx in Hs. apply StronglySorted_app_1_l in Hs. exact Hs. }
  assert (Hmem : forall tx, tx ∈ txs <->
            txSortedMap.Get m (types.Transaction.Nonce tx) = Some tx /\
            types.Transaction.Nonce tx < threshold).
  { intros tx. rewrite Hel. unfold txSortedMap.Get. split.
    - intros (H1 & H2). split; [exact H1|apply Hpre, H2].
    - intros (H1 & H2). split; [exact H1|].
      assert (Hi : types.Transaction.Nonce tx ∈ txSortedMap.index m)
        by (apply Hk; eexists; exact H1).
      rewrite Hidx in Hi. apply elem_of_app in Hi. destruct Hi as [Hi|Hi]; [exact Hi|].
      specialize (Hpost _ Hi). lia. }
  unfold txSortedMap.Forward. rewrite Hloop. cbn [bind app]. rewrite Hl.
  destruct (txSortedMap.cache m) as [c|] eqn:Ec.
  - specialize (Hc c eq_refl).
    assert (Hlen : length c = length (pre ++ post)).
    { rewrite <- Hidx. rewrite <- (length_map Some c), Hc, length_map. reflexivity. }
    assert (Hpl : length (map Some txs) = length pre).
    { rewrite <- Hl, length_map. reflexivity. }
    rewrite Hpl. rewrite length_app in Hlen.
    destruct (Nat.leb_spec (length pre) (length c)) as [_|Hbad]; [|lia].
    exists txs. eexists. split; [reflexivity|].
    split; [|split; [exact Hget|split; [exact Hsorted|exact Hmem]]].
    split; [exact Hs'|]. split; [exact Hk'|]. split; [exact Hn'|].
    cbn. intros c' [= <-].
    rewrite map_as_fmap, fmap_drop, <- map_as_fmap, Hc, Hidx, map_app.
    rewrite <- (length_map (fun n => txSortedMap.items m !! n) pre).
    rewrite drop_app_length. apply map_lookup_ext.
    intros n Hin. rewrite Hget. specialize (Hpost n Hin).
    destruct (Z.ltb_spec n threshold); [lia|reflexivity].
  - exists txs. eexists. split; [reflexivity|].
    split; [|split; [exact Hget|split; [exact Hsorted|exact Hmem]]].
    split; [exact Hs'|]. split; [exact Hk'|]. split; [exact Hn'|]. discriminate.
Qed.

Lemma txSortedMap_Forward_spec_witness :
  exists txs m',
    txSortedMap.Forward PoolExample.sortedMap 5 = Done (map Some txs, m') /\
    sortedMapInv m' /\
    txSortedMap.Get m' 4 = None /\
    txSortedMap.Get m' 6 = Some (PoolExample.transfer 6 10 21000).
Proof.
  destruct (txSortedMap_Forward_spec PoolExample.sortedMap 5 PoolExample_sortedMap_inv)
    as (txs & m' & Hrun & Hinv & Hget & _).
  exists txs, m'. split; [exact Hrun|]. split; [exact Hinv|].
  split; rewrite Hget; reflexivity.
Defined.

(** ** The run of consecutive nonces at the front of the sorted map *)

(** The loop of [Ready] on an ascending heap takes the nonces [next],
    [next + 1], ... off its front, as long as they are there. *)
Lemma readyLoop_spec (index : nonceHeap.t) :
  forall (fuel : nat) (next : Z) (items : gmap Z types.Transaction.t)
         (ready : list (option types.Transaction.t)),
    StronglySorted Z.lt index ->
    Forall (fun n => 0 <= n <= MaxUint64) index ->
    (length index <= fuel)%nat ->
    0 <= next <= MaxUint64 ->
    exists (k : nat) items',
      take k index = seqZ next (Z.of_nat k) /\
      (forall n, drop k index !! 0%nat = Some n -> n <> next + Z.of_nat k) /\
      txSortedMap.readyLoop fuel next items index ready =
        Done (items', drop k index,
              ready ++ map (fun n => items !! n) (take k index)) /\
      (forall n, items' !! n = if decide (n ∈ take k index) then None else items !! n).
Proof.
  induction index as [|first rest IH]; intros fuel next items ready Hs Hr Hfuel Hnext.
  - exists 0%nat, items. cbn. rewrite app_nil_r.
    split; [reflexivity|]. split; [discriminate|]. split.
    + destruct fuel; reflexivity.
    + intros n. rewrite decide_False; [reflexivity|]. apply not_elem_of_nil.
  - apply StronglySorted_inv in Hs. destruct Hs as (Hs & Hfirst).
    rewrite Forall_forall in Hfirst.
    apply Forall_cons in Hr. destruct Hr as (Hr0 & Hr).
    destruct (Z.eqb_spec first next) as [->|Hne].
    + destruct fuel as [|fuel]; [cbn in Hfuel; lia|].
      assert (Hnin : next ∉ rest).
      { intros Hin. specialize (Hfirst next Hin). lia. }
      destruct (Z.eq_dec next MaxUint64) as [Hmax|Hmax].
      * (* the nonce wraps around; nothing can follow the largest nonce *)
        assert (rest = []).
        { destruct rest as [|n rest']; [reflexivity|]. exfalso.
          assert (Hn : n ∈ n :: rest') by left.
          specialize (Hfirst n Hn). rewrite Forall_forall in Hr.
          specialize (Hr n Hn). lia. }
        subst rest. exists 1%nat, (delete next items).
        split; [reflexivity|]. split; [discriminate|]. split.
        -- cbn [txSortedMap.readyLoop]. rewrite Z.eqb_refl. cbn [heap.Pop bind snd].
           destruct fuel; reflexivity.
        -- intros n. cbn [take]. destruct (Z.eq_dec n next) as [->|Hne].
           ++ rewrite lookup_delete_eq. rewrite decide_True; [reflexivity|]. left.
           ++ rewrite lookup_delete_ne by congruence.
              rewrite decide_False; [reflexivity|]. intros H.
              apply elem_of_cons in H. destruct H as [H|H]; [contradiction|].
              apply not_elem_of_nil in H. exact H.
      * assert (Hu : uint64 (next + 1) = next + 1).
        { apply uint64_small. unfold MaxUint64 in *. lia. }
        destruct (IH fuel (next + 1) (delete next items) (ready ++ [items !! next])
                    Hs Hr) as (k & items' & Htake & Hhead & Hloop & Hlook).
        { cbn in Hfuel. lia. }
        { unfold MaxUint64 in *. lia. }
        exists (S k), items'. cbn [take drop].
        split.
        { rewrite Htake. rewrite (seqZ_cons next (Z.of_nat (S k))) by lia.
          f_equal. f_equal; lia. }
        split.
        { intros n Hn. specialize (Hhead n Hn). lia. }
        split.
        -- cbn [txSortedMap.readyLoop]. rewrite Z.eqb_refl. cbn [heap.Pop bind snd].
           rewrite Hu, Hloop. rewrite <- app_assoc. cbn [app map].
           f_equal. f_equal. f_equal. f_equal. apply map_lookup_ext.
           intros n Hn. apply lookup_delete_ne. intros ->. apply Hnin.
           apply (elem_of_take_1 _ k), Hn.
        -- intros n. rewrite Hlook.
           destruct (decide (n ∈ take k rest)) as [Hin|Hin].
           ++ rewrite decide_True; [reflexivity|]. right. exact Hin.
           ++ destruct (Z.eq_dec n next) as [->|Hne].
              ** rewrite lookup_delete_eq. rewrite decide_True; [reflexivity|]. left.
              ** rewrite lookup_delete_ne by congruence.
                 rewrite decide_False; [reflexivity|]. intros H.
                 apply elem_of_cons in H. destruct H; contradiction.
    + exists 0%nat, items. cbn [take drop map]. rewrite app_nil_r.
      split; [reflexivity|]. split.
      { intros n [= <-]. lia. }
      split.
      * destruct fuel; cbn [txSortedMap.readyLoop];
          destruct (Z.eqb_spec first next); try contradiction; reflexivity.
      * intros n. rewrite decide_False; [reflexivity|]. apply not_elem_of_nil.
Qed.

(** X21. [Ready] on a sorted map that satisfies the invariant does not
    panic and keeps the invariant; the transactions it returns leave the
    map and the others stay.  If every nonce of the map is above [start],
    nothing is returned and the map is unchanged.  Otherwise the nonces
    returned are consecutive, from the lowest nonce of the map up to the
    first nonce that is not in the map. *)
Theorem txSortedMap_Ready_spec (m : txSortedMap.t) (start : Z) :
  sortedMapInv m ->
  exists txs m',
    txSortedMap.Ready m start = Done (map Some txs, m') /\
    sortedMapInv m' /\
    (forall n, txSortedMap.Get m' n =
               if decide (n ∈ map types.Transaction.Nonce txs) then None
               else txSortedMap.Get m n) /\
    ((forall n, is_Some (txSortedMap.Get m n) -> start < n) -> txs = [] /\ m' = m) /\
    (forall first,
       is_Some (txSortedMap.Get m first) ->
       (forall n, is_Some (txSortedMap.Get m n) -> first <= n) ->
       first <= start ->
       txs <> [] /\
       map types.Transaction.Nonce txs = seqZ first (Z.of_nat (length txs)) /\
       txSortedMap.Get m (first + Z.of_nat (length txs)) = None).
Proof.
  intros Hinv. pose proof Hinv as (Hs & Hk & Hn & Hc).
  unfold txSortedMap.Ready, txSortedMap.Get.
  destruct (txSortedMap.index m) as [|least rest] eqn:Eidx;
    rewrite <- Eidx in Hs, Hk, Hc.
  { (* an empty map *)
    exists [], m. split; [reflexivity|]. split; [exact Hinv|]. split.
    - intros n. rewrite decide_False; [reflexivity|]. apply not_elem_of_nil.
    - split; [intros _; split; reflexivity|].
      intros first Hf. apply Hk in Hf. rewrite Eidx in Hf.
      apply not_elem_of_nil in Hf. contradiction. }
  assert (Hleast : is_Some (txSortedMap.items m !! least)).
  { apply Hk. rewrite Eidx. left. }
  assert (Hmin : forall n, is_Some (txSortedMap.items m !! n) -> least <= n).
  { intros n H. apply Hk in H. rewrite Eidx in H, Hs.
    apply StronglySorted_inv in Hs. destruct Hs as (_ & Hall).
    rewrite Forall_forall in Hall. apply elem_of_cons in H.
    destruct H as [->|H]; [lia|]. specialize (Hall n H). lia. }
  destruct (Z.ltb_spec start least) as [Hlt|Hge].
  { (* the least nonce is above [start] *)
    exists [], m. split; [reflexivity|]. split; [exact Hinv|]. split.
    - intros n. rewrite decide_False; [reflexivity|]. apply not_elem_of_nil.
    - split; [intros _; split; reflexivity|].
      intros first Hf Hfmin Hfs. specialize (Hmin first Hf). lia. }
  assert (Hrange : Forall (fun n => 0 <= n <= MaxUint64) (txSortedMap.index m)).
  { rewrite Forall_forall. intros n Hin. apply Hk in Hin. destruct Hin as [tx Htx].
    apply (Hn n tx Htx). }
  rewrite <- Eidx.
  destruct (readyLoop_spec (txSortedMap.index m) (length (txSortedMap.index m)) least
              (txSortedMap.items m) [] Hs Hrange (le_n _))
    as (k & items' & Htake & Hhead & Hloop & Hlook).
  { rewrite Forall_forall in Hrange. apply Hrange. rewrite Eidx. left. }
  rewrite Hloop. cbn [bind app].
  assert (Hk1 : (1 <= k)%nat).
  { destruct k; [|lia]. exfalso. apply (Hhead least); [|lia].
    rewrite Eidx. reflexivity. }
  assert (Hidx : txSortedMap.index m
                 = take k (txSortedMap.index m) ++ drop k (txSortedMap.index m))
    by (symmetry; apply take_drop).
  assert (Hnd : NoDup (take k (txSortedMap.index m) ++ drop k (txSortedMap.index m)))
    by (rewrite <- Hidx; apply ascending_NoDup, Hs).
  apply NoDup_app in Hnd. destruct Hnd as (_ & Hdisj & _).
  destruct (lookups_Some (txSortedMap.items m) (take k (txSortedMap.index m)))
    as (txs & Hl & Hnonces & Hel).
  { intros n Hin. apply Hk. rewrite Hidx. apply elem_of_app. left. exact Hin. }
  { intros n tx H. apply Hn, H. }
  assert (Hlen : length txs = k).
  { rewrite <- (length_map types.Transaction.Nonce), Hnonces, Htake, length_seqZ. lia. }
  rewrite Hl. exists txs. eexists. split; [reflexivity|].
  split; [|split; [|split]].
  - split; [|split; [|split; [|discriminate]]]; cbn.
    + rewrite Hidx in Hs. apply StronglySorted_app_1_r in Hs. exact Hs.
    + intros n. rewrite Hlook. split.
      * intros Hin. rewrite decide_False.
        -- apply Hk. rewrite Hidx. apply elem_of_app. right. exact Hin.
        -- intros H. apply (Hdisj n H Hin).
      * destruct (decide (n ∈ take k (txSortedMap.index m))) as [Hin|Hin];
          [intros [x Hx]; discriminate|].
        intros H. apply Hk in H. rewrite Hidx in H. apply elem_of_app in H.
        destruct H as [H|H]; [contradiction|exact H].
    + intros n tx. rewrite Hlook. destruct (decide _); [discriminate|]. apply Hn.
  - intros n. cbn. rewrite Hlook, Hnonces.
    destruct (decide (n ∈ take k (txSortedMap.index m))); reflexivity.
  - intros Habove. specialize (Habove least Hleast). lia.
  - intros first Hf Hfmin Hfs.
    assert (first = least).
    { specialize (Hmin first Hf). specialize (Hfmin least Hleast). lia. }
    subst first. split; [destruct txs; [cbn in Hlen; lia|discriminate]|].
    rewrite Hlen. split; [rewrite Hnonces; exact Htake|].
    destruct (txSortedMap.items m !! (least + Z.of_nat k)) as [tx|] eqn:E; [|reflexivity].
    exfalso.
    assert (Hin : least + Z.of_nat k ∈ txSortedMap.index m)
      by (apply Hk; eexists; exact E).
    rewrite Hidx in Hin. apply elem_of_app in Hin. destruct Hin as [Hin|Hin].
    + rewrite Htake in Hin. apply elem_of_seqZ in Hin. lia.
    + (* it is above the run, so the head of the rest is below it and above the run *)
      destruct (drop k (txSortedMap.index m)) as [|h rest'] eqn:Ed.
      { apply not_elem_of_nil in Hin. exact Hin. }
      assert (Hh : h <> least + Z.of_nat k) by (apply Hhead; reflexivity).
      assert (Hhs : StronglySorted Z.lt (h :: rest')).
      { rewrite Hidx in Hs. apply StronglySorted_app_1_r in Hs. exact Hs. }
      apply StronglySorted_inv in Hhs. destruct Hhs as (_ & Hall).
      rewrite Forall_forall in Hall.
      apply elem_of_cons in Hin. destruct Hin as [Hin|Hin]; [congruence|].
      specialize (Hall _ Hin).
      (* [h] is an element of the heap above the run and below [least + k] *)
      assert (Hlast : least + Z.of_nat k - 1 ∈ take k (txSortedMap.index m)).
      { rewrite Htake. apply elem_of_seqZ. lia. }
      assert (Hhin : h ∈ h :: rest') by left.
      rewrite Hidx in Hs.
      pose proof (StronglySorted_app_1_elem_of _ _ _ _ _ Hs Hlast Hhin). lia.
Qed.

Lemma txSortedMap_Ready_spec_witness :
  exists txs m',
    txSortedMap.Ready PoolExample.sortedMap 3 = Done (map Some txs, m') /\
    map types.Transaction.Nonce txs = seqZ 3 (Z.of_nat (length txs)) /\
    txSortedMap.Get PoolExample.sortedMap (3 + Z.of_nat (length txs)) = None.
Proof.
  destruct (txSortedMap_Ready_spec PoolExample.sortedMap 3 PoolExample_sortedMap_inv)
    as (txs & m' & Hrun & _ & _ & _ & Hrunof).
  exists txs, m'. split; [exact Hrun|].
  destruct (Hrunof 3) as (_ & Hseq & Hend).
  - eexists. vm_compute. reflexivity.
  - intros n [tx Htx].
    destruct PoolExample_sortedMap_inv as (Hs & Hk & _).
    assert (Hin : n ∈ txSortedMap.index PoolExample.sortedMap)
      by (apply Hk; eexists; exact Htx).
    vm_compute in Hin.
    repeat (apply elem_of_cons in Hin; destruct Hin as [->|Hin]; [lia|]).
    apply not_elem_of_nil in Hin. contradiction.
  - lia.
  - split; assumption.
Defined.

(** ** Capping the sorted map *)

Lemma Init_ascending_id (h : nonceHeap.t) :
  StronglySorted Z.lt h -> heap.Init h = h.
Proof.
  intros Hs. apply ascending_unique; [|exact Hs|].
  - apply Init_ascending, ascending_NoDup, Hs.
  - intros x. rewrite Init_Permutation. reflexivity.
Qed.

Lemma Sort_ascending_id (h : nonceHeap.t) :
  StronglySorted Z.lt h -> sort.Sort h = h.
Proof. apply Init_ascending_id. Qed.

(** The loop of [Cap] takes [count] nonces off the end of the first [sz]
    nonces of the sorted index, the highest first. *)
Lemma capLoop_spec (index : nonceHeap.t) :
  NoDup index ->
  forall (count sz : nat) (items : gmap Z types.Transaction.t)
         (drops : list (option types.Transaction.t)),
    (sz <= length index)%nat -> (count <= sz)%nat ->
    exists items',
      txSortedMap.capLoop count (Z.of_nat sz) items index drops =
        Done (items',
              drops ++ map (fun n => items !! n)
                           (rev (drop (sz - count) (take sz index)))) /\
      (forall n, items' !! n =
                 if decide (n ∈ drop (sz - count) (take sz index)) then None
                 else items !! n).
Proof.
  intros Hnd. induction count as [|count IH]; intros sz items drops Hsz Hcount.
  - exists items. rewrite Nat.sub_0_r.
    replace (drop sz (take sz index)) with (@nil Z)
      by (symmetry; apply drop_ge; rewrite length_take; lia).
    cbn. rewrite app_nil_r. split; [reflexivity|].
    intros n. rewrite decide_False; [reflexivity|]. apply not_elem_of_nil.
  - destruct sz as [|sz]; [lia|].
    destruct (lookup_lt_is_Some_2 index sz) as [nonce Hnonce]; [lia|].
    destruct (IH sz (delete nonce items) (drops ++ [items !! nonce]))
      as (items' & Hloop & Hlook); [lia|lia|].
    assert (Htake : take (S sz) index = take sz index ++ [nonce])
      by (apply take_S_r, Hnonce).
    assert (Hdrop : drop (S sz - S count) (take (S sz) index)
                    = drop (sz - count) (take sz index) ++ [nonce]).
    { rewrite Htake. replace (S sz - S count)%nat with (sz - count)%nat by lia.
      apply drop_app_le. rewrite length_take. lia. }
    assert (Hnin : nonce ∉ drop (sz - count) (take sz index)).
    { intros Hin. apply elem_of_drop_1 in Hin.
      rewrite <- (take_drop_middle index sz nonce Hnonce) in Hnd.
      apply NoDup_app in Hnd. destruct Hnd as (_ & Hd & _).
      apply (Hd nonce Hin). left. }
    exists items'. split.
    + cbn [txSortedMap.capLoop].
      replace (Z.of_nat (S sz) - 1) with (Z.of_nat sz) by lia.
      destruct (Z.leb_spec 0 (Z.of_nat sz)); [|lia].
      change nonceHeap.t with (list Z) in *.
      rewrite Nat2Z.id, Hnonce, Hloop, Hdrop, rev_unit. cbn [map].
      rewrite <- app_assoc. cbn [app]. f_equal. f_equal. f_equal. f_equal.
      apply map_lookup_ext. intros n Hn. apply lookup_delete_ne. intros ->.
      apply Hnin. apply list_elem_of_In, in_rev, list_elem_of_In, Hn.
    + intros n. rewrite Hlook, Hdrop.
      destruct (decide (n ∈ drop (sz - count) (take sz index))) as [Hin|Hin].
      * rewrite decide_True; [reflexivity|]. apply elem_of_app. left. exact Hin.
      * destruct (Z.eq_dec n nonce) as [->|Hne].
        -- rewrite lookup_delete_eq. rewrite decide_True; [reflexivity|].
           apply elem_of_app. right. left.
        -- rewrite lookup_delete_ne by congruence.
           rewrite decide_False; [reflexivity|]. intros H.
           apply elem_of_app in H. destruct H as [H|H]; [contradiction|].
           apply elem_of_cons in H. destruct H as [H|H]; [contradiction|].
           apply not_elem_of_nil in H. exact H.
Qed.

(** With more passes than nonces the loop of [Cap] runs off the front of
    the index. *)
Lemma capLoop_panics (index : nonceHeap.t) :
  forall (count sz : nat) (items : gmap Z types.Transaction.t)
         (drops : list (option types.Transaction.t)),
    (sz <= length index)%nat -> (sz < count)%nat ->
    txSortedMap.capLoop count (Z.of_nat sz) items index drops = Panicked.
Proof.
  induction count as [|count IH]; intros sz items drops Hsz Hcount; [lia|].
  cbn [txSortedMap.capLoop]. destruct sz as [|sz].
  - reflexivity.
  - replace (Z.of_nat (S sz) - 1) with (Z.of_nat sz) by lia.
    destruct (Z.leb_spec 0 (Z.of_nat sz)); [|lia]. rewrite Nat2Z.id.
    destruct (lookup_lt_is_Some_2 index sz) as [nonce Hnonce]; [lia|].
    change nonceHeap.t with (list Z) in *.
    rewrite Hnonce. apply IH; lia.
Qed.

Lemma descending_rev (l : list Z) :
  StronglySorted Z.lt l -> StronglySorted (fun a b => b < a) (rev l).
Proof.
  induction l as [|a l IH]; intros Hs; [constructor|].
  apply StronglySorted_inv in Hs. destruct Hs as (Hs & Ha). cbn [rev].
  apply StronglySorted_app_2.
  - intros x y Hx Hy. apply list_elem_of_singleton in Hy. subst y.
    rewrite Forall_forall in Ha. apply Ha.
    apply list_elem_of_In, in_rev, list_elem_of_In, Hx.
  - apply IH, Hs.
  - repeat constructor.
Qed.

(** X22. [Cap] with a negative threshold panics.  With a threshold that
    is not negative it keeps the invariant and leaves the lesser of the
    length and the threshold as length; it returns the transactions that
    leave the map, in the descending order of their nonces, and each of them
    has a nonce above every nonce that stays. *)
Theorem txSortedMap_Cap_spec (m : txSortedMap.t) (threshold : Z) :
  sortedMapInv m ->
  (threshold < 0 -> txSortedMap.Cap m threshold = Panicked) /\
  (0 <= threshold ->
   exists txs m',
     txSortedMap.Cap m threshold = Done (map Some txs, m') /\
     sortedMapInv m' /\
     txSortedMap.Len m' = Z.min (txSortedMap.Len m) threshold /\
     Z.of_nat (length txs) = txSortedMap.Len m - txSortedMap.Len m' /\
     StronglySorted (fun a b => b < a) (map types.Transaction.Nonce txs) /\
     (forall n, txSortedMap.Get m' n =
                if decide (n ∈ map types.Transaction.Nonce txs) then None
                else txSortedMap.Get m n) /\
     (forall tx, tx ∈ txs ->
                 txSortedMap.Get m (types.Transaction.Nonce tx) = Some tx) /\
     (forall tx n, tx ∈ txs -> is_Some (txSortedMap.Get m' n) ->
                   n < types.Transaction.Nonce tx)).
Proof.
  intros Hinv. pose proof Hinv as (Hs & Hk & Hn & Hc).
  pose proof (index_length m Hinv) as Hlen.
  unfold txSortedMap.Cap, txSortedMap.Len, txSortedMap.Get.
  rewrite (Sort_ascending_id _ Hs). rewrite <- Hlen.
  set (index := txSortedMap.index m) in *.
  split.
  { intros Hneg. destruct (Z.leb_spec (Z.of_nat (length index)) threshold); [lia|].
    rewrite capLoop_panics; [reflexivity|lia|lia]. }
  intros Hpos.
  destruct (Z.leb_spec (Z.of_nat (length index)) threshold) as [Hle|Hgt].
  { exists [], m. split; [reflexivity|]. split; [exact Hinv|].
    rewrite <- Hlen. fold index. split; [lia|]. split; [cbn; lia|].
    split; [constructor|]. split.
    - intros n. rewrite decide_False; [reflexivity|]. apply not_elem_of_nil.
    - split.
      + intros tx H. apply not_elem_of_nil in H. contradiction.
      + intros tx n H. apply not_elem_of_nil in H. contradiction. }
  set (t := Z.to_nat threshold).
  assert (Ht : (t < length index)%nat) by (subst t; lia).
  assert (Hcount : Z.to_nat (Z.of_nat (length index) - threshold)
                   = (length index - t)%nat) by (subst t; lia).
  rewrite Hcount.
  destruct (capLoop_spec index (ascending_NoDup _ Hs) (length index - t)
              (length index) (txSortedMap.items m) [] (le_n _))
    as (items' & Hloop & Hlook); [lia|].
  replace (length index - (length index - t))%nat with t in Hloop, Hlook by lia.
  rewrite firstn_all in Hloop, Hlook.
  rewrite Hloop. cbn [bind app].
  assert (Hidx : index = take t index ++ drop t index) by (symmetry; apply take_drop).
  assert (Hnd : NoDup (take t index ++ drop t index))
    by (rewrite <- Hidx; apply ascending_NoDup, Hs).
  apply NoDup_app in Hnd. destruct Hnd as (_ & Hdisj & _).
  assert (Hsplit : StronglySorted Z.lt (take t index ++ drop t index))
    by (rewrite <- Hidx; exact Hs).
  pose proof (StronglySorted_app_1_l _ _ _ Hsplit) as Hs1.
  pose proof (StronglySorted_app_1_r _ _ _ Hsplit) as Hs2.
  destruct (lookups_Some (txSortedMap.items m) (rev (drop t index)))
    as (txs & Hl & Hnonces & Hel).
  { intros n Hin. apply Hk. fold index. apply (elem_of_drop_1 _ t).
    apply list_elem_of_In, in_rev, list_elem_of_In, Hin. }
  { intros n tx H. apply Hn, H. }
  rewrite Hl. rewrite (Init_ascending_id _ Hs1).
  assert (Hin_rev : forall n, n ∈ rev (drop t index) <-> n ∈ drop t index).
  { intros n. rewrite !list_elem_of_In. symmetry. apply in_rev. }
  assert (Hk' : forall n, n ∈ take t index <-> is_Some (items' !! n)).
  { intros n. rewrite Hlook. split.
    - intros Hin. rewrite decide_False.
      + apply Hk. fold index. apply (elem_of_take_1 _ t), Hin.
      + intros H. apply (Hdisj n Hin H).
    - destruct (decide (n ∈ drop t index)) as [Hin|Hin];
        [intros [x Hx]; discriminate|].
      intros H. apply Hk in H. fold index in H. rewrite Hidx in H.
      apply elem_of_app in H. destruct H as [H|H]; [exact H|contradiction]. }
  assert (Hn' : forall n tx, items' !! n = Some tx ->
                  types.Transaction.Nonce tx = n /\ 0 <= n <= MaxUint64).
  { intros n tx. rewrite Hlook. destruct (decide _); [discriminate|]. apply Hn. }
  assert (Hdl : length (map Some txs) = (length index - t)%nat).
  { rewrite <- Hl, length_map, length_rev, length_drop. reflexivity. }
  assert (Hfacts :
    forall cache',
      (forall c, cache' = Some c ->
         map Some c = map (fun n => items' !! n) (take t index)) ->
      let m' := {| txSortedMap.items := items'; txSortedMap.index := take t index;
                   txSortedMap.cache := cache' |} in
      sortedMapInv m' /\
      Z.of_nat (size (txSortedMap.items m')) = Z.min (Z.of_nat (length index)) threshold /\
      Z.of_nat (length txs)
        = Z.of_nat (length index) - Z.of_nat (size (txSortedMap.items m')) /\
      StronglySorted (fun a b => b < a) (map types.Transaction.Nonce txs) /\
      (forall n, txSortedMap.items m' !! n =
                 if decide (n ∈ map types.Transaction.Nonce txs) then None
                 else txSortedMap.items m !! n) /\
      (forall tx, tx ∈ txs ->
                  txSortedMap.items m !! types.Transaction.Nonce tx = Some tx) /\
      (forall tx n, tx ∈ txs -> is_Some (txSortedMap.items m' !! n) ->
                    n < types.Transaction.Nonce tx)).
  { intros cache' Hcache m'.
    assert (Hinv' : sortedMapInv m').
    { split; [exact Hs1|]. split; [exact Hk'|]. split; [exact Hn'|exact Hcache]. }
    pose proof (index_length m' Hinv') as Hlen'. cbn in Hlen'.
    rewrite length_take in Hlen'.
    split; [exact Hinv'|]. cbn [txSortedMap.items m'].
    split; [subst t; lia|]. split.
    { rewrite <- (length_map Some), Hdl. lia. }
    split; [rewrite Hnonces; apply descending_rev, Hs2|]. split.
    { intros n. rewrite Hlook, Hnonces.
      destruct (decide (n ∈ drop t index)) as [Hin|Hin].
      - rewrite decide_True; [reflexivity|]. apply Hin_rev, Hin.
      - rewrite decide_False; [reflexivity|]. rewrite Hin_rev. exact Hin. }
    split.
    { intros tx Hin. apply Hel in Hin. apply Hin. }
    intros tx n Hin Hsome. apply Hel in Hin. destruct Hin as (_ & Hin).
    apply Hin_rev in Hin. apply Hk' in Hsome.
    apply (StronglySorted_app_1_elem_of _ _ _ _ _ Hsplit Hsome Hin). }
  destruct (txSortedMap.cache m) as [c|] eqn:Ec.
  - specialize (Hc c eq_refl). fold index in Hc.
    assert (Hclen : length c = length index).
    { rewrite <- (length_map Some c), Hc, length_map. reflexivity. }
    rewrite Hdl, Hclen.
    destruct (Nat.leb_spec (length index - t) (length index)) as [_|Hbad]; [|lia].
    replace (length index - (length index - t))%nat with t by lia.
    exists txs. eexists. split; [reflexivity|]. apply Hfacts.
    intros c' [= <-].
    rewrite map_as_fmap, fmap_take, <- map_as_fmap, Hc.
    rewrite map_as_fmap, <- fmap_take, <- map_as_fmap.
    symmetry. apply map_lookup_ext. intros n Hin. rewrite Hlook.
    rewrite decide_False; [reflexivity|]. intros H. apply (Hdisj n Hin H).
  - exists txs. eexists. split; [reflexivity|]. apply Hfacts. discriminate.
Qed.

Lemma txSortedMap_Cap_spec_witness :
  exists txs m',
    txSortedMap.Cap PoolExample.sortedMap 2 = Done (map Some txs, m') /\
    txSortedMap.Len m' = 2 /\ Z.of_nat (length txs) = 1.
Proof.
  destruct (txSortedMap_Cap_spec PoolExample.sortedMap 2 PoolExample_sortedMap_inv) as (_ & H).
  destruct H as (txs & m' & Hrun & _ & Hlen & Hdrops & _); [lia|].
  exists txs, m'. split; [exact Hrun|].
  assert (Hl : txSortedMap.Len PoolExample.sortedMap = 3) by (vm_compute; reflexivity).
  rewrite Hl in Hlen, Hdrops. split; lia.
Defined.

(** ** The transaction list *)

Section TxListFacts.
Variables GasPrice Gas Cost : types.Transaction.t -> Z.

Lemma txListInv_new (strict : bool) : txListInv Gas Cost (txList.newTxList strict).
Proof.
  split; [apply sortedMapInv_new|]. intros n tx H. cbn in H.
  unfold txSortedMap.Get in H. cbn in H. rewrite lookup_empty in H. discriminate.
Qed.

Lemma int64_small (z : Z) : - 2 ^ 63 <= z < 2 ^ 63 -> int64 z = z.
Proof. intros H. unfold int64. rewrite Z.mod_small by lia. lia. Qed.

(** What [Add] does, case by case. *)
Lemma Add_unfold (l : txList.t) (tx : types.Transaction.t) (priceBump : Z) :
  0 <= priceBump < 2 ^ 63 - 100 ->
  let nonce := types.Transaction.Nonce tx in
  let old := txSortedMap.Get (txList.txs l) nonce in
  let rejected :=
    match old with
    | Some o => (GasPrice tx <=? GasPrice o)
                || (GasPrice tx <? GasPrice o * (100 + priceBump) / 100)
    | None => false
    end in
  txList.Add GasPrice Gas Cost l tx priceBump =
    if rejected then (false, None, l)
    else (true, old,
          {| txList.strict := txList.strict l;
             txList.txs := txSortedMap.Put (txList.txs l) tx;
             txList.costcap := Z.max (txList.costcap l) (Cost tx);
             txList.gascap := Z.max (txList.gascap l) (Gas tx) |}).
Proof.
  intros Hb nonce old rejected. unfold txList.Add. fold nonce. fold old.
  rewrite (int64_small priceBump) by lia. rewrite int64_small by lia.
  unfold big.Div. fold rejected. destruct rejected; [reflexivity|].
  unfold txList.set_txs. cbn.
  destruct (Z.ltb_spec (txList.costcap l) (Cost tx)); cbn;
    destruct (Z.ltb_spec (txList.gascap l) (Gas tx)); cbn;
    repeat f_equal; lia.
Qed.

(** What [Add] does to a transaction list. *)
Lemma txList_Add_facts (l : txList.t) (tx : types.Transaction.t) (priceBump : Z) :
  txListInv Gas Cost l ->
  0 <= types.Transaction.Nonce tx <= MaxUint64 ->
  0 <= priceBump < 2 ^ 63 - 100 ->
  let nonce := types.Transaction.Nonce tx in
  let r := txList.Add GasPrice Gas Cost l tx priceBump in
  let accepted := fst (fst r) in
  let replaced := snd (fst r) in
  let l' := snd r in
  txListInv Gas Cost l' /\
  (accepted = true <->
   match txSortedMap.Get (txList.txs l) nonce with
   | Some old => GasPrice old < GasPrice tx /\
                 GasPrice old * (100 + priceBump) / 100 <= GasPrice tx
   | None => True
   end) /\
  (accepted = false -> replaced = None /\ l' = l) /\
  (accepted = true ->
   replaced = txSortedMap.Get (txList.txs l) nonce /\
   (forall n, txSortedMap.Get (txList.txs l') n =
              if n =? nonce then Some tx else txSortedMap.Get (txList.txs l) n) /\
   Cost tx <= txList.costcap l' /\ Gas tx <= txList.gascap l').
Proof.
  intros (Hinv & Hcaps) Hr Hb nonce r accepted replaced l'.
  subst accepted replaced l' r. rewrite Add_unfold by exact Hb. cbv zeta. fold nonce.
  destruct (txSortedMap.Get (txList.txs l) nonce) as [old|] eqn:Eold.
  - destruct (Z.leb_spec (GasPrice tx) (GasPrice old)) as [Hle|Hgt]; cbn [orb fst snd].
    { split; [split; assumption|]. split; [split; [discriminate|lia]|].
      split; [intros _; split; reflexivity|discriminate]. }
    destruct (Z.ltb_spec (GasPrice tx) (GasPrice old * (100 + priceBump) / 100))
      as [Hlt|Hge]; cbn [fst snd].
    { split; [split; assumption|]. split; [split; [discriminate|lia]|].
      split; [intros _; split; reflexivity|discriminate]. }
    split; [|split; [split; [intros _; split; lia|reflexivity]|
             split; [discriminate|]]].
    + split; [apply sortedMapInv_Put; assumption|]. cbn. intros n tx'.
      unfold txSortedMap.Get, txSortedMap.Put. cbn.
      destruct (Z.eq_dec n nonce) as [->|Hne].
      * rewrite lookup_insert_eq. intros [= <-]. lia.
      * rewrite lookup_insert_ne by (intros E; apply Hne; symmetry; exact E). intros H.
        apply Hcaps in H. lia.
    + intros _. split; [reflexivity|]. split; [|cbn; lia].
      intros n. unfold txSortedMap.Get, txSortedMap.Put. cbn.
      destruct (Z.eqb_spec n nonce) as [->|Hne].
      * apply lookup_insert_eq.
      * apply lookup_insert_ne. intros E. apply Hne. symmetry. exact E.
  - cbn [fst snd].
    split; [|split; [split; [intros _; exact I|reflexivity]|
             split; [discriminate|]]].
    + split; [apply sortedMapInv_Put; assumption|]. cbn. intros n tx'.
      unfold txSortedMap.Get, txSortedMap.Put. cbn.
      destruct (Z.eq_dec n nonce) as [->|Hne].
      * rewrite lookup_insert_eq. intros [= <-]. lia.
      * rewrite lookup_insert_ne by (intros E; apply Hne; symmetry; exact E). intros H.
        apply Hcaps in H. lia.
    + intros _. split; [reflexivity|]. split; [|cbn; lia].
      intros n. unfold txSortedMap.Get, txSortedMap.Put. cbn.
      destruct (Z.eqb_spec n nonce) as [->|Hne].
      * apply lookup_insert_eq.
      * apply lookup_insert_ne. intros E. apply Hne. symmetry. exact E.
Qed.

(** X23. [Add], with a price bump below 2^63 - 100, keeps the invariant
    of the list.  The transaction is accepted exactly when its nonce is
    free, or when its gas price is above the gas price of the transaction
    with this nonce and at least this price raised by the price bump in
    percent (rounded down).  A transaction that is rejected changes
    nothing; one that is accepted takes the place of the old one, which is
    returned, and the caps of the list cover its cost and its gas. *)
Theorem txList_Add_spec (l : txList.t) (tx : types.Transaction.t) (priceBump : Z) :
  txListInv Gas Cost l ->
  0 <= types.Transaction.Nonce tx <= MaxUint64 ->
  0 <= priceBump < 2 ^ 63 - 100 ->
  let nonce := types.Transaction.Nonce tx in
  let r := txList.Add GasPrice Gas Cost l tx priceBump in
  let accepted := fst (fst r) in
  let replaced := snd (fst r) in
  let l' := snd r in
  txListInv Gas Cost l' /\
  (accepted = true <->
   match txSortedMap.Get (txList.txs l) nonce with
   | Some old => GasPrice old < GasPrice tx /\
                 GasPrice old * (100 + priceBump) / 100 <= GasPrice tx
   | None => True
   end) /\
  (accepted = false -> replaced = None /\ l' = l) /\
  (accepted = true ->
   replaced = txSortedMap.Get (txList.txs l) nonce /\
   (forall n, txSortedMap.Get (txList.txs l') n =
              if n =? nonce then Some tx else txSortedMap.Get (txList.txs l) n) /\
   Cost tx <= txList.costcap l' /\ Gas tx <= txList.gascap l').
Proof. exact (txList_Add_facts l tx priceBump). Qed.
End TxListFacts.

(** The list of the example satisfies the invariant. *)
Lemma PoolExample_list_inv :
  txListInv PoolExample.Gas PoolExample.Cost PoolExample.list.
Proof.
  unfold PoolExample.list.
  repeat (apply (txList_Add_facts PoolExample.GasPrice PoolExample.Gas PoolExample.Cost);
          [|vm_compute; split; discriminate|vm_compute; split; [discriminate|reflexivity]]).
  apply txListInv_new.
Qed.

Lemma txList_Add_spec_witness :
  fst (fst (txList.Add PoolExample.GasPrice PoolExample.Gas PoolExample.Cost
              PoolExample.list (PoolExample.transfer 4 10 21000) 10)) = false /\
  fst (fst (txList.Add PoolExample.GasPrice PoolExample.Gas PoolExample.Cost
              PoolExample.list (PoolExample.transfer 4 11 21000) 10)) = true.
Proof.
  split.
  - destruct (txList_Add_spec PoolExample.GasPrice PoolExample.Gas PoolExample.Cost
                PoolExample.list (PoolExample.transfer 4 10 21000) 10
                PoolExample_list_inv) as (_ & Hacc & _).
    + vm_compute. split; discriminate.
    + lia.
    + destruct (fst (fst _)); [|reflexivity].
      apply proj1 in Hacc. specialize (Hacc eq_refl). vm_compute in Hacc.
      destruct Hacc as (Hbad & _). discriminate.
  - destruct (txList_Add_spec PoolExample.GasPrice PoolExample.Gas PoolExample.Cost
                PoolExample.list (PoolExample.transfer 4 11 21000) 10
                PoolExample_list_inv) as (_ & Hacc & _).
    + vm_compute. split; discriminate.
    + lia.
    + apply Hacc. vm_compute. split; [reflexivity|discriminate].
Defined.

(** ** Filtering and removing in the transaction list *)

Section TxListFilter.
Variables Gas Cost : types.Transaction.t -> Z.

(** The lowest nonce of a list of transactions, as [Filter] computes it. *)
Lemma lowest_spec (removed : list types.Transaction.t) :
  forall (init n : Z),
    fold_left (fun lowest tx =>
                 if types.Transaction.Nonce tx <? lowest
                 then types.Transaction.Nonce tx else lowest) removed init < n <->
    init < n \/ exists r, r ∈ removed /\ types.Transaction.Nonce r < n.
Proof.
  induction removed as [|tx removed IH]; intros init n; cbn [fold_left].
  - split; [intros H; left; exact H|]. intros [H|(r & Hr & _)]; [exact H|].
    apply not_elem_of_nil in Hr. contradiction.
  - rewrite IH. split.
    + intros [H|(r & Hr & Hlt)].
      * destruct (Z.ltb_spec (types.Transaction.Nonce tx) init).
        -- right. exists tx. split; [left|exact H].
        -- left. exact H.
      * right. exists r. split; [right; exact Hr|exact Hlt].
    + intros [H|(r & Hr & Hlt)].
      * left. destruct (Z.ltb_spec (types.Transaction.Nonce tx) init); lia.
      * apply elem_of_cons in Hr. destruct Hr as [->|Hr].
        -- left. destruct (Z.ltb_spec (types.Transaction.Nonce tx) init); lia.
        -- right. exists r. split; assumption.
Qed.

(** What is left of a map after [Filter] with the limits of a list. *)
Lemma Filter_limits (m : txSortedMap.t) (costLimit gasLimit : Z) :
  sortedMapInv m ->
  let f := fun tx => (costLimit <? Cost tx) || (gasLimit <? Gas tx) in
  let removed := fst (txSortedMap.Filter m f) in
  let m1 := snd (txSortedMap.Filter m f) in
  sortedMapInv m1 /\
  (forall tx, tx ∈ removed <->
     txSortedMap.Get m (types.Transaction.Nonce tx) = Some tx /\
     (costLimit < Cost tx \/ gasLimit < Gas tx)) /\
  (forall n tx, txSortedMap.Get m1 n = Some tx <->
     txSortedMap.Get m n = Some tx /\ tx ∉ removed) /\
  (forall n tx, txSortedMap.Get m1 n = Some tx ->
     Cost tx <= costLimit /\ Gas tx <= gasLimit).
Proof.
  intros Hinv f removed m1. pose proof Hinv as (_ & _ & Hn & _).
  destruct (txSortedMap_Filter_facts m f Hinv) as (Hinv1 & Hget1 & Hrem).
  fold removed m1 in Hinv1, Hget1, Hrem.
  assert (Hf : forall tx, f tx = true <-> costLimit < Cost tx \/ gasLimit < Gas tx).
  { intros tx. unfold f. rewrite orb_true_iff, !Z.ltb_lt. reflexivity. }
  assert (Hremoved : forall tx, tx ∈ removed <->
            txSortedMap.Get m (types.Transaction.Nonce tx) = Some tx /\
            (costLimit < Cost tx \/ gasLimit < Gas tx)).
  { intros tx. rewrite Hrem, Hf. reflexivity. }
  assert (Hkept : forall n tx, txSortedMap.Get m1 n = Some tx <->
            txSortedMap.Get m n = Some tx /\ f tx = false).
  { intros n tx. rewrite Hget1.
    destruct (txSortedMap.Get m n) as [tx'|] eqn:E.
    - destruct (f tx') eqn:Ef.
      + split; [discriminate|]. intros ([= ->] & Hbad). congruence.
      + split; [intros [= ->]; split; [reflexivity|exact Ef]|].
        intros ([= ->] & _). reflexivity.
    - split; [discriminate|]. intros (H & _). discriminate. }
  split; [exact Hinv1|]. split; [exact Hremoved|]. split.
  - intros n tx. rewrite Hkept, Hremoved. split.
    + intros (H & Hfalse). split; [exact H|]. intros (_ & Hex).
      apply Hf in Hex. congruence.
    + intros (H & Hnot). split; [exact H|].
      destruct (f tx) eqn:Ef; [|reflexivity]. exfalso. apply Hnot.
      split; [|apply Hf, Ef]. unfold txSortedMap.Get in *.
      destruct (Hn n tx H) as (-> & _). exact H.
  - intros n tx H. apply Hkept in H. destruct H as (_ & Hfalse).
    destruct (Z.le_gt_cases (Cost tx) costLimit);
      destruct (Z.le_gt_cases (Gas tx) gasLimit); try lia;
      exfalso; assert (f tx = true) by (apply Hf; lia); congruence.
Qed.

(** What is left of a map after [Filter] with a lowest nonce. *)
Lemma Filter_above (m : txSortedMap.t) (removed : list types.Transaction.t) :
  sortedMapInv m ->
  (forall r, r ∈ removed -> types.Transaction.Nonce r <= MaxUint64) ->
  let lowest :=
    fold_left (fun lowest tx =>
                 if types.Transaction.Nonce tx <? lowest
                 then types.Transaction.Nonce tx else lowest) removed MaxUint64 in
  let f := fun tx => lowest <? types.Transaction.Nonce tx in
  let invalids := fst (txSortedMap.Filter m f) in
  let m2 := snd (txSortedMap.Filter m f) in
  sortedMapInv m2 /\
  (forall tx, tx ∈ invalids <->
     txSortedMap.Get m (types.Transaction.Nonce tx) = Some tx /\
     (exists r, r ∈ removed /\
                types.Transaction.Nonce r < types.Transaction.Nonce tx)) /\
  (forall n tx, txSortedMap.Get m2 n = Some tx <->
     txSortedMap.Get m n = Some tx /\ tx ∉ invalids).
Proof.
  intros Hinv Hrange lowest f invalids m2. pose proof Hinv as (_ & _ & Hn & _).
  destruct (txSortedMap_Filter_facts m f Hinv) as (Hinv2 & Hget2 & Hinval).
  fold invalids m2 in Hinv2, Hget2, Hinval.
  assert (Hf : forall n tx, txSortedMap.Get m n = Some tx ->
            (f tx = true <->
             exists r, r ∈ removed /\
                       types.Transaction.Nonce r < types.Transaction.Nonce tx)).
  { intros n tx H. unfold f. rewrite Z.ltb_lt. unfold lowest. rewrite lowest_spec.
    destruct (Hn n tx H) as (-> & Hr). split.
    - intros [Hbad|Hex]; [lia|exact Hex].
    - intros Hex. right. exact Hex. }
  split; [exact Hinv2|]. split.
  - intros tx. rewrite Hinval. split.
    + intros (H & Hlow). split; [exact H|]. apply (Hf _ _ H), Hlow.
    + intros (H & Hex). split; [exact H|]. apply (Hf _ _ H), Hex.
  - intros n tx. rewrite Hget2, Hinval.
    destruct (txSortedMap.Get m n) as [tx'|] eqn:E.
    + destruct (f tx') eqn:Ef.
      * split; [discriminate|]. intros ([= ->] & Hnot). exfalso. apply Hnot.
        split; [|exact Ef]. unfold txSortedMap.Get in *.
        destruct (Hn n tx E) as (-> & _). exact E.
      * split; [intros [= ->]; split; [reflexivity|]; intros (_ & Hbad); congruence|].
        intros ([= ->] & _). reflexivity.
    + split; [discriminate|]. intros (H & _). discriminate.
Qed.

(** X24. [Filter] keeps the invariant of the list.  The transactions it
    returns as removed are exactly those of the list with a cost above the
    cost limit or a gas limit above the gas limit; the ones it returns as
    invalid are, in a strict list, exactly those within the limits with a
    nonce above the nonce of a removed one.  The list keeps the others, and
    all of them are within the limits. *)
Theorem txList_Filter_spec (l : txList.t) (costLimit gasLimit : Z) :
  txListInv Gas Cost l ->
  let r := txList.Filter Gas Cost l costLimit gasLimit in
  let removed := fst (fst r) in
  let invalids := snd (fst r) in
  let l' := snd r in
  txListInv Gas Cost l' /\
  (forall tx, tx ∈ removed <->
     txSortedMap.Get (txList.txs l) (types.Transaction.Nonce tx) = Some tx /\
     (costLimit < Cost tx \/ gasLimit < Gas tx)) /\
  (forall tx, tx ∈ invalids <->
     txList.strict l = true /\
     txSortedMap.Get (txList.txs l) (types.Transaction.Nonce tx) = Some tx /\
     Cost tx <= costLimit /\ Gas tx <= gasLimit /\
     (exists r, r ∈ removed /\
                types.Transaction.Nonce r < types.Transaction.Nonce tx)) /\
  (forall n tx, txSortedMap.Get (txList.txs l') n = Some tx <->
     txSortedMap.Get (txList.txs l) n = Some tx /\ (tx ∉ removed) /\ (tx ∉ invalids)) /\
  (forall n tx, txSortedMap.Get (txList.txs l') n = Some tx ->
     Cost tx <= costLimit /\ Gas tx <= gasLimit).
Proof.
  intros (Hinv & Hcaps) r removed invalids l'.
  pose proof Hinv as (_ & _ & Hn & _).
  subst removed invalids l' r. unfold txList.Filter.
  destruct ((txList.costcap l <=? costLimit) && (txList.gascap l <=? gasLimit))
    eqn:Eshort.
  { (* every transaction is within the limits *)
    apply andb_prop in Eshort. destruct Eshort as (Hc & Hg).
    apply Z.leb_le in Hc, Hg. cbn [fst snd].
    split; [split; assumption|]. split.
    { intros tx. split.
      - intros H. apply not_elem_of_nil in H. contradiction.
      - intros (H & Hex). apply Hcaps in H. lia. }
    split.
    { intros tx. split.
      - intros H. apply not_elem_of_nil in H. contradiction.
      - intros (_ & _ & _ & _ & r & Hr & _). apply not_elem_of_nil in Hr.
        contradiction. }
    split.
    { intros n tx. split; [|intros (H & _); exact H].
      intros H. split; [exact H|]. split; apply not_elem_of_nil. }
    intros n tx H. apply Hcaps in H. lia. }
  cbn [txList.txs].
  destruct (Filter_limits (txList.txs l) costLimit gasLimit Hinv)
    as (Hinv1 & Hremoved & Hkept & Hwithin).
  destruct (txSortedMap.Filter (txList.txs l) _) as [removed m1] eqn:E1.
  cbn [fst snd] in Hinv1, Hremoved, Hkept, Hwithin.
  cbn [txList.set_txs txList.strict txList.txs txList.costcap txList.gascap].
  destruct (txList.strict l) eqn:Estrict; cbn [andb].
  - destruct (Nat.ltb_spec 0 (length removed)) as [Hlen|Hlen].
    + (* strict mode, and something was removed *)
      destruct (Filter_above m1 removed Hinv1) as (Hinv2 & Hinval & Hget2).
      { intros r Hr. apply Hremoved in Hr. destruct Hr as (Hr & _).
        apply Hn in Hr. lia. }
      destruct (txSortedMap.Filter m1 _) as [invalids m2] eqn:E2.
      cbn [fst snd] in Hinv2, Hinval, Hget2 |- *.
      assert (Hinvalids : forall tx, tx ∈ invalids <->
                true = true /\
                txSortedMap.Get (txList.txs l) (types.Transaction.Nonce tx) = Some tx /\
                Cost tx <= costLimit /\ Gas tx <= gasLimit /\
                exists r, r ∈ removed /\
                          types.Transaction.Nonce r < types.Transaction.Nonce tx).
      { intros tx. rewrite Hinval. split.
        - intros (H & Hex). destruct (Hwithin _ _ H) as (Hco & Hga).
          apply Hkept in H. destruct H as (H & _). repeat split; assumption.
        - intros (_ & H & Hco & Hga & Hex). split; [|exact Hex].
          apply Hkept. split; [exact H|]. rewrite Hremoved. intros (_ & Hbad). lia. }
      split.
      { split; [exact Hinv2|]. cbn. intros n tx H. apply Hget2 in H.
        destruct H as (H & _). apply (Hwithin n), H. }
      split; [exact Hremoved|]. split; [exact Hinvalids|]. split.
      * intros n tx. rewrite Hget2, Hkept. tauto.
      * intros n tx H. apply Hget2 in H. destruct H as (H & _). apply (Hwithin n), H.
    + (* strict mode, and nothing was removed *)
      assert (removed = []) by (destruct removed; [reflexivity|cbn in Hlen; lia]).
      subst removed. cbn [fst snd txList.txs].
      split; [split; [exact Hinv1|exact Hwithin]|]. split; [exact Hremoved|]. split.
      { intros tx. split.
        - intros H. apply not_elem_of_nil in H. contradiction.
        - intros (_ & _ & _ & _ & r & Hr & _). apply not_elem_of_nil in Hr.
          contradiction. }
      split; [|exact Hwithin].
      intros n tx. rewrite Hkept. split.
      * intros (H & Hnot). split; [exact H|]. split; [exact Hnot|apply not_elem_of_nil].
      * intros (H & Hnot & _). split; assumption.
  - (* not in strict mode *)
    cbn [fst snd txList.txs].
    split; [split; [exact Hinv1|exact Hwithin]|]. split; [exact Hremoved|]. split.
    { intros tx. split.
      - intros H. apply not_elem_of_nil in H. contradiction.
      - intros (Hbad & _). discriminate. }
    split; [|exact Hwithin].
    intros n tx. rewrite Hkept. split.
    * intros (H & Hnot). split; [exact H|]. split; [exact Hnot|apply not_elem_of_nil].
    * intros (H & Hnot & _). split; assumption.
Qed.

(** X25. [Remove] keeps the invariant of the list and reports whether the
    nonce of the transaction is in the list.  If it is, a strict list also
    loses the transactions with a higher nonce, which are returned as
    invalid; a list that is not strict returns none.  Every other
    transaction stays. *)
Theorem txList_Remove_spec (l : txList.t) (tx : types.Transaction.t) :
  txListInv Gas Cost l ->
  let nonce := types.Transaction.Nonce tx in
  let r := txList.Remove l tx in
  let found := fst (fst r) in
  let invalids := snd (fst r) in
  let l' := snd r in
  txListInv Gas Cost l' /\
  (found = true <-> is_Some (txSortedMap.Get (txList.txs l) nonce)) /\
  (forall tx', tx' ∈ invalids <->
     found = true /\ txList.strict l = true /\
     txSortedMap.Get (txList.txs l) (types.Transaction.Nonce tx') = Some tx' /\
     nonce < types.Transaction.Nonce tx') /\
  (forall n, txSortedMap.Get (txList.txs l') n =
             if negb found then txSortedMap.Get (txList.txs l) n
             else if n =? nonce then None
             else if txList.strict l && (nonce <? n) then None
             else txSortedMap.Get (txList.txs l) n).
Proof.
  intros (Hinv & Hcaps) nonce r found invalids l'.
  pose proof Hinv as (_ & _ & Hn & _).
  subst found invalids l' r. unfold txList.Remove. fold nonce.
  destruct (txSortedMap_Remove_facts (txList.txs l) nonce Hinv)
    as (Hinv1 & Hfound & Hsame & Hget1 & _).
  destruct (txSortedMap.Remove (txList.txs l) nonce) as [found m1] eqn:E1.
  cbn [fst snd] in Hinv1, Hfound, Hsame, Hget1.
  destruct found; cbn [negb].
  - (* the transaction was in the list *)
    assert (Hsome : is_Some (txSortedMap.Get (txList.txs l) nonce)).
    { destruct (txSortedMap.Get (txList.txs l) nonce); [eexists; reflexivity|].
      discriminate. }
    cbn [txList.set_txs txList.strict txList.txs].
    destruct (txList.strict l) eqn:Estrict; cbn [andb].
    + set (f := fun tx0 => nonce <? types.Transaction.Nonce tx0).
      destruct (txSortedMap_Filter_facts m1 f Hinv1) as (Hinv2 & Hget2 & Hinval).
      destruct (txSortedMap.Filter m1 f) as [invalids m2] eqn:E2.
      cbn [fst snd] in Hinv2, Hget2, Hinval |- *.
      assert (Hlook : forall n, txSortedMap.Get m2 n =
                if n =? nonce then None
                else if nonce <? n then None
                else txSortedMap.Get (txList.txs l) n).
      { intros n. rewrite Hget2, Hget1. destruct (Z.eqb_spec n nonce); [reflexivity|].
        destruct (txSortedMap.Get (txList.txs l) n) as [tx'|] eqn:E.
        - unfold f. destruct (Hn n tx' E) as (-> & _).
          destruct (nonce <? types.Transaction.Nonce tx'); reflexivity.
        - destruct (nonce <? n); reflexivity. }
      split.
      { split; [exact Hinv2|]. cbn. intros n tx' H. rewrite Hlook in H.
        destruct (n =? nonce); [discriminate|]. destruct (nonce <? n); [discriminate|].
        apply (Hcaps n), H. }
      split; [split; [intros _; exact Hsome|reflexivity]|]. split; [|exact Hlook].
      intros tx'. rewrite Hinval, Hget1. unfold f. rewrite Z.ltb_lt. split.
      * intros (H & Hlt). destruct (Z.eqb_spec (types.Transaction.Nonce tx') nonce);
          [discriminate|]. repeat split; assumption.
      * intros (_ & _ & H & Hlt).
        destruct (Z.eqb_spec (types.Transaction.Nonce tx') nonce); [lia|].
        split; assumption.
    + cbn [fst snd txList.txs]. split.
      { split; [exact Hinv1|]. cbn. intros n tx' H. rewrite Hget1 in H.
        destruct (n =? nonce); [discriminate|]. apply (Hcaps n), H. }
      split; [split; [intros _; exact Hsome|reflexivity]|]. split; [|exact Hget1].
      intros tx'. split.
      * intros H. apply not_elem_of_nil in H. contradiction.
      * intros (_ & Hbad & _). discriminate.
  - (* the transaction was not in the list *)
    cbn [fst snd txList.set_txs txList.txs]. rewrite (Hsame eq_refl).
    split; [split; assumption|]. split.
    { split; [discriminate|]. intros [x Hx]. rewrite Hx in Hfound. discriminate. }
    split; [|reflexivity].
    intros tx'. split.
    + intros H. apply not_elem_of_nil in H. contradiction.
    + intros (Hbad & _). discriminate.
Qed.
End TxListFilter.

Lemma txList_Filter_spec_witness :
  PoolExample.transfer 4 10 50000
    ∈ fst (fst (txList.Filter PoolExample.Gas PoolExample.Cost PoolExample.list
                  1000000 30000)) /\
  PoolExample.transfer 6 10 21000
    ∈ snd (fst (txList.Filter PoolExample.Gas PoolExample.Cost PoolExample.list
                  1000000 30000)).
Proof.
  destruct (txList_Filter_spec PoolExample.Gas PoolExample.Cost PoolExample.list
              1000000 30000 PoolExample_list_inv) as (_ & Hrem & Hinval & _).
  assert (H4 : PoolExample.transfer 4 10 50000
                 ∈ fst (fst (txList.Filter PoolExample.Gas PoolExample.Cost
                               PoolExample.list 1000000 30000))).
  { apply Hrem. split; [vm_compute; reflexivity|]. right. vm_compute. reflexivity. }
  split; [exact H4|]. apply Hinval.
  split; [reflexivity|]. split; [vm_compute; reflexivity|].
  split; [vm_compute; discriminate|]. split; [vm_compute; discriminate|].
  exists (PoolExample.transfer 4 10 50000). split; [exact H4|]. vm_compute. reflexivity.
Defined.

Lemma txList_Remove_spec_witness :
  fst (fst (txList.Remove PoolExample.list (PoolExample.transfer 4 10 50000))) = true /\
  PoolExample.transfer 6 10 21000
    ∈ snd (fst (txList.Remove PoolExample.list (PoolExample.transfer 4 10 50000))).
Proof.
  destruct (txList_Remove_spec PoolExample.Gas PoolExample.Cost PoolExample.list
              (PoolExample.transfer 4 10 50000) PoolExample_list_inv)
    as (_ & Hfound & Hinval & _).
  assert (Hf : fst (fst (txList.Remove PoolExample.list
                           (PoolExample.transfer 4 10 50000))) = true).
  { apply Hfound. eexists. vm_compute. reflexivity. }
  split; [exact Hf|]. apply Hinval. split; [exact Hf|].
  split; [reflexivity|]. split; vm_compute; reflexivity.
Defined.
